(** * pgr2xbltotalstracking: the query engine of [api2.js]

    A shallow embedding of the read side of the leaderboard tracker
    ([src/api2.js]) and of the row parser of its scraper
    ([src/fetch2.js]), together with the properties its specification
    states about it and further properties read off the code.

    Modelling conventions.
    - A JavaScript or SQLite string is a [string]: a sequence of code
      units, here the units below 256.  [substring], [trim], the regular
      expressions and [LIKE] all work unit by unit.
    - The store is the SQLite file as [fetch2.js] fills it: TEXT for
      names, instants and sync ids, INTEGER for counters, NULL anywhere
      ([None]).  A table is its list of physical column names and its
      rows in rowid order.
    - A rejected promise or a thrown exception is [Err]; the handlers
      turn it into status 500.
    - SQLite's [strftime('%s', .)] and [DATE(.)] and JavaScript's
      [new Date(.)] are parameters of the development (section
      [Engine]); a concrete reading of the timestamps written by
      [datetime('now')] instantiates them in the examples.
    - Where SQLite leaves the order of equal sort keys open, rows keep
      the order in which they were met (the order the specification
      names "first encountered"). *)

From Stdlib Require Import String Ascii List ZArith Lia Bool Arith.
From Stdlib Require Import Permutation FinFun Sorted.
Import ListNotations.

Local Open Scope list_scope.
Local Open Scope string_scope.

Set Implicit Arguments.

(** ** Outcomes of fallible steps *)

Inductive outcome (A : Type) : Type :=
| Ok (a : A)
| Err (msg : string).

Arguments Ok {A} a.
Arguments Err {A} msg.

Definition bind {A B : Type} (m : outcome A) (k : A -> outcome B) : outcome B :=
  match m with
  | Ok a => k a
  | Err e => Err e
  end.

Notation "x <- m ;; k" := (bind m (fun x => k))
  (at level 61, m at next level, right associativity).

(** ** Code units and character classes *)

Definition code (c : ascii) : nat := nat_of_ascii c.

Definition between (lo hi : nat) (c : ascii) : bool :=
  (lo <=? code c)%nat && (code c <=? hi)%nat.

(** [\d] *)
Definition is_digit (c : ascii) : bool := between 48 57 c.
Definition is_upper (c : ascii) : bool := between 65 90 c.
Definition is_lower (c : ascii) : bool := between 97 122 c.

(** [[a-zA-Z0-9_]] *)
Definition is_word (c : ascii) : bool :=
  is_lower c || is_upper c || is_digit c || Ascii.eqb c "_".

(** ASCII case folding, as SQLite's [LIKE] applies it. *)
Definition to_lower (c : ascii) : ascii :=
  if is_upper c then ascii_of_nat (code c + 32) else c.

(** ASCII case folding of a text. *)
Fixpoint fold_case (s : string) : string :=
  match s with
  | EmptyString => EmptyString
  | String c s' => String (to_lower c) (fold_case s')
  end.

Fixpoint forallb_string (p : ascii -> bool) (s : string) : bool :=
  match s with
  | EmptyString => true
  | String c s' => p c && forallb_string p s'
  end.

Fixpoint existsb_string (p : ascii -> bool) (s : string) : bool :=
  match s with
  | EmptyString => false
  | String c s' => p c || existsb_string p s'
  end.

(** ** The anchored regular expressions of the source

    Every expression of [api2.js] that parses a timestamp is a fixed
    sequence of [\d] and literal characters between [^] and [$]. *)

Inductive atom : Type :=
| Digit
| Lit (c : ascii).

Definition atom_match (a : atom) (c : ascii) : bool :=
  match a with
  | Digit => is_digit c
  | Lit l => Ascii.eqb l c
  end.

Fixpoint re_match (re : list atom) (s : string) : bool :=
  match re, s with
  | [], EmptyString => true
  | a :: re', String c s' => atom_match a c && re_match re' s'
  | _, _ => false
  end.

(** [/^\d{4}-\d{2}-\d{2}$/] *)
Definition re_date : list atom :=
  [Digit; Digit; Digit; Digit; Lit "-"; Digit; Digit; Lit "-"; Digit; Digit].

(** [/^\d{4}-\d{2}-\d{2} \d{2}$/] *)
Definition re_date_hour : list atom :=
  (re_date ++ [Lit " "; Digit; Digit])%list.

(** [/^\d{4}-\d{2}-\d{2} \d{2}:\d{2}$/] *)
Definition re_date_hour_minute : list atom :=
  (re_date_hour ++ [Lit ":"; Digit; Digit])%list.

(** The full precision, which the source names in a comment but never
    tests: [YYYY-MM-DD HH:MM:SS]. *)
Definition re_full : list atom :=
  (re_date_hour_minute ++ [Lit ":"; Digit; Digit])%list.

(** [/^[a-zA-Z0-9_]+$/.test(tableName)] *)
Definition identifier_ok (tableName : string) : bool :=
  match tableName with
  | EmptyString => false
  | _ => forallb_string is_word tableName
  end.

(** ** SQLite's [LIKE]

    [%] matches any run of units, [_] exactly one, every other unit
    itself up to ASCII case; there is no escape character. *)

Fixpoint like (pattern s : string) : bool :=
  match pattern with
  | EmptyString =>
      match s with
      | EmptyString => true
      | String _ _ => false
      end
  | String p pattern' =>
      if Ascii.eqb p "%" then
        (fix skip (s : string) : bool :=
           like pattern' s ||
           match s with
           | EmptyString => false
           | String _ s' => skip s'
           end) s
      else
        match s with
        | EmptyString => false
        | String c s' =>
            (Ascii.eqb p "_" || Ascii.eqb (to_lower p) (to_lower c))
            && like pattern' s'
        end
  end.

(** [col LIKE ?] on a nullable column: NULL never matches. *)
Definition like_col (pattern : string) (v : option string) : bool :=
  match v with
  | Some s => like pattern s
  | None => false
  end.

(** ** [decodeURIComponent]

    [%XX] escapes are replaced by the unit they encode; an escape that
    is cut short, is not hexadecimal, or does not start a well-formed
    UTF-8 sequence throws [URIError].  Code points from 256 on have no
    unit in this model and are reported like a throw. *)

Definition hex_value (c : ascii) : option nat :=
  if is_digit c then Some (code c - 48)
  else if between 65 70 c then Some (code c - 55)
  else if between 97 102 c then Some (code c - 87)
  else None.

Definition hex_byte (h l : ascii) : option nat :=
  match hex_value h, hex_value l with
  | Some a, Some b => Some (16 * a + b)
  | _, _ => None
  end.

Fixpoint decode_units (s : string) : option string :=
  match s with
  | EmptyString => Some EmptyString
  | String c s1 =>
      if Ascii.eqb c "%" then
        match s1 with
        | String h (String l s2) =>
            match hex_byte h l with
            | Some b =>
                if (b <? 128)%nat then
                  option_map (String (ascii_of_nat b)) (decode_units s2)
                else if ((194 <=? b) && (b <=? 195))%nat then
                  match s2 with
                  | String p (String h' (String l' s3)) =>
                      match hex_byte h' l' with
                      | Some b' =>
                          if Ascii.eqb p "%" && (128 <=? b')%nat && (b' <=? 191)%nat then
                            option_map
                              (String (ascii_of_nat ((b - 192) * 64 + (b' - 128))))
                              (decode_units s3)
                          else None
                      | None => None
                      end
                  | _ => None
                  end
                else None
            | None => None
            end
        | _ => None
        end
      else option_map (String c) (decode_units s1)
  end.

Definition decodeURIComponent (s : string) : outcome string :=
  match decode_units s with
  | Some d => Ok d
  | None => Err "URIError: URI malformed"
  end.

(** ** JavaScript and SQL helpers on nullable text *)

(** Truthiness of a value that is [null] or a string. *)
Definition truthy (v : option string) : bool :=
  match v with
  | Some (String _ _) => true
  | _ => false
  end.

(** [col = ?]: NULL is equal to nothing. *)
Definition eq_col (v : option string) (p : string) : bool :=
  match v with
  | Some s => String.eqb s p
  | None => false
  end.

(** [a = b] between two nullable columns. *)
Definition eq_cols (a b : option string) : bool :=
  match a, b with
  | Some x, Some y => String.eqb x y
  | _, _ => false
  end.

(** [COALESCE(v, '')] *)
Definition coalesce (v : option string) : string :=
  match v with
  | Some s => s
  | None => ""
  end.

Fixpoint drop_while (p : ascii -> bool) (s : string) : string :=
  match s with
  | EmptyString => EmptyString
  | String c s' => if p c then drop_while p s' else s
  end.

(** Removes the trailing units that satisfy [p]. *)
Fixpoint drop_end (p : ascii -> bool) (s : string) : string :=
  match s with
  | EmptyString => EmptyString
  | String c s' =>
      match drop_end p s' with
      | EmptyString => if p c then EmptyString else String c EmptyString
      | rest => String c rest
      end
  end.

Definition strip (p : ascii -> bool) (s : string) : string :=
  drop_end p (drop_while p s).

(** SQLite's one-argument [TRIM] removes spaces only. *)
Definition sql_trim (s : string) : string := strip (Ascii.eqb " ") s.

(** [String.prototype.trim]: white space and line terminators (tab,
    line feed, vertical tab, form feed, carriage return, space,
    no-break space among the units below 256). *)
Definition js_space (c : ascii) : bool :=
  between 9 13 c || (code c =? 32)%nat || (code c =? 160)%nat.

Definition js_trim (s : string) : string := strip js_space s.

(** ** Sorting as [ORDER BY] does

    [before a b] holds when [a] sorts strictly ahead of [b]; rows with
    equal keys keep their relative order. *)

Section OrderBy.
Variable A : Type.
Variable before : A -> A -> bool.

Fixpoint insert_sorted (x : A) (l : list A) : list A :=
  match l with
  | [] => [x]
  | y :: l' => if before y x then y :: insert_sorted x l' else x :: l
  end.

Fixpoint order_by (l : list A) : list A :=
  match l with
  | [] => []
  | x :: l' => insert_sorted x (order_by l')
  end.
End OrderBy.

(** [LIMIT n] *)
Definition limit {A : Type} (n : nat) (l : list A) : list A := firstn n l.

(** Ascending order of a nullable number or text: NULL comes first. *)
Definition asc_int (a b : option Z) : bool :=
  match a, b with
  | None, Some _ => true
  | Some x, Some y => (x <? y)%Z
  | _, _ => false
  end.

Definition asc_text (a b : option string) : bool :=
  match a, b with
  | None, Some _ => true
  | Some x, Some y => String.ltb x y
  | _, _ => false
  end.

(** ** The store *)

Record Row : Type := {
  id : option Z;
  leaderboard_id : option Z;
  rank : option Z;
  name : option string;
  first_place_finishes : option Z;
  second_place_finishes : option Z;
  third_place_finishes : option Z;
  races_completed : option Z;
  kudos_rank : option Z;
  kudos : option Z;
  folder_date : option string;
  data_date : option string;
  sync_id : option string
}.

Record Table : Type := {
  columns : list string;
  rows : list Row
}.

Record SyncRow : Type := {
  sync_row_id : option string;
  sync_date : option string
}.

Record Database : Type := {
  tables : list (string * Table);
  Sync : option (list SyncRow)
}.

Fixpoint assoc {V : Type} (k : string) (l : list (string * V)) : option V :=
  match l with
  | [] => None
  | (k', v) :: l' => if String.eqb k k' then Some v else assoc k l'
  end.

Definition mem (x : string) (l : list string) : bool :=
  existsb (String.eqb x) l.

(** [FROM tableName] *)
Definition from (db : Database) (tableName : string) : outcome Table :=
  match assoc tableName (tables db) with
  | Some t => Ok t
  | None => Err ("SQLITE_ERROR: no such table: " ++ tableName)
  end.

(** The cell of a TEXT column.  The entity name lives in the column
    [name] or [field4], the instants in [folder_date]/[field11] and
    [data_date]/[field12], the run in [sync_id]/[field13]. *)
Definition text_column (col : string) : option (Row -> option string) :=
  if String.eqb col "name" || String.eqb col "field4" then Some name
  else if String.eqb col "folder_date" || String.eqb col "field11" then Some folder_date
  else if String.eqb col "data_date" || String.eqb col "field12" then Some data_date
  else if String.eqb col "sync_id" || String.eqb col "field13" then Some sync_id
  else None.

Definition kudos_column (col : string) : option (Row -> option Z) :=
  if String.eqb col "kudos" || String.eqb col "field10" then Some kudos
  else None.

Definition no_such_column {A : Type} (col : string) : outcome A :=
  Err ("SQLITE_ERROR: no such column: " ++ col).

Definition text_cells (t : Table) (col : string) : outcome (Row -> option string) :=
  if mem col (columns t) then
    match text_column col with
    | Some f => Ok f
    | None => no_such_column col
    end
  else no_such_column col.

Definition kudos_cells (t : Table) (col : string) : outcome (Row -> option Z) :=
  if mem col (columns t) then
    match kudos_column col with
    | Some f => Ok f
    | None => no_such_column col
    end
  else no_such_column col.

(** The thirteen columns the listing and the hour lookup select from
    [XBLTotal]. *)
Definition xbltotal_columns : list string :=
  ["id"; "leaderboard_id"; "rank"; "name"; "first_place_finishes";
   "second_place_finishes"; "third_place_finishes"; "races_completed";
   "kudos_rank"; "kudos"; "folder_date"; "data_date"; "sync_id"].

Definition select_listing (t : Table) : outcome (list Row) :=
  match find (fun c => negb (mem c (columns t))) xbltotal_columns with
  | Some c => no_such_column ("t." ++ c)
  | None => Ok (rows t)
  end.

(** ** Existence probes

    Every statement handed to [runQuery] by a probe is recorded with
    its text and its bound parameters, so that what reaches the SQL
    text can be told from what is bound. *)

Record statement : Type := {
  text : string;
  bound : list string
}.

(** [sqlite_master], restricted to [type='table']. *)
Definition sqlite_master (db : Database) : list string :=
  (map fst (tables db) ++
   match Sync db with
   | Some _ => ["Sync"]
   | None => []
   end)%list.

Definition master_query : string :=
  "SELECT name FROM sqlite_master WHERE type='table' AND name=?".

(** The engine resolves the name of a table up to ASCII case. *)
Definition same_name (a b : string) : bool :=
  String.eqb (fold_case a) (fold_case b).

(** [PRAGMA table_info(tableName)]: one row per column of the table the
    name denotes, none when it denotes nothing.  A schema holds no two
    tables whose names agree up to case, so that the table of exactly
    this name, when there is one, is the table the engine finds.  The
    store holds ordinary tables only, none of them named by a reserved
    word of SQL: it has no views and none of the engine's own tables,
    which the pragma would describe as well, and a reserved word in
    the place of the name is a syntax error. *)
Definition table_info (db : Database) (tableName : string) : list string :=
  match assoc tableName (tables db) with
  | Some t => columns t
  | None =>
      match find (fun entry => same_name tableName (fst entry)) (tables db) with
      | Some entry => columns (snd entry)
      | None =>
          match Sync db with
          | Some _ =>
              if same_name tableName "Sync" then ["sync_id"; "sync_date"] else []
          | None => []
          end
      end
  end.

Definition tableExists (db : Database) (tableName : string)
  : bool * list statement :=
  let query := master_query in
  let rows := filter (String.eqb tableName) (sqlite_master db) in
  (negb (length rows =? 0)%nat, [{| text := query; bound := [tableName] |}]).

Definition columnExists (db : Database) (tableName columnName : string)
  : bool * list statement :=
  if negb (identifier_ok tableName) then (false, [])
  else
    let query := "PRAGMA table_info(" ++ tableName ++ ")" in
    let rows := table_info db tableName in
    (existsb (fun row_name => String.eqb row_name columnName) rows,
     [{| text := query; bound := [] |}]).

(** ** Schema adapter *)

Definition fieldMapping : list (string * string) :=
  [("id", "field1"); ("leaderboard_id", "field2"); ("rank", "field3");
   ("name", "field4"); ("first_place_finishes", "field5");
   ("second_place_finishes", "field6"); ("third_place_finishes", "field7");
   ("races_completed", "field8"); ("kudos_rank", "field9");
   ("kudos", "field10"); ("folder_date", "field11");
   ("data_date", "field12"); ("sync_id", "field13")].

Definition uses_generic_names (tableName : string) : bool :=
  String.eqb tableName "XBLTotal1" || String.eqb tableName "XBLTotal2"
  || String.eqb tableName "XBLTotal3".

Definition getColumnName (tableName logicalColumnName : string) : string :=
  if uses_generic_names tableName then
    match assoc logicalColumnName fieldMapping with
    | Some physical => physical
    | None => logicalColumnName
    end
  else logicalColumnName.

(** ** Responses of the HTTP layer *)

Inductive response (A : Type) : Type :=
| Json (body : A)
| Status (status : nat) (error : string).

Arguments Json {A} body.
Arguments Status {A} status error.

Definition respond {A : Type} (handler : outcome (response A)) : response A :=
  match handler with
  | Ok r => r
  | Err msg => Status 500 msg
  end.

(** The query string of [GET /api2/xbltotal]. *)
Record ListingQuery : Type := {
  q_name : option string;
  q_folder_date : option string;
  q_data_date : option string;
  q_sync_id : option string;
  q_all : option string
}.

(** ** A reading of the timestamps [datetime('now')] writes

    [YYYY-MM-DD HH:MM:SS] with a calendar date and a time of day.  It
    stands for SQLite's and JavaScript's own parsers in the examples;
    the other spellings those parsers accept are left out. *)

Fixpoint digits_value (acc : Z) (s : string) : Z :=
  match s with
  | EmptyString => acc
  | String c s' => digits_value (10 * acc + Z.of_nat (code c - 48)) s'
  end.

Definition field_value (start len : nat) (s : string) : Z :=
  digits_value 0 (substring start len s).

Definition is_leap (y : Z) : bool :=
  ((y mod 4 =? 0) && negb (y mod 100 =? 0) || (y mod 400 =? 0))%Z.

Definition days_in_month (y m : Z) : Z :=
  if (m =? 2)%Z then (if is_leap y then 29 else 28)
  else if ((m =? 4) || (m =? 6) || (m =? 9) || (m =? 11))%Z then 30
  else 31.

Definition days_from_civil (y m d : Z) : Z :=
  let y' := if (m <=? 2)%Z then (y - 1)%Z else y in
  let era := (y' / 400)%Z in
  let yoe := (y' - era * 400)%Z in
  let mp := ((m + 9) mod 12)%Z in
  let doy := ((153 * mp + 2) / 5 + d - 1)%Z in
  let doe := (yoe * 365 + yoe / 4 - yoe / 100 + doy)%Z in
  (era * 146097 + doe - 719468)%Z.

Definition well_formed_timestamp (s : string) : bool :=
  re_match re_full s &&
  (let y := field_value 0 4 s in
   let m := field_value 5 2 s in
   let d := field_value 8 2 s in
   ((1 <=? m) && (m <=? 12) && (1 <=? d) && (d <=? days_in_month y m)
    && (field_value 11 2 s <=? 23) && (field_value 14 2 s <=? 59)
    && (field_value 17 2 s <=? 59))%Z).

(** Seconds since 1970-01-01 00:00:00 UTC. *)
Definition timestamp_epoch (s : string) : option Z :=
  if well_formed_timestamp s then
    Some (days_from_civil (field_value 0 4 s) (field_value 5 2 s) (field_value 8 2 s)
          * 86400 + field_value 11 2 s * 3600 + field_value 14 2 s * 60
          + field_value 17 2 s)%Z
  else None.

(** The calendar day. *)
Definition timestamp_date (s : string) : option string :=
  if well_formed_timestamp s then Some (substring 0 10 s) else None.

(** Milliseconds since the epoch, in a process whose zone is UTC. *)
Definition timestamp_ms (s : string) : option Z :=
  option_map (Z.mul 1000) (timestamp_epoch s).

(** ** The handlers *)

Section Engine.

(** [strftime('%s', s)]: seconds since the epoch, NULL when SQLite
    cannot read [s] as a time. *)
Variable strftime_s : string -> option Z.

(** [DATE(s)] *)
Variable DATE : string -> option string.

(** [new Date(s)]: the time value in milliseconds, [None] for an
    invalid date (NaN). *)
Variable Date_parse : string -> option Z.

(** *** Latest sync *)

Definition getLatestSyncId (db : Database) : outcome (option string) :=
  match Sync db with
  | None => Err "SQLITE_ERROR: no such table: Sync"
  | Some sync_rows =>
      let rows :=
        limit 1 (order_by (fun a b => asc_text (sync_date b) (sync_date a))
                          sync_rows) in
      Ok (match rows with
          | r :: _ => sync_row_id r
          | [] => None
          end)
  end.

(** *** Closest date of one column *)

(** [ABS(strftime('%s', col) - strftime('%s', ?))] *)
Definition time_diff (v : option string) (target : string) : option Z :=
  match v with
  | Some s =>
      match strftime_s s, strftime_s target with
      | Some a, Some b => Some (Z.abs (a - b))
      | _, _ => None
      end
  | None => None
  end.

Definition is_not_null {A : Type} (v : option A) : bool :=
  match v with
  | Some _ => true
  | None => false
  end.

(** Called with its default [extraConditions = ''] and [params = []]
    only. *)
Definition getClosestDate (db : Database) (table column targetDate : string)
  : outcome (option string) :=
  t <- from db table ;;
  cell <- text_cells t column ;;
  let rows :=
    limit 1
      (order_by (fun a b => asc_int (time_diff (cell a) targetDate)
                                    (time_diff (cell b) targetDate))
                (filter (fun r => is_not_null (cell r)) (rows t))) in
  Ok (match rows with
      | r :: _ => cell r
      | [] => None
      end).

(** *** Time resolver *)

(** Lines 53-66: the padding of the decoded target. *)
Definition targetDateTime (decodedDate : string) : string :=
  if re_match re_date decodedDate then decodedDate ++ " 12:00:00"
  else if re_match re_date_hour decodedDate then decodedDate ++ ":00:00"
  else if re_match re_date_hour_minute decodedDate then decodedDate ++ ":00"
  else decodedDate.

(** [SELECT folder_date FROM (SELECT folder_date FROM XBLTotal WHERE
    folder_date LIKE ?) LIMIT 1] *)
Definition exactHourQuery (db : Database) (hourPattern : string)
  : outcome (list (option string)) :=
  t <- from db "XBLTotal" ;;
  cell <- text_cells t "folder_date" ;;
  Ok (limit 1 (map cell (filter (fun r => like_col hourPattern (cell r)) (rows t)))).

(** [SELECT folder_date, ABS(...) as time_diff FROM (SELECT folder_date
    FROM XBLTotal WHERE folder_date IS NOT NULL) ORDER BY time_diff ASC
    LIMIT 1] *)
Definition closestQuery (db : Database) (target : string)
  : outcome (list (option string)) :=
  t <- from db "XBLTotal" ;;
  cell <- text_cells t "folder_date" ;;
  Ok (limit 1
        (order_by (fun a b => asc_int (time_diff a target) (time_diff b target))
                  (filter is_not_null (map cell (rows t))))).

Definition getClosestFolderDateHour (db : Database) (targetDate : string)
  : outcome (option string) :=
  decodedDate <- decodeURIComponent targetDate ;;
  let targetDateTime := targetDateTime decodedDate in
  let targetDateHour := substring 0 13 targetDateTime in
  let hourPattern := targetDateHour ++ "%" in
  rows <- exactHourQuery db hourPattern ;;
  rows <- (if (length rows =? 0)%nat then closestQuery db targetDateTime
           else Ok rows) ;;
  match rows with
  | Some foundDate :: _ => Ok (Some (substring 0 13 foundDate))
  | None :: _ => Err "TypeError: Cannot read properties of null (reading 'substring')"
  | [] => Ok None
  end.

(** *** [GET /api2/xbltotal] *)

Definition listing (db : Database) (q : ListingQuery)
  : outcome (response (list Row)) :=
  let conditions1 :=
    if truthy (q_name q)
    then [fun r : Row => like_col ("%" ++ coalesce (q_name q) ++ "%") (name r)]
    else [] in
  let conditions2 :=
    if truthy (q_sync_id q)
    then [fun r : Row => eq_col (sync_id r) (coalesce (q_sync_id q))]
    else [] in
  let useLatestSync :=
    negb (truthy (q_sync_id q)) && negb (truthy (q_folder_date q))
    && negb (truthy (q_data_date q))
    && negb (eq_col (q_all q) "true") in
  conditions3 <-
    (if useLatestSync then
       latestSyncId <- getLatestSyncId db ;;
       Ok (if truthy latestSyncId
           then [fun r : Row => eq_col (sync_id r) (coalesce latestSyncId)]
           else [])
     else Ok []) ;;
  let conditions := (conditions1 ++ conditions2 ++ conditions3)%list in
  t <- from db "XBLTotal" ;;
  selected <- select_listing t ;;
  let rows := filter (fun r => forallb (fun c => c r) conditions) selected in
  rows <-
    (if truthy (q_folder_date q) then
       closest <- getClosestDate db "XBLTotal" "folder_date"
                    (coalesce (q_folder_date q)) ;;
       Ok (if truthy closest
           then filter (fun r => eq_cols (folder_date r) closest) rows
           else rows)
     else Ok rows) ;;
  rows <-
    (if truthy (q_data_date q) then
       closest <- getClosestDate db "XBLTotal" "data_date"
                    (coalesce (q_data_date q)) ;;
       Ok (if truthy closest
           then filter (fun r => eq_cols (data_date r) closest) rows
           else rows)
     else Ok rows) ;;
  Ok (Json rows).

Definition get_xbltotal (db : Database) (q : ListingQuery)
  : response (list Row) :=
  respond (listing db q).

(** *** [GET /api2/xbltotal/chart]: table checks *)

Record checks : Type := {
  exists_ : bool;
  hasName : bool;
  hasSyncId : bool;
  hasFolderDate : bool;
  hasKudos : bool
}.

(** [Object.keys(tableChecks)] *)
Definition chart_tables : list string :=
  ["XBLTotal"; "XBLTotal1"; "XBLTotal2"; "XBLTotal3"].

Definition check_table (db : Database) (tableName : string) : checks :=
  if fst (tableExists db tableName) then
    if uses_generic_names tableName then
      {| exists_ := true;
         hasName := fst (columnExists db tableName "field4");
         hasSyncId := fst (columnExists db tableName "field13");
         hasFolderDate := fst (columnExists db tableName "field11");
         hasKudos := fst (columnExists db tableName "field10") |}
    else
      {| exists_ := true;
         hasName := fst (columnExists db tableName "name");
         hasSyncId := fst (columnExists db tableName "sync_id");
         hasFolderDate := fst (columnExists db tableName "folder_date");
         hasKudos := fst (columnExists db tableName "kudos") |}
  else
    {| exists_ := false; hasName := false; hasSyncId := false;
       hasFolderDate := false; hasKudos := false |}.

Definition tableChecks (db : Database) : list (string * checks) :=
  map (fun tableName => (tableName, check_table db tableName)) chart_tables.

Fixpoint collect {A B : Type} (f : A -> outcome (list B)) (l : list A)
  : outcome (list B) :=
  match l with
  | [] => Ok []
  | x :: l' =>
      ys <- f x ;;
      zs <- collect f l' ;;
      Ok (ys ++ zs)%list
  end.

(** *** Top ten of the latest sync *)

(** One branch of the [UNION ALL]: [SELECT nameCol as name, kudosCol as
    kudos FROM tableName WHERE syncIdCol = ?]. *)
Record top10Part : Type := {
  p_table : string;
  p_nameCol : string;
  p_kudosCol : string;
  p_syncIdCol : string
}.

Definition top10Parts (tc : list (string * checks)) : list top10Part :=
  flat_map
    (fun entry =>
       let '(tableName, c) := entry in
       if exists_ c && hasName c && hasSyncId c && hasKudos c then
         [{| p_table := tableName;
             p_nameCol := getColumnName tableName "name";
             p_kudosCol := getColumnName tableName "kudos";
             p_syncIdCol := getColumnName tableName "sync_id" |}]
       else [])
    tc.

Definition top10_part_rows (db : Database) (param : string) (p : top10Part)
  : outcome (list (option string * option Z)) :=
  t <- from db (p_table p) ;;
  name_cell <- text_cells t (p_nameCol p) ;;
  kudos_cell <- kudos_cells t (p_kudosCol p) ;;
  sync_cell <- text_cells t (p_syncIdCol p) ;;
  Ok (map (fun r => (name_cell r, kudos_cell r))
          (filter (fun r => eq_col (sync_cell r) param) (rows t))).

(** Equality of grouping keys: [GROUP BY] puts the NULLs together. *)
Definition same_key (a b : option string) : bool :=
  match a, b with
  | None, None => true
  | Some x, Some y => String.eqb x y
  | _, _ => false
  end.

(** The distinct keys in the order of their first appearance. *)
Fixpoint distinct {K : Type} (eqb : K -> K -> bool) (l : list K) : list K :=
  match l with
  | [] => []
  | k :: l' => k :: filter (fun k' => negb (eqb k k')) (distinct eqb l')
  end.

(** [MAX] skips NULL and is NULL on nothing but NULLs. *)
Definition max_int (a b : option Z) : option Z :=
  match a, b with
  | None, _ => b
  | _, None => a
  | Some x, Some y => Some (Z.max x y)
  end.

Definition max_text (a b : option string) : option string :=
  match a, b with
  | None, _ => b
  | _, None => a
  | Some x, Some y => Some (if String.ltb x y then y else x)
  end.

(** [SELECT name, MAX(kudos) as max_kudos FROM (...) GROUP BY name] *)
Definition group_max_kudos (union : list (option string * option Z))
  : list (option string * option Z) :=
  map (fun n =>
         (n, fold_right max_int None
               (map snd (filter (fun row => same_key n (fst row)) union))))
      (distinct same_key (map fst union)).

(** [... ORDER BY max_kudos DESC LIMIT 10] *)
Definition top10Query (db : Database) (parts : list top10Part) (param : string)
  : outcome (list (option string * option Z)) :=
  union <- collect (top10_part_rows db param) parts ;;
  Ok (limit 10
        (order_by (fun a b => asc_int (snd b) (snd a)) (group_max_kudos union))).

(** *** Daily history *)

(** One branch: [SELECT folderDateCol as folder_date, nameCol as name,
    kudosCol as kudos FROM tableName WHERE folderDateCol IS NOT NULL AND
    nameCol IS NOT NULL AND nameCol != '' AND nameCol IN (...)]. *)
Record dataPart : Type := {
  d_table : string;
  d_folderDateCol : string;
  d_nameCol : string;
  d_kudosCol : string
}.

Definition dataParts (tc : list (string * checks)) : list dataPart :=
  flat_map
    (fun entry =>
       let '(tableName, c) := entry in
       if exists_ c && hasName c && hasFolderDate c && hasKudos c then
         [{| d_table := tableName;
             d_folderDateCol := getColumnName tableName "folder_date";
             d_nameCol := getColumnName tableName "name";
             d_kudosCol := getColumnName tableName "kudos" |}]
       else [])
    tc.

Record sample : Type := {
  s_folder_date : option string;
  s_name : option string;
  s_kudos : option Z
}.

Definition data_part_rows (db : Database) (top10Users : list (option string))
  (p : dataPart) : outcome (list sample) :=
  t <- from db (d_table p) ;;
  date_cell <- text_cells t (d_folderDateCol p) ;;
  name_cell <- text_cells t (d_nameCol p) ;;
  kudos_cell <- kudos_cells t (d_kudosCol p) ;;
  Ok (map (fun r => {| s_folder_date := date_cell r; s_name := name_cell r;
                       s_kudos := kudos_cell r |})
          (filter (fun r =>
                     is_not_null (date_cell r) && is_not_null (name_cell r)
                     && negb (eq_col (name_cell r) "")
                     && existsb (eq_cols (name_cell r)) top10Users)
                  (rows t))).

(** [DATE(folder_date)] on a nullable column. *)
Definition date_of (v : option string) : option string :=
  match v with
  | Some s => DATE s
  | None => None
  end.

(** [TRIM(COALESCE(name, ''))] *)
Definition trimmed_name (s : sample) : string :=
  sql_trim (coalesce (s_name s)).

(** [name IS NOT NULL AND TRIM(COALESCE(name, '')) != ''] *)
Definition has_name (s : sample) : bool :=
  is_not_null (s_name s) && negb (String.eqb (trimmed_name s) "").

(** A row of the inner [GROUP BY TRIM(COALESCE(name, '')),
    DATE(folder_date)]. *)
Record day_group : Type := {
  g_name : string;
  g_date : option string;
  g_max_folder_date : option string
}.

Definition group_key (s : sample) : string * option string :=
  (trimmed_name s, date_of (s_folder_date s)).

Definition same_group (a b : string * option string) : bool :=
  String.eqb (fst a) (fst b) && same_key (snd a) (snd b).

Definition day_groups (union : list sample) : list day_group :=
  let named := filter has_name union in
  map (fun k =>
         {| g_name := fst k;
            g_date := snd k;
            g_max_folder_date :=
              fold_right max_text None
                (map s_folder_date
                     (filter (fun s => same_group k (group_key s)) named)) |})
      (distinct same_group (map group_key named)).

Record chart_row : Type := {
  r_date : option string;
  r_name : string;
  r_kudos : option Z
}.

(** The [ON] clause and the outer [WHERE]. *)
Definition joins (t1 : sample) (t2 : day_group) : bool :=
  String.eqb (trimmed_name t1) (g_name t2)
  && eq_cols (date_of (s_folder_date t1)) (g_date t2)
  && eq_cols (s_folder_date t1) (g_max_folder_date t2)
  && has_name t1.

(** [ORDER BY date ASC, TRIM(COALESCE(t1.name, '')) ASC] *)
Definition chart_order (a b : chart_row) : bool :=
  asc_text (r_date a) (r_date b)
  || (negb (asc_text (r_date b) (r_date a)) && String.ltb (r_name a) (r_name b)).

Definition historyQuery (db : Database) (parts : list dataPart)
  (top10Users : list (option string)) : outcome (list chart_row) :=
  union <- collect (data_part_rows db top10Users) parts ;;
  let t2s := day_groups union in
  Ok (order_by chart_order
        (flat_map
           (fun t1 =>
              flat_map
                (fun t2 =>
                   if joins t1 t2 then
                     [{| r_date := date_of (s_folder_date t1);
                         r_name := trimmed_name t1;
                         r_kudos := s_kudos t1 |}]
                   else [])
                t2s)
           union)).

(** *** Organising the rows by user *)

Record point : Type := {
  date : option string;
  point_kudos : Z
}.

(** The properties every object literal inherits; reading one of them
    from the empty [chartData] yields a value that is neither falsy
    nor an array. *)
Definition object_prototype_keys : list string :=
  ["constructor"; "__defineGetter__"; "__defineSetter__"; "hasOwnProperty";
   "__lookupGetter__"; "__lookupSetter__"; "isPrototypeOf";
   "propertyIsEnumerable"; "toString"; "valueOf"; "__proto__";
   "toLocaleString"].

Fixpoint push_point (userName : string) (p : point)
  (chartData : list (string * list point)) : list (string * list point) :=
  match chartData with
  | [] => [(userName, [p])]
  | (k, ps) :: rest =>
      if String.eqb userName k then (k, ps ++ [p])%list :: rest
      else (k, ps) :: push_point userName p rest
  end.

(** [row.kudos || 0] *)
Definition kudos_or_zero (v : option Z) : Z :=
  match v with
  | Some k => k
  | None => 0%Z
  end.

(** The body of [rows.forEach]. *)
Definition organize_row (chartData : list (string * list point)) (row : chart_row)
  : outcome (list (string * list point)) :=
  let userName := js_trim (r_name row) in
  if String.eqb userName "" then Ok chartData
  else
    match assoc userName chartData with
    | None =>
        if mem userName object_prototype_keys
        then Err "TypeError: chartData[userName].push is not a function"
        else Ok (push_point userName
                   {| date := r_date row; point_kudos := kudos_or_zero (r_kudos row) |}
                   chartData)
    | Some _ =>
        Ok (push_point userName
              {| date := r_date row; point_kudos := kudos_or_zero (r_kudos row) |}
              chartData)
    end.

Fixpoint organize (chartData : list (string * list point)) (rows : list chart_row)
  : outcome (list (string * list point)) :=
  match rows with
  | [] => Ok chartData
  | row :: rows' =>
      chartData' <- organize_row chartData row ;;
      organize chartData' rows'
  end.

Definition is_empty {A : Type} (l : list A) : bool :=
  (length l =? 0)%nat.

Definition chart (db : Database) : outcome (response (list (string * list point))) :=
  let tableChecks := tableChecks db in
  latestSyncId <- getLatestSyncId db ;;
  let top10Parts := top10Parts tableChecks in
  if is_empty top10Parts then Ok (Json [])
  else
    top10Rows <- top10Query db top10Parts (coalesce latestSyncId) ;;
    if is_empty top10Rows then Ok (Json [])
    else
      let top10Users := map fst top10Rows in
      let dataParts := dataParts tableChecks in
      if is_empty dataParts then Ok (Json [])
      else
        rows <- historyQuery db dataParts top10Users ;;
        chartData <- organize [] rows ;;
        Ok (Json chartData).

Definition get_chart (db : Database) : response (list (string * list point)) :=
  respond (chart db).

(** *** [GET /api2/xbltotal/:date] *)

(** [row.folder_date ? new Date(row.folder_date) : null] *)
Definition row_date (r : Row) : option (option Z) :=
  if truthy (folder_date r) then Some (Date_parse (coalesce (folder_date r)))
  else None.

(** [currentDate && (!existingDate || currentDate > existingDate)];
    a comparison with an invalid date is false. *)
Definition replaces (row existing : Row) : bool :=
  match row_date row with
  | None => false
  | Some currentDate =>
      match row_date existing with
      | None => true
      | Some existingDate =>
          match currentDate, existingDate with
          | Some c, Some e => (e <? c)%Z
          | _, _ => false
          end
      end
  end.

(** [Map.prototype.set]: a known key keeps its place. *)
Fixpoint map_set (k : string) (v : Row) (m : list (string * Row))
  : list (string * Row) :=
  match m with
  | [] => [(k, v)]
  | (k', v') :: m' =>
      if String.eqb k k' then (k', v) :: m'
      else (k', v') :: map_set k v m'
  end.

Definition dedupe_step (nameMap : list (string * Row)) (row : Row)
  : list (string * Row) :=
  if truthy (name row) then
    let name := coalesce (name row) in
    match assoc name nameMap with
    | None => map_set name row nameMap
    | Some existing =>
        if replaces row existing then map_set name row nameMap else nameMap
    end
  else nameMap.

(** Lines 469-489. *)
Definition dedupeByIdentity (rows : list Row) : list Row :=
  map snd (fold_left dedupe_step rows []).

Definition by_date (db : Database) (dateParam : string)
  : outcome (response (list Row)) :=
  closestHour <- getClosestFolderDateHour db dateParam ;;
  if negb (truthy closestHour)
  then Ok (Status 404 "No data found for the specified date")
  else
    let hourPattern := coalesce closestHour ++ "%" in
    t <- from db "XBLTotal" ;;
    selected <- select_listing t ;;
    let rows := filter (fun r => like_col hourPattern (folder_date r)) selected in
    let deduplicatedRows := dedupeByIdentity rows in
    if is_empty deduplicatedRows
    then Ok (Status 404 "No data found for the specified date")
    else Ok (Json deduplicatedRows).

Definition get_by_date (db : Database) (dateParam : string) : response (list Row) :=
  respond (by_date db dateParam).

(** *** [GET /api2/xbltotal/dates] *)

(** [SELECT DISTINCT DATE(folder_date) as date FROM XBLTotal WHERE
    folder_date IS NOT NULL ORDER BY date DESC], then
    [rows.map(row => row.date)]. *)
Definition dates (db : Database) : outcome (response (list (option string))) :=
  t <- from db "XBLTotal" ;;
  cell <- text_cells t "folder_date" ;;
  let rows :=
    order_by (fun a b => asc_text b a)
      (distinct same_key
         (map date_of (filter is_not_null (map cell (rows t))))) in
  Ok (Json rows).

Definition get_dates (db : Database) : response (list (option string)) :=
  respond (dates db).

End Engine.

(** ** The scraper's row parser ([fetch2.js], lines 79-103)

    A table row is the list of the [textContent] of its [td] cells. *)

(** The value of a digit in a radix of at most 16. *)
Definition digit_value (radix : nat) (c : ascii) : option nat :=
  match hex_value c with
  | Some v => if (v <? radix)%nat then Some v else None
  | None => None
  end.

Fixpoint leading_digits (radix : nat) (s : string) : list nat :=
  match s with
  | EmptyString => []
  | String c s' =>
      match digit_value radix c with
      | Some v => v :: leading_digits radix s'
      | None => []
      end
  end.

Definition digits_number (radix : nat) (ds : list nat) : Z :=
  fold_left (fun acc d => (acc * Z.of_nat radix + Z.of_nat d)%Z) ds 0%Z.

(** [parseInt(s)] without a radix: leading white space is skipped, a
    sign is read, [0x] or [0X] selects radix 16, and the longest run of
    digits is the value; [None] is NaN.  The value is kept exact, as a
    JavaScript number is below 2^53. *)
Definition parseInt (s : string) : option Z :=
  let s1 := drop_while js_space s in
  let signed :=
    match s1 with
    | String c r =>
        if Ascii.eqb c "-" then (true, r)
        else if Ascii.eqb c "+" then (false, r)
        else (false, s1)
    | EmptyString => (false, s1)
    end in
  let s2 := snd signed in
  let prefixed :=
    match s2 with
    | String z (String x r) =>
        if Ascii.eqb z "0" && (Ascii.eqb x "x" || Ascii.eqb x "X")
        then (16, r) else (10, s2)
    | _ => (10, s2)
    end in
  match leading_digits (fst prefixed) (snd prefixed) with
  | [] => None
  | ds =>
      let n := digits_number (fst prefixed) ds in
      Some (if fst signed then (- n)%Z else n)
  end.

(** [parseInt(cell.textContent.trim()) || 0] *)
Definition number_cell (textContent : string) : Z :=
  match parseInt (js_trim textContent) with
  | Some n => n
  | None => 0%Z
  end.

(** [cell.textContent.trim() || ''] *)
Definition name_cell (textContent : string) : string := js_trim textContent.

Record Entry : Type := {
  e_rank : Z;
  e_name : string;
  e_first_place_finishes : Z;
  e_second_place_finishes : Z;
  e_third_place_finishes : Z;
  e_races_completed : Z;
  e_kudos_rank : Z;
  e_kudos : Z
}.

(** The callback of [rows.map]: [null] for a row of fewer than eight
    cells. *)
Definition entry_of_cells (cells : list string) : option Entry :=
  match cells with
  | c0 :: c1 :: c2 :: c3 :: c4 :: c5 :: c6 :: c7 :: _ =>
      Some {| e_rank := number_cell c0;
              e_name := name_cell c1;
              e_first_place_finishes := number_cell c2;
              e_second_place_finishes := number_cell c3;
              e_third_place_finishes := number_cell c4;
              e_races_completed := number_cell c5;
              e_kudos_rank := number_cell c6;
              e_kudos := number_cell c7 |}
  | _ => None
  end.

(** [rows.map(...).filter(item => item !== null)] *)
Definition leaderboardData (table_rows : list (list string)) : list Entry :=
  flat_map (fun cells =>
              match entry_of_cells cells with
              | Some e => [e]
              | None => []
              end)
           table_rows.

(** A text of decimal digits. *)
Definition decimal (s : string) : bool :=
  match s with
  | EmptyString => false
  | _ => forallb_string is_digit s
  end.

(** What may follow the digits of a decimal number without joining
    them: anything but a digit, [x] or [X]. *)
Definition ends_number (rest : string) : bool :=
  match rest with
  | EmptyString => true
  | String c _ =>
      negb (is_digit c || Ascii.eqb c "x" || Ascii.eqb c "X")
  end.

(** ** Vocabulary of the statements *)

(** The units of a timestamp: a digit, [-], a space or [:]. *)
Definition plain (c : ascii) : bool :=
  is_digit c || Ascii.eqb c "-" || Ascii.eqb c " " || Ascii.eqb c ":".

Definition plain_atom (a : atom) : bool :=
  match a with
  | Digit => true
  | Lit c => plain c
  end.

(** A target at one of the precisions the resolver is written for. *)
Definition recognized (d : string) : bool :=
  re_match re_date d || re_match re_date_hour d
  || re_match re_date_hour_minute d || re_match re_full d.

(** The three precisions of the specification: date, date and hour,
    date and time to the second. *)
Definition three_precisions (d : string) : bool :=
  re_match re_date d || re_match re_date_hour d || re_match re_full d.

(** The capture instant [dedupeByIdentity] compares: absent when
    [folder_date] is NULL or empty. *)
Definition instant (Date_parse : string -> option Z) (r : Row) : option Z :=
  match row_date Date_parse r with
  | Some (Some ms) => Some ms
  | _ => None
  end.

(** What a branch of the history union reads off a stored row. *)
Definition sample_of (r : Row) : sample :=
  {| s_folder_date := folder_date r; s_name := name r; s_kudos := kudos r |}.

(** The [WHERE] clause of a branch of the history union. *)
Definition in_history (top10Users : list (option string)) (r : Row) : bool :=
  is_not_null (folder_date r) && is_not_null (name r)
  && negb (eq_col (name r) "")
  && existsb (eq_cols (name r)) top10Users.

(** The rows a table contributes to the top-ten union. *)
Definition top10_rows_of (db : Database) (param : string) (p : top10Part)
  : list (option string * option Z) :=
  match assoc (p_table p) (tables db) with
  | Some t => map (fun r => (name r, kudos r))
                  (filter (fun r => eq_col (sync_id r) param) (rows t))
  | None => []
  end.

(** The rows a table contributes to the history union. *)
Definition data_rows_of (db : Database) (top10Users : list (option string))
  (p : dataPart) : list sample :=
  match assoc (d_table p) (tables db) with
  | Some t => map sample_of (filter (in_history top10Users) (rows t))
  | None => []
  end.

(** The order in which the loop of [dedupeByIdentity] compares two
    rows: a row without [folder_date] lies below every row that has
    one; two instants that [new Date] reads compare as numbers; an
    instant it cannot read, an Invalid Date, compares with nothing. *)
Definition later_than (Date_parse : string -> option Z) (a b : Row) : Prop :=
  match row_date Date_parse a, row_date Date_parse b with
  | Some _, None => True
  | Some (Some x), Some (Some y) => (y < x)%Z
  | _, _ => False
  end.

(** The entry [dedupeByIdentity] holds for a name, seen from the rows
    read so far: later than the rows of the name before it, those with
    an unreadable instant apart, and surpassed by none of the rows of
    the name after it. *)
Definition kept_in (Date_parse : string -> option Z) (l : list Row)
  (k : string) (v : Row) : Prop :=
  name v = Some k /\ k <> ""
  /\ exists earlier later,
       l = (earlier ++ v :: later)%list
       /\ (forall x, In x earlier -> name x = Some k ->
                     later_than Date_parse v x
                     \/ row_date Date_parse x = Some None)
       /\ (forall x, In x later -> name x = Some k ->
                     ~ later_than Date_parse x v).

(** The invariant of the loop over the rows of a bucket. *)
Definition dedupe_inv (Date_parse : string -> option Z) (l : list Row)
  (m : list (string * Row)) : Prop :=
  NoDup (map fst m)
  /\ (forall k v, In (k, v) m -> kept_in Date_parse l k v)
  /\ (forall x k, In x l -> name x = Some k -> k <> "" ->
                  exists v, In (k, v) m).

(** A text without the wildcards of [LIKE]. *)
Definition wildcard_free (s : string) : bool :=
  forallb_string (fun c => negb (Ascii.eqb c "%" || Ascii.eqb c "_")) s.

(** [s] holds [n] somewhere, up to ASCII case. *)
Definition contains_nocase (n : string) (v : option string) : Prop :=
  exists pre mid post,
    v = Some (pre ++ mid ++ post) /\ fold_case mid = fold_case n.

(** The point [rows.forEach] pushes for a row of the history query. *)
Definition point_of (row : chart_row) : point :=
  {| date := r_date row; point_kudos := kudos_or_zero (r_kudos row) |}.

(** The points of the rows filed under the key [k], in row order. *)
Definition series (k : string) (rows : list chart_row) : list point :=
  map point_of (filter (fun row => String.eqb (js_trim (r_name row)) k) rows).

(** The series stored under [k], empty when [k] is no key. *)
Definition stored_series (k : string) (chartData : list (string * list point))
  : list point :=
  match assoc k chartData with
  | Some ps => ps
  | None => []
  end.

(** The key under which the chart files a stored name. *)
Definition chart_key (n : string) : string := js_trim (sql_trim n).

(** The union the history query reads for a set of users. *)
Definition history_union (db : Database) (top10Users : list (option string))
  : list sample :=
  flat_map (data_rows_of db top10Users) (dataParts (tableChecks db)).

(** The rows of the history query on the tables that passed the
    checks. *)
Definition history_rows (DATE : string -> option string) (db : Database)
  (top10Users : list (option string)) : list chart_row :=
  order_by chart_order
    (flat_map
       (fun t1 =>
          flat_map
            (fun t2 =>
               if joins DATE t1 t2 then
                 [{| r_date := date_of DATE (s_folder_date t1);
                     r_name := trimmed_name t1;
                     r_kudos := s_kudos t1 |}]
               else [])
            (day_groups DATE (history_union db top10Users)))
       (history_union db top10Users)).

(** The users the chart endpoint selects. *)
Definition top10_users (db : Database) (param : string) : list (option string) :=
  map fst
    (limit 10
       (order_by (fun a b => asc_int (snd b) (snd a))
          (group_max_kudos
             (flat_map (top10_rows_of db param) (top10Parts (tableChecks db)))))).

(** The non-empty names of the rows, in row order. *)
Definition names_of (rows : list Row) : list string :=
  flat_map (fun r => if truthy (name r) then [coalesce (name r)] else []) rows.

(** What [Map.prototype.set] does to the keys when called for [k]. *)
Definition add_key (keys : list string) (k : string) : list string :=
  if mem k keys then keys else (keys ++ [k])%list.

(** [rest] opens with two hexadecimal digits. *)
Definition hex_pair_ahead (rest : string) : bool :=
  match rest with
  | String h (String l _) =>
      match hex_byte h l with
      | Some _ => true
      | None => false
      end
  | _ => false
  end.

(** ** Sample stores *)

Definition snapshot (n : string) (k : Z) (instant_text sync : string) : Row :=
  {| id := None; leaderboard_id := Some 1%Z; rank := None; name := Some n;
     first_place_finishes := Some 0%Z; second_place_finishes := Some 0%Z;
     third_place_finishes := Some 0%Z; races_completed := Some 0%Z;
     kudos_rank := None; kudos := Some k;
     folder_date := Some instant_text; data_date := Some instant_text;
     sync_id := Some sync |}.

(** A row without capture instant. *)
Definition undated (n : string) (k : Z) (sync : string) : Row :=
  {| id := None; leaderboard_id := Some 1%Z; rank := None; name := Some n;
     first_place_finishes := Some 0%Z; second_place_finishes := Some 0%Z;
     third_place_finishes := Some 0%Z; races_completed := Some 0%Z;
     kudos_rank := None; kudos := Some k;
     folder_date := None; data_date := None;
     sync_id := Some sync |}.

Definition generic_columns : list string := map snd fieldMapping.

Definition run (sync instant_text : string) : SyncRow :=
  {| sync_row_id := Some sync; sync_date := Some instant_text |}.

(** A single capture. *)
Definition one_capture : Database :=
  {| tables :=
       [("XBLTotal",
         {| columns := xbltotal_columns;
            rows := [snapshot "A" 100 "2024-11-26 17:00:00" "S1"] |})];
     Sync := Some [run "S1" "2024-11-26T17:00:00.000Z"] |}.

(** Two captures, one hour apart. *)
Definition two_hours : Database :=
  {| tables :=
       [("XBLTotal",
         {| columns := xbltotal_columns;
            rows := [snapshot "A" 100 "2024-11-26 17:00:00" "S1";
                     snapshot "A" 120 "2024-11-26 18:00:00" "S2"] |})];
     Sync := Some [run "S1" "2024-11-26T17:00:00.000Z";
                   run "S2" "2024-11-26T18:00:00.000Z"] |}.

(** The only capture of the hour sits in [XBLTotal1]. *)
Definition capture_in_XBLTotal1 : Database :=
  {| tables :=
       [("XBLTotal", {| columns := xbltotal_columns; rows := [] |});
        ("XBLTotal1",
         {| columns := generic_columns;
            rows := [snapshot "A" 100 "2024-11-26 17:55:21" "S1"] |})];
     Sync := Some [run "S1" "2024-11-26T17:55:21.000Z"] |}.

(** The same entity under one sync in two tables, with 50 and 70. *)
Definition fifty_and_seventy : Database :=
  {| tables :=
       [("XBLTotal",
         {| columns := xbltotal_columns;
            rows := [snapshot "A" 50 "2024-11-26 17:00:00" "S1"] |});
        ("XBLTotal1",
         {| columns := generic_columns;
            rows := [snapshot "A" 70 "2024-11-26 17:00:00" "S1"] |})];
     Sync := Some [run "S1" "2024-11-26T17:00:00.000Z"] |}.

(** One entity captured at 10:00 and, twice in the same batch, at
    17:00 of the same day. *)
Definition repeated_capture : Database :=
  {| tables :=
       [("XBLTotal",
         {| columns := xbltotal_columns;
            rows := [snapshot "A" 90 "2024-11-26 10:00:00" "S1";
                     snapshot "A" 100 "2024-11-26 17:00:00" "S2";
                     snapshot "A" 100 "2024-11-26 17:00:00" "S2"] |})];
     Sync := Some [run "S1" "2024-11-26T10:00:00.000Z";
                   run "S2" "2024-11-26T17:00:00.000Z"] |}.

(** [XBLTotal3] without its [field13] (sync id), and no other table of
    snapshots. *)
Definition lone_no_sync_column : Database :=
  {| tables :=
       [("XBLTotal3",
         {| columns := ["field4"; "field10"; "field11"];
            rows := [snapshot "A" 100 "2024-11-26 17:00:00" "S1"] |})];
     Sync := Some [run "S1" "2024-11-26T17:00:00.000Z"] |}.

(** [XBLTotal3] without its [field13] (sync id). *)
Definition no_sync_column : Database :=
  {| tables :=
       [("XBLTotal",
         {| columns := xbltotal_columns;
            rows := [snapshot "A" 120 "2024-11-27 09:00:00" "S2"] |});
        ("XBLTotal3",
         {| columns := ["field4"; "field10"; "field11"];
            rows := [snapshot "A" 100 "2024-11-26 17:00:00" "S1"] |})];
     Sync := Some [run "S1" "2024-11-26T17:00:00.000Z";
                   run "S2" "2024-11-27T09:00:00.000Z"] |}.

(** A table whose name holds a space. *)
Definition spaced_table : Database :=
  {| tables := [("a b", {| columns := ["x"]; rows := [] |})];
     Sync := None |}.

(** Snapshots of two runs and an empty [Sync]. *)
Definition no_sync_rows : Database :=
  {| tables :=
       [("XBLTotal",
         {| columns := xbltotal_columns;
            rows := [snapshot "A" 100 "2024-11-26 17:00:00" "S1";
                     snapshot "A" 120 "2024-11-27 09:00:00" "S2"] |})];
     Sync := Some [] |}.

Definition no_parameters : ListingQuery :=
  {| q_name := None; q_folder_date := None; q_data_date := None;
     q_sync_id := None; q_all := None |}.

(** * Properties *)

Unset Implicit Arguments.

(** * Strings *)

Lemma forallb_string_app (p : ascii -> bool) (s1 s2 : string) :
  forallb_string p (s1 ++ s2) = forallb_string p s1 && forallb_string p s2.
Proof.
  induction s1 as [|c s1 IH]; simpl.
  - reflexivity.
  - rewrite IH. apply andb_assoc.
Qed.

Lemma forallb_string_impl (p q : ascii -> bool) (s : string) :
  (forall c, p c = true -> q c = true) ->
  forallb_string p s = true -> forallb_string q s = true.
Proof.
  intros Hpq. induction s as [|c s IH]; simpl; [reflexivity|].
  intros H. apply andb_true_iff in H as [Hc Hs].
  rewrite (Hpq _ Hc), (IH Hs). reflexivity.
Qed.


Lemma length_app (s1 s2 : string) :
  String.length (s1 ++ s2) = String.length s1 + String.length s2.
Proof.
  induction s1 as [|c s1 IH]; simpl; [reflexivity | now rewrite IH].
Qed.


Lemma substring_app (s1 s2 : string) :
  substring 0 (String.length s1) (s1 ++ s2) = s1.
Proof.
  induction s1 as [|c s1 IH]; simpl.
  - destruct s2; reflexivity.
  - now rewrite IH.
Qed.


(** * The regular expressions *)

Lemma re_match_length (re : list atom) (s : string) :
  re_match re s = true -> String.length s = List.length re.
Proof.
  revert s. induction re as [|a re IH]; intros [|c s]; simpl; try discriminate.
  - reflexivity.
  - intros H. apply andb_true_iff in H as [_ H]. now rewrite (IH _ H).
Qed.

Lemma re_match_plain (re : list atom) (s : string) :
  forallb plain_atom re = true -> re_match re s = true ->
  forallb_string plain s = true.
Proof.
  revert s. induction re as [|a re IH]; intros [|c s]; simpl; try discriminate.
  - reflexivity.
  - intros Hre H. apply andb_true_iff in Hre as [Ha Hre].
    apply andb_true_iff in H as [Hc H]. rewrite (IH _ Hre H), andb_true_r.
    destruct a as [|l]; simpl in *.
    + unfold plain. now rewrite Hc.
    + apply Ascii.eqb_eq in Hc. now subst.
Qed.

Lemma re_match_app (re1 re2 : list atom) (s1 s2 : string) :
  re_match re1 s1 = true -> re_match re2 s2 = true ->
  re_match (re1 ++ re2) (s1 ++ s2) = true.
Proof.
  revert s1. induction re1 as [|a re1 IH]; intros [|c s1]; simpl; try discriminate.
  - trivial.
  - intros H1 H2. apply andb_true_iff in H1 as [Hc H1].
    now rewrite Hc, (IH _ H1 H2).
Qed.

Lemma re_match_other_length (re re' : list atom) (s : string) :
  re_match re s = true -> List.length re' <> List.length re ->
  re_match re' s = false.
Proof.
  intros H Hlen. destruct (re_match re' s) eqn:E; [|reflexivity].
  apply re_match_length in H, E. congruence.
Qed.

Lemma plain_cases (c : ascii) :
  plain c = true -> c = " "%char \/ c = "-"%char \/ 48 <= code c <= 58.
Proof.
  unfold plain, is_digit, between. intros H.
  repeat (apply orb_true_iff in H as [H|H]).
  - apply andb_true_iff in H as [H1 H2].
    apply Nat.leb_le in H1, H2. right; right. lia.
  - apply Ascii.eqb_eq in H. subst. right; left; reflexivity.
  - apply Ascii.eqb_eq in H. subst. left; reflexivity.
  - apply Ascii.eqb_eq in H. subst. right; right. vm_compute. lia.
Qed.

Lemma code_neq (c d : ascii) : code c <> code d -> Ascii.eqb c d = false.
Proof.
  intros H. apply Ascii.eqb_neq. intros ->. now apply H.
Qed.

Lemma plain_not_percent (c : ascii) : plain c = true -> Ascii.eqb c "%" = false.
Proof.
  intros H. apply code_neq. destruct (plain_cases _ H) as [->|[->|Hc]].
  - vm_compute; lia.
  - vm_compute; lia.
  - change (code "%") with 37. lia.
Qed.




Lemma decode_units_plain (s : string) :
  forallb_string plain s = true -> decode_units s = Some s.
Proof.
  induction s as [|c s IH]; [reflexivity|].
  cbn [forallb_string]. intros H. apply andb_true_iff in H as [Hc Hs].
  cbn [decode_units]. rewrite (plain_not_percent _ Hc), (IH Hs). reflexivity.
Qed.

Lemma like_percent (f : string) : like "%" f = true.
Proof.
  induction f as [|c f IH]; [reflexivity|].
  simpl in *. exact IH.
Qed.


(** * Sorting *)

Section OrderByFacts.
Variable A : Type.
Variable before : A -> A -> bool.

Lemma In_insert_sorted (x y : A) (l : list A) :
  In y (insert_sorted before x l) <-> y = x \/ In y l.
Proof.
  induction l as [|z l IH]; simpl.
  - intuition congruence.
  - destruct (before z x); simpl; rewrite ?IH; intuition congruence.
Qed.

Lemma In_order_by (y : A) (l : list A) :
  In y (order_by before l) <-> In y l.
Proof.
  induction l as [|x l IH]; simpl; [reflexivity|].
  rewrite In_insert_sorted, IH. intuition congruence.
Qed.

Lemma length_insert_sorted (x : A) (l : list A) :
  length (insert_sorted before x l) = S (length l).
Proof.
  induction l as [|z l IH]; simpl; [reflexivity|].
  destruct (before z x); simpl; [now rewrite IH | reflexivity].
Qed.

Lemma length_order_by (l : list A) : length (order_by before l) = length l.
Proof.
  induction l as [|x l IH]; simpl; [reflexivity|].
  now rewrite length_insert_sorted, IH.
Qed.

Hypothesis before_asym : forall a b, before a b = true -> before b a = false.
Hypothesis before_ntrans :
  forall a b c, before a b = false -> before b c = false -> before a c = false.

Lemma before_irrefl (a : A) : before a a = false.
Proof.
  destruct (before a a) eqn:E; [|reflexivity].
  now rewrite (before_asym _ _ E) in E.
Qed.

(** The first row of a sorted result has no row strictly ahead of it. *)
Lemma head_order_by (l : list A) (h : A) (tl : list A) :
  order_by before l = h :: tl -> forall x, In x l -> before x h = false.
Proof.
  revert h tl. induction l as [|a l IH]; intros h tl; simpl; [discriminate|].
  destruct (order_by before l) as [|y ys] eqn:E.
  - simpl. intros [= <- <-] x [<-|Hx].
    + apply before_irrefl.
    + apply (In_order_by x) in Hx. rewrite E in Hx. destruct Hx.
  - simpl. destruct (before y a) eqn:Eya.
    + intros [= <- <-] x [<-|Hx].
      * now apply before_asym.
      * now apply (IH y ys).
    + intros [= <- <-] x [<-|Hx].
      * apply before_irrefl.
      * apply before_ntrans with y; [now apply (IH y ys) | exact Eya].
Qed.
End OrderByFacts.

Lemma asc_int_asym (a b : option Z) : asc_int a b = true -> asc_int b a = false.
Proof.
  destruct a, b; simpl; try congruence. intros H.
  apply Z.ltb_lt in H. apply Z.ltb_ge. lia.
Qed.

Lemma asc_int_ntrans (a b c : option Z) :
  asc_int a b = false -> asc_int b c = false -> asc_int a c = false.
Proof.
  destruct a, b, c; simpl; try congruence. intros H1 H2.
  apply Z.ltb_ge in H1, H2. apply Z.ltb_ge. lia.
Qed.

Lemma append_assoc (s1 s2 s3 : string) : (s1 ++ s2) ++ s3 = s1 ++ (s2 ++ s3).
Proof.
  induction s1 as [|c s1 IH]; simpl; [reflexivity | now rewrite IH].
Qed.

(** * The padded target *)

Lemma targetDateTime_date (d : string) :
  re_match re_date d = true -> targetDateTime d = d ++ " 12:00:00".
Proof. intros H. unfold targetDateTime. now rewrite H. Qed.

Lemma targetDateTime_date_hour (d : string) :
  re_match re_date_hour d = true -> targetDateTime d = d ++ ":00:00".
Proof.
  intros H. unfold targetDateTime.
  rewrite (re_match_other_length re_date_hour re_date d H) by (vm_compute; lia).
  now rewrite H.
Qed.

Lemma targetDateTime_date_hour_minute (d : string) :
  re_match re_date_hour_minute d = true -> targetDateTime d = d ++ ":00".
Proof.
  intros H. unfold targetDateTime.
  rewrite (re_match_other_length re_date_hour_minute re_date d H) by (vm_compute; lia).
  rewrite (re_match_other_length re_date_hour_minute re_date_hour d H)
    by (vm_compute; lia).
  now rewrite H.
Qed.

Lemma targetDateTime_full (d : string) :
  re_match re_full d = true -> targetDateTime d = d.
Proof.
  intros H. unfold targetDateTime.
  rewrite (re_match_other_length re_full re_date d H) by (vm_compute; lia).
  rewrite (re_match_other_length re_full re_date_hour d H) by (vm_compute; lia).
  rewrite (re_match_other_length re_full re_date_hour_minute d H)
    by (vm_compute; lia).
  reflexivity.
Qed.

(** The padded target of a recognised input has the full precision. *)
Lemma recognized_full (d : string) :
  recognized d = true -> re_match re_full (targetDateTime d) = true.
Proof.
  unfold recognized. intros H.
  repeat (apply orb_true_iff in H as [H|H]).
  - rewrite (targetDateTime_date d H).
    change re_full
      with (re_date
              ++ [Lit " "; Digit; Digit; Lit ":"; Digit; Digit;
                  Lit ":"; Digit; Digit])%list.
    now apply re_match_app.
  - rewrite (targetDateTime_date_hour d H).
    change re_full
      with (re_date_hour ++ [Lit ":"; Digit; Digit; Lit ":"; Digit; Digit])%list.
    now apply re_match_app.
  - rewrite (targetDateTime_date_hour_minute d H).
    change re_full with (re_date_hour_minute ++ [Lit ":"; Digit; Digit])%list.
    now apply re_match_app.
  - now rewrite (targetDateTime_full d H).
Qed.

Lemma full_plain (s : string) :
  re_match re_full s = true -> forallb_string plain s = true.
Proof. apply re_match_plain. reflexivity. Qed.

Lemma recognized_plain (d : string) :
  recognized d = true -> forallb_string plain d = true.
Proof.
  unfold recognized. intros H.
  repeat (apply orb_true_iff in H as [H|H]);
    revert H; apply re_match_plain; reflexivity.
Qed.


Lemma decodeURIComponent_plain (s : string) :
  forallb_string plain s = true -> decodeURIComponent s = Ok s.
Proof.
  intros H. unfold decodeURIComponent. now rewrite (decode_units_plain s H).
Qed.

(** * The time resolver *)

Section Resolver.
Variable strftime_s : string -> option Z.
Variable db : Database.
Variable t : Table.
Hypothesis has_table : assoc "XBLTotal" (tables db) = Some t.
Hypothesis has_column : mem "folder_date" (columns t) = true.

Lemma exactHourQuery_eq (pattern : string) :
  exactHourQuery db pattern
  = Ok (limit 1 (map folder_date
                     (filter (fun r => like_col pattern (folder_date r)) (rows t)))).
Proof.
  unfold exactHourQuery, from, text_cells. rewrite has_table. simpl.
  rewrite has_column. reflexivity.
Qed.

Lemma closestQuery_eq (target : string) :
  closestQuery strftime_s db target
  = Ok (limit 1
          (order_by (fun a b => asc_int (time_diff strftime_s a target)
                                        (time_diff strftime_s b target))
                    (filter (@is_not_null string) (map folder_date (rows t))))).
Proof.
  unfold closestQuery, from, text_cells. rewrite has_table. simpl.
  rewrite has_column. reflexivity.
Qed.


Lemma exact_miss (pattern : string) :
  (forall r, In r (rows t) -> like_col pattern (folder_date r) = false) ->
  filter (fun r => like_col pattern (folder_date r)) (rows t) = [].
Proof.
  intros H. induction (rows t) as [|r l IH]; [reflexivity|].
  simpl. rewrite (H r) by (left; reflexivity).
  apply IH. intros r' Hr'. apply H. now right.
Qed.

Lemma not_null_spec (v : option string) (l : list (option string)) :
  In v (filter (@is_not_null string) l) <-> exists f, v = Some f /\ In (Some f) l.
Proof.
  rewrite filter_In. split.
  - intros [Hin Hv]. destruct v as [f|]; [|discriminate]. now exists f.
  - intros [f [-> Hin]]. now split.
Qed.

(** What the fallback returns: nothing on a pool without instants,
    else an instant that no other is strictly closer than. *)
Lemma closest_spec (target : string) :
  (filter (@is_not_null string) (map folder_date (rows t)) = [] /\
   limit 1 (order_by (fun a b => asc_int (time_diff strftime_s a target)
                                         (time_diff strftime_s b target))
              (filter (@is_not_null string) (map folder_date (rows t)))) = [])
  \/ (exists f,
        In (Some f) (map folder_date (rows t))
        /\ limit 1 (order_by (fun a b => asc_int (time_diff strftime_s a target)
                                                 (time_diff strftime_s b target))
                      (filter (@is_not_null string) (map folder_date (rows t))))
           = [Some f]
        /\ forall g, In (Some g) (map folder_date (rows t)) ->
                     asc_int (time_diff strftime_s (Some g) target)
                             (time_diff strftime_s (Some f) target) = false).
Proof.
  set (pool := filter (@is_not_null string) (map folder_date (rows t))).
  set (before := fun a b => asc_int (time_diff strftime_s a target)
                                    (time_diff strftime_s b target)).
  destruct (order_by before pool) as [|h tl] eqn:E.
  - left. split; [|reflexivity].
    pose proof (length_order_by _ before pool) as L.
    rewrite E in L. destruct pool; [reflexivity | discriminate].
  - right.
    assert (Hh : In h pool).
    { apply (In_order_by _ before). rewrite E. now left. }
    apply not_null_spec in Hh as [f [-> Hf]].
    exists f. split; [exact Hf|]. split; [reflexivity|].
    intros g Hg.
    apply (head_order_by _ before) with (l := pool) (tl := tl).
    + intros a b. apply asc_int_asym.
    + intros a b c. apply asc_int_ntrans.
    + exact E.
    + apply not_null_spec. now exists g.
Qed.

Lemma resolver_eq (d d' : string) :
  decode_units d = Some d' ->
  getClosestFolderDateHour strftime_s db d
  = let target := targetDateTime d' in
    let pattern := substring 0 13 target ++ "%" in
    let exact := limit 1 (map folder_date
                   (filter (fun r => like_col pattern (folder_date r)) (rows t))) in
    let found :=
      if (length exact =? 0)%nat
      then limit 1
             (order_by (fun a b => asc_int (time_diff strftime_s a target)
                                           (time_diff strftime_s b target))
                       (filter (@is_not_null string) (map folder_date (rows t))))
      else exact in
    match found with
    | Some foundDate :: _ => Ok (Some (substring 0 13 foundDate))
    | None :: _ => Err "TypeError: Cannot read properties of null (reading 'substring')"
    | [] => Ok None
    end.
Proof.
  intros Hd. unfold getClosestFolderDateHour, decodeURIComponent.
  rewrite Hd. cbn [bind]. rewrite exactHourQuery_eq. cbn [bind].
  destruct (length _ =? 0)%nat; [rewrite closestQuery_eq|]; reflexivity.
Qed.

(** Without a stored instant there is no bucket; with one there always
    is, whatever the input. *)
Lemma resolver_total (d d' : string) :
  decode_units d = Some d' ->
  ((forall r, In r (rows t) -> folder_date r = None) ->
   getClosestFolderDateHour strftime_s db d = Ok None)
  /\ ((exists r, In r (rows t) /\ folder_date r <> None) ->
      exists f, In (Some f) (map folder_date (rows t))
                /\ getClosestFolderDateHour strftime_s db d
                   = Ok (Some (substring 0 13 f))).
Proof.
  intros Hd. rewrite (resolver_eq d d' Hd). cbv zeta.
  set (target := targetDateTime d').
  set (pattern := substring 0 13 target ++ "%").
  split.
  - intros Hnull.
    rewrite exact_miss.
    2:{ intros r Hr. now rewrite (Hnull r Hr). }
    destruct (closest_spec target) as [[_ ->]|[f [Hf _]]]; [reflexivity|].
    apply in_map_iff in Hf as [r [Hr Hin]]. rewrite (Hnull r Hin) in Hr.
    discriminate.
  - intros [r [Hin Hr]].
    destruct (filter (fun r => like_col pattern (folder_date r)) (rows t))
      as [|r0 l] eqn:E.
    + destruct (closest_spec target) as [[Hpool _]|[f [Hf [-> _]]]].
      * exfalso. destruct (folder_date r) as [f|] eqn:Ef; [|congruence].
        assert (Hp : In (Some f) (filter (@is_not_null string)
                                         (map folder_date (rows t)))).
        { apply not_null_spec. exists f. split; [reflexivity|].
          apply in_map_iff. now exists r. }
        rewrite Hpool in Hp. destruct Hp.
      * exists f. split; [exact Hf | reflexivity].
    + assert (H0 : In r0 (filter (fun r => like_col pattern (folder_date r)) (rows t)))
        by (rewrite E; now left).
      apply filter_In in H0 as [Hin0 H0].
      destruct (folder_date r0) as [f|] eqn:Ef; [|discriminate].
      exists f. split.
      * apply in_map_iff. now exists r0.
      * simpl. now rewrite Ef.
Qed.
End Resolver.

Lemma resolver_padded (strftime_s : string -> option Z) (db : Database)
  (d padded : string) :
  forallb_string plain d = true ->
  targetDateTime d = padded ->
  re_match re_full padded = true ->
  getClosestFolderDateHour strftime_s db d
  = getClosestFolderDateHour strftime_s db padded.
Proof.
  intros Hd Ht Hp. unfold getClosestFolderDateHour.
  rewrite (decodeURIComponent_plain d Hd).
  rewrite (decodeURIComponent_plain padded (full_plain padded Hp)).
  cbn [bind]. rewrite Ht, (targetDateTime_full padded Hp). reflexivity.
Qed.

(** C6.  A date-only target is padded to noon of that date and a
    date-and-hour target with zero minutes and seconds, before the hour
    is cut off: the padded text is the target, its first thirteen units
    are the hour searched, and the resolver answers as it does on the
    text padded by hand. *)
Theorem default_padding (strftime_s : string -> option Z) (db : Database)
  (date date_hour : string) :
  re_match re_date date = true ->
  re_match re_date_hour date_hour = true ->
  (targetDateTime date = date ++ " 12:00:00"
   /\ substring 0 13 (targetDateTime date) = date ++ " 12"
   /\ getClosestFolderDateHour strftime_s db date
      = getClosestFolderDateHour strftime_s db (date ++ " 12:00:00"))
  /\ (targetDateTime date_hour = date_hour ++ ":00:00"
      /\ substring 0 13 (targetDateTime date_hour) = date_hour
      /\ getClosestFolderDateHour strftime_s db date_hour
         = getClosestFolderDateHour strftime_s db (date_hour ++ ":00:00")).
Proof.
  intros Hd Hh.
  assert (Rd : recognized date = true) by (unfold recognized; now rewrite Hd).
  assert (Rh : recognized date_hour = true)
    by (unfold recognized; rewrite Hh; now rewrite orb_true_r).
  pose proof (recognized_full date Rd) as Fd.
  pose proof (recognized_full date_hour Rh) as Fh.
  rewrite (targetDateTime_date date Hd) in *.
  rewrite (targetDateTime_date_hour date_hour Hh) in *.
  repeat split.
  - change " 12:00:00" with (" 12" ++ ":00:00"). rewrite <- append_assoc.
    replace 13 with (String.length (date ++ " 12")).
    + apply substring_app.
    + rewrite length_app, (re_match_length _ _ Hd). reflexivity.
  - apply resolver_padded; [now apply recognized_plain | | exact Fd].
    now apply targetDateTime_date.
  - replace 13 with (String.length date_hour).
    + apply substring_app.
    + rewrite (re_match_length _ _ Hh). reflexivity.
  - apply resolver_padded; [now apply recognized_plain | | exact Fh].
    now apply targetDateTime_date_hour.
Qed.

Lemma default_padding_witness :
  (targetDateTime "2024-11-26" = "2024-11-26 12:00:00"
   /\ substring 0 13 (targetDateTime "2024-11-26") = "2024-11-26 12"
   /\ getClosestFolderDateHour timestamp_epoch two_hours "2024-11-26"
      = getClosestFolderDateHour timestamp_epoch two_hours "2024-11-26 12:00:00")
  /\ (targetDateTime "2024-11-26 17" = "2024-11-26 17:00:00"
      /\ substring 0 13 (targetDateTime "2024-11-26 17") = "2024-11-26 17"
      /\ getClosestFolderDateHour timestamp_epoch two_hours "2024-11-26 17"
         = getClosestFolderDateHour timestamp_epoch two_hours "2024-11-26 17:00:00").
Proof.
  apply (default_padding timestamp_epoch two_hours "2024-11-26" "2024-11-26 17");
    reflexivity.
Defined.



(** C2, as the code has it.  The resolver does not validate its input:
    an input that matches none of the three patterns tested (date, date
    and hour, date, hour and minute) is its own target, unpadded, and
    for every input that decodes the result is null exactly when
    [XBLTotal] stores no capture instant; as soon as one is stored, the
    result is the hour of a stored instant. *)
Theorem resolver_does_not_validate (strftime_s : string -> option Z)
  (db : Database) (t : Table) (d d' : string) :
  assoc "XBLTotal" (tables db) = Some t ->
  mem "folder_date" (columns t) = true ->
  decode_units d = Some d' ->
  (re_match re_date d' || re_match re_date_hour d'
   || re_match re_date_hour_minute d' = false ->
   targetDateTime d' = d')
  /\ ((forall r, In r (rows t) -> folder_date r = None) ->
      getClosestFolderDateHour strftime_s db d = Ok None)
  /\ ((exists r, In r (rows t) /\ folder_date r <> None) ->
      exists f, In (Some f) (map folder_date (rows t))
                /\ getClosestFolderDateHour strftime_s db d
                   = Ok (Some (substring 0 13 f))).
Proof.
  intros Ht Hc Hd. split.
  - unfold targetDateTime. intros H.
    apply orb_false_iff in H as [H Hminute].
    apply orb_false_iff in H as [Hdate Hhour].
    now rewrite Hdate, Hhour, Hminute.
  - exact (resolver_total strftime_s db t Ht Hc d d' Hd).
Qed.

Lemma resolver_does_not_validate_witness :
  exists f, In (Some f) [Some "2024-11-26 17:00:00"]
            /\ getClosestFolderDateHour timestamp_epoch one_capture "not a date"
               = Ok (Some (substring 0 13 f)).
Proof.
  refine (proj2 (proj2 (resolver_does_not_validate timestamp_epoch one_capture
                          {| columns := xbltotal_columns;
                             rows := [snapshot "A" 100 "2024-11-26 17:00:00" "S1"] |}
                          "not a date" "not a date" eq_refl eq_refl eq_refl)) _).
  exists (snapshot "A" 100 "2024-11-26 17:00:00" "S1").
  split; [left; reflexivity | discriminate].
Defined.

Lemma malformed_input_resolves :
  three_precisions "not a date" = false
  /\ getClosestFolderDateHour timestamp_epoch one_capture "not a date"
     = Ok (Some "2024-11-26 17").
Proof. split; reflexivity. Qed.

(** The resolver reads no table but [XBLTotal]: two stores that agree
    on it get the same answer. *)
Lemma resolver_reads_XBLTotal_only (strftime_s : string -> option Z)
  (db db' : Database) (d : string) :
  assoc "XBLTotal" (tables db) = assoc "XBLTotal" (tables db') ->
  getClosestFolderDateHour strftime_s db d
  = getClosestFolderDateHour strftime_s db' d.
Proof.
  intros H.
  unfold getClosestFolderDateHour, exactHourQuery, closestQuery, from.
  now rewrite H.
Qed.

(** C1, on the code.  With the only capture of the hour stored in
    [XBLTotal1], the resolver finds no bucket: its two queries read
    [XBLTotal] alone. *)
Theorem other_tables_not_searched :
  fst (tableExists capture_in_XBLTotal1 "XBLTotal1") = true
  /\ fst (columnExists capture_in_XBLTotal1 "XBLTotal1"
            (getColumnName "XBLTotal1" "folder_date")) = true
  /\ (exists t r, assoc "XBLTotal1" (tables capture_in_XBLTotal1) = Some t
                  /\ In r (rows t)
                  /\ folder_date r = Some "2024-11-26 17:55:21")
  /\ getClosestFolderDateHour timestamp_epoch capture_in_XBLTotal1 "2024-11-26 17"
     = Ok None.
Proof.
  repeat split.
  eexists _, _. split; [reflexivity|]. split; [left; reflexivity | reflexivity].
Qed.

(** * Existence probes *)

Lemma mem_In (x : string) (l : list string) : mem x l = true <-> In x l.
Proof.
  unfold mem. rewrite existsb_exists. split.
  - intros [y [Hy E]]. apply String.eqb_eq in E. now subst.
  - intros H. exists x. split; [exact H | apply String.eqb_refl].
Qed.

Lemma tableExists_spec (db : Database) (tableName : string) :
  fst (tableExists db tableName) = true <-> In tableName (sqlite_master db).
Proof.
  unfold tableExists. cbn [fst].
  induction (sqlite_master db) as [|n l IH]; simpl.
  - split; [discriminate | tauto].
  - destruct (String.eqb_spec tableName n) as [->|Hne]; simpl.
    + split; auto.
    + rewrite IH. split; [auto | intros [E|H]; [congruence | exact H]].
Qed.

Lemma unlisted_not_identifier (s : string) :
  existsb_string (fun c => negb (is_word c)) s = true -> identifier_ok s = false.
Proof.
  intros H. unfold identifier_ok. destruct s as [|c s]; [reflexivity|].
  revert H. generalize (String c s). clear. intros s.
  induction s as [|c s IH]; simpl; [discriminate|].
  destruct (is_word c); simpl; [exact IH | reflexivity].
Qed.

(** C9, as the code has it.  For a table name with a unit outside
    [[a-zA-Z0-9_]], [columnExists] answers false and hands no statement
    to the store.  [tableExists] has no allow-list: it sends its one
    fixed statement with the name as a bound parameter and answers
    whether the catalogue lists a table of exactly that name. *)
Theorem probes_on_unlisted_name (db : Database) (tableName columnName : string) :
  existsb_string (fun c => negb (is_word c)) tableName = true ->
  columnExists db tableName columnName = (false, [])
  /\ snd (tableExists db tableName)
     = [{| text := master_query; bound := [tableName] |}]
  /\ (fst (tableExists db tableName) = true <-> In tableName (sqlite_master db)).
Proof.
  intros H. split; [|split].
  - unfold columnExists. now rewrite (unlisted_not_identifier tableName H).
  - reflexivity.
  - apply tableExists_spec.
Qed.

Lemma probes_on_unlisted_name_witness :
  columnExists spaced_table "a; b" "x" = (false, [])
  /\ snd (tableExists spaced_table "a; b")
     = [{| text := master_query; bound := ["a; b"] |}]
  /\ (fst (tableExists spaced_table "a; b") = true
      <-> In "a; b" (sqlite_master spaced_table)).
Proof.
  apply (probes_on_unlisted_name spaced_table "a; b" "x"). reflexivity.
Defined.

Lemma tableExists_accepts_spaced_name :
  existsb_string (fun c => negb (is_word c)) "a b" = true
  /\ fst (tableExists spaced_table "a b") = true.
Proof. split; reflexivity. Qed.

(** * The listing *)

Lemma find_none (A : Type) (p : A -> bool) (l : list A) :
  forallb p l = true -> find (fun x => negb (p x)) l = None.
Proof.
  induction l as [|x l IH]; simpl; [reflexivity|].
  intros H. apply andb_true_iff in H as [Hx Hl]. rewrite Hx. simpl. auto.
Qed.

Lemma select_listing_all (t : Table) :
  forallb (fun c => mem c (columns t)) xbltotal_columns = true ->
  select_listing t = Ok (rows t).
Proof.
  intros H. unfold select_listing.
  now rewrite (find_none _ (fun c => mem c (columns t)) _ H).
Qed.

Lemma filter_all (A : Type) (l : list A) : filter (fun _ => true) l = l.
Proof.
  induction l as [|x l IH]; simpl; [reflexivity | now rewrite IH].
Qed.

(** C10.  With a [Sync] table that holds no row, [getLatestSyncId] is
    null and the listing called without [name], [folder_date],
    [data_date], [sync_id] and [all] adds no condition: it answers with
    every row of [XBLTotal], of whatever sync. *)
Theorem listing_without_sync_rows (strftime_s : string -> option Z)
  (db : Database) (t : Table) (q : ListingQuery) :
  Sync db = Some [] ->
  assoc "XBLTotal" (tables db) = Some t ->
  forallb (fun c => mem c (columns t)) xbltotal_columns = true ->
  q_name q = None -> q_folder_date q = None -> q_data_date q = None ->
  q_sync_id q = None -> q_all q = None ->
  getLatestSyncId db = Ok None
  /\ get_xbltotal strftime_s db q = Json (rows t).
Proof.
  intros Hsync Ht Hcols Hn Hf Hd Hs Ha.
  assert (Hlatest : getLatestSyncId db = Ok None).
  { unfold getLatestSyncId. now rewrite Hsync. }
  split; [exact Hlatest|].
  unfold get_xbltotal, listing. rewrite Hn, Hf, Hd, Hs, Ha, Hlatest.
  cbn [truthy negb andb eq_col bind app]. unfold from. rewrite Ht.
  cbn [bind]. rewrite (select_listing_all t Hcols). cbn [bind forallb].
  now rewrite filter_all.
Qed.

Lemma listing_without_sync_rows_witness :
  getLatestSyncId no_sync_rows = Ok None
  /\ get_xbltotal timestamp_epoch no_sync_rows no_parameters
     = Json [snapshot "A" 100 "2024-11-26 17:00:00" "S1";
             snapshot "A" 120 "2024-11-27 09:00:00" "S2"].
Proof.
  apply (listing_without_sync_rows timestamp_epoch no_sync_rows
           {| columns := xbltotal_columns;
              rows := [snapshot "A" 100 "2024-11-26 17:00:00" "S1";
                       snapshot "A" 120 "2024-11-27 09:00:00" "S2"] |}
           no_parameters); reflexivity.
Defined.

(** * Table checks *)

Lemma assoc_In_fst (V : Type) (k : string) (l : list (string * V)) :
  In k (map fst l) <-> exists v, assoc k l = Some v.
Proof.
  induction l as [|[k' v'] l IH]; simpl.
  - split; [tauto | intros [v H]; discriminate].
  - destruct (String.eqb_spec k k') as [->|Hne].
    + split; [intros _; now exists v' | auto].
    + rewrite <- IH. split; [intros [E|H]; [congruence | exact H] | auto].
Qed.

Lemma existsb_eqb_mem (col : string) (l : list string) :
  existsb (fun row_name => String.eqb row_name col) l = mem col l.
Proof.
  unfold mem. induction l as [|x l IH]; simpl; [reflexivity|].
  now rewrite IH, String.eqb_sym.
Qed.

Lemma columnExists_stored (db : Database) (tableName col : string) (t : Table) :
  identifier_ok tableName = true ->
  assoc tableName (tables db) = Some t ->
  fst (columnExists db tableName col) = mem col (columns t).
Proof.
  intros Hid Ht. unfold columnExists, table_info. rewrite Hid, Ht.
  cbn [negb fst]. apply existsb_eqb_mem.
Qed.

Lemma tableExists_stored (db : Database) (tableName : string) :
  tableName <> "Sync" ->
  fst (tableExists db tableName) = is_not_null (assoc tableName (tables db)).
Proof.
  intros Hne.
  destruct (assoc tableName (tables db)) as [t|] eqn:E; cbn [is_not_null].
  - apply tableExists_spec. unfold sqlite_master. apply in_or_app. left.
    apply assoc_In_fst. now exists t.
  - destruct (fst (tableExists db tableName)) eqn:F; [|reflexivity].
    apply tableExists_spec in F. unfold sqlite_master in F.
    apply in_app_or in F as [F|F].
    + apply assoc_In_fst in F as [v F]. congruence.
    + destruct (Sync db); simpl in F; intuition congruence.
Qed.

(** What the checks of the chart endpoint record about one of its four
    tables. *)
Lemma check_table_stored (db : Database) (tableName : string) :
  In tableName chart_tables ->
  check_table db tableName
  = match assoc tableName (tables db) with
    | Some t =>
        {| exists_ := true;
           hasName := mem (getColumnName tableName "name") (columns t);
           hasSyncId := mem (getColumnName tableName "sync_id") (columns t);
           hasFolderDate := mem (getColumnName tableName "folder_date") (columns t);
           hasKudos := mem (getColumnName tableName "kudos") (columns t) |}
    | None =>
        {| exists_ := false; hasName := false; hasSyncId := false;
           hasFolderDate := false; hasKudos := false |}
    end.
Proof.
  intros Hin. unfold check_table.
  assert (Hid : identifier_ok tableName = true /\ tableName <> "Sync").
  { simpl in Hin. destruct Hin as [<-|[<-|[<-|[<-|[]]]]]; split;
      solve [reflexivity | discriminate]. }
  destruct Hid as [Hid Hne].
  rewrite (tableExists_stored db tableName Hne).
  destruct (assoc tableName (tables db)) as [t|] eqn:Ht; [|reflexivity].
  cbn [is_not_null].
  rewrite !(columnExists_stored db tableName _ t Hid Ht).
  simpl in Hin. destruct Hin as [<-|[<-|[<-|[<-|[]]]]]; reflexivity.
Qed.

Lemma column_readers (tableName : string) :
  In tableName chart_tables ->
  text_column (getColumnName tableName "name") = Some name
  /\ text_column (getColumnName tableName "sync_id") = Some sync_id
  /\ text_column (getColumnName tableName "folder_date") = Some folder_date
  /\ kudos_column (getColumnName tableName "kudos") = Some kudos.
Proof.
  simpl. intros [<-|[<-|[<-|[<-|[]]]]]; repeat split.
Qed.

(** * Unions *)

Lemma collect_ok (A B : Type) (f : A -> outcome (list B)) (g : A -> list B)
  (l : list A) :
  (forall x, In x l -> f x = Ok (g x)) ->
  collect f l = Ok (flat_map g l).
Proof.
  induction l as [|x l IH]; intros H; simpl; [reflexivity|].
  rewrite (H x) by now left. cbn [bind].
  rewrite IH by (intros y Hy; apply H; now right). reflexivity.
Qed.

Lemma top10Parts_In (db : Database) (p : top10Part) :
  In p (top10Parts (tableChecks db)) ->
  In (p_table p) chart_tables
  /\ exists t, assoc (p_table p) (tables db) = Some t
     /\ p_nameCol p = getColumnName (p_table p) "name"
     /\ p_kudosCol p = getColumnName (p_table p) "kudos"
     /\ p_syncIdCol p = getColumnName (p_table p) "sync_id"
     /\ mem (p_nameCol p) (columns t) = true
     /\ mem (p_kudosCol p) (columns t) = true
     /\ mem (p_syncIdCol p) (columns t) = true.
Proof.
  unfold top10Parts, tableChecks. rewrite in_flat_map.
  intros [[T c] [Hin Hp]]. apply in_map_iff in Hin as [T' [E HT]].
  injection E as -> <-. rewrite (check_table_stored db T HT) in Hp.
  destruct (assoc T (tables db)) as [t|] eqn:Ht; [|destruct Hp].
  cbn [exists_ hasName hasSyncId hasKudos andb] in Hp.
  destruct (mem (getColumnName T "name") (columns t)) eqn:E1; [|destruct Hp].
  destruct (mem (getColumnName T "sync_id") (columns t)) eqn:E2; [|destruct Hp].
  destruct (mem (getColumnName T "kudos") (columns t)) eqn:E3; [|destruct Hp].
  destruct Hp as [<-|[]]. cbn [p_table p_nameCol p_kudosCol p_syncIdCol].
  split; [exact HT|]. exists t. repeat split; assumption.
Qed.

Lemma top10_part_rows_ok (db : Database) (param : string) (p : top10Part) :
  In p (top10Parts (tableChecks db)) ->
  top10_part_rows db param p = Ok (top10_rows_of db param p).
Proof.
  intros Hp. destruct (top10Parts_In db p Hp)
    as [HT [t [Ht [En [Ek [Es [Mn [Mk Ms]]]]]]]].
  destruct (column_readers (p_table p) HT) as [Rn [Rs [_ Rk]]].
  unfold top10_part_rows, top10_rows_of, from, text_cells, kudos_cells.
  rewrite Ht. cbn [bind]. rewrite Mn, Mk, Ms, En, Ek, Es, Rn, Rk, Rs.
  reflexivity.
Qed.

Lemma dataParts_In (db : Database) (p : dataPart) :
  In p (dataParts (tableChecks db)) ->
  In (d_table p) chart_tables
  /\ exists t, assoc (d_table p) (tables db) = Some t
     /\ d_nameCol p = getColumnName (d_table p) "name"
     /\ d_kudosCol p = getColumnName (d_table p) "kudos"
     /\ d_folderDateCol p = getColumnName (d_table p) "folder_date"
     /\ mem (d_nameCol p) (columns t) = true
     /\ mem (d_kudosCol p) (columns t) = true
     /\ mem (d_folderDateCol p) (columns t) = true.
Proof.
  unfold dataParts, tableChecks. rewrite in_flat_map.
  intros [[T c] [Hin Hp]]. apply in_map_iff in Hin as [T' [E HT]].
  injection E as -> <-. rewrite (check_table_stored db T HT) in Hp.
  destruct (assoc T (tables db)) as [t|] eqn:Ht; [|destruct Hp].
  cbn [exists_ hasName hasFolderDate hasKudos andb] in Hp.
  destruct (mem (getColumnName T "name") (columns t)) eqn:E1; [|destruct Hp].
  destruct (mem (getColumnName T "folder_date") (columns t)) eqn:E2; [|destruct Hp].
  destruct (mem (getColumnName T "kudos") (columns t)) eqn:E3; [|destruct Hp].
  destruct Hp as [<-|[]]. cbn [d_table d_nameCol d_kudosCol d_folderDateCol].
  split; [exact HT|]. exists t. repeat split; assumption.
Qed.

Lemma data_part_rows_ok (db : Database) (users : list (option string))
  (p : dataPart) :
  In p (dataParts (tableChecks db)) ->
  data_part_rows db users p = Ok (data_rows_of db users p).
Proof.
  intros Hp. destruct (dataParts_In db p Hp)
    as [HT [t [Ht [En [Ek [Ef [Mn [Mk Mf]]]]]]]].
  destruct (column_readers (d_table p) HT) as [Rn [_ [Rf Rk]]].
  unfold data_part_rows, data_rows_of, from, text_cells, kudos_cells.
  rewrite Ht. cbn [bind]. rewrite Mn, Mk, Mf, En, Ek, Ef, Rn, Rk, Rf.
  reflexivity.
Qed.

(** * Grouping *)

Lemma same_key_eq (a b : option string) : same_key a b = true <-> a = b.
Proof.
  destruct a as [x|], b as [y|]; simpl; try (split; congruence).
  rewrite String.eqb_eq. split; congruence.
Qed.

Section Distinct.
Variable K : Type.
Variable eqb : K -> K -> bool.
Hypothesis eqb_eq : forall a b, eqb a b = true <-> a = b.

Lemma In_distinct (x : K) (l : list K) : In x (distinct eqb l) <-> In x l.
Proof.
  induction l as [|k l IH]; simpl; [reflexivity|].
  rewrite filter_In, IH. split.
  - intros [E|[H _]]; auto.
  - intros [E|H]; [now left|].
    destruct (eqb k x) eqn:E.
    + left. now apply eqb_eq.
    + right. now split.
Qed.

Lemma NoDup_distinct (l : list K) : NoDup (distinct eqb l).
Proof.
  induction l as [|k l IH]; simpl; constructor.
  - rewrite filter_In. intros [_ H].
    assert (E : eqb k k = true) by now apply eqb_eq.
    now rewrite E in H.
  - now apply NoDup_filter.
Qed.
End Distinct.

Lemma Permutation_insert_sorted (A : Type) (before : A -> A -> bool) (x : A)
  (l : list A) :
  Permutation (insert_sorted before x l) (x :: l).
Proof.
  induction l as [|y l IH]; simpl; [apply Permutation_refl|].
  destruct (before y x); [|apply Permutation_refl].
  apply Permutation_trans with (y :: x :: l); [now constructor | constructor].
Qed.

Lemma Permutation_order_by (A : Type) (before : A -> A -> bool) (l : list A) :
  Permutation (order_by before l) l.
Proof.
  induction l as [|x l IH]; simpl; [constructor|].
  apply Permutation_trans with (x :: order_by before l).
  - apply Permutation_insert_sorted.
  - now constructor.
Qed.

Lemma NoDup_limit (A : Type) (n : nat) (l : list A) : NoDup l -> NoDup (limit n l).
Proof.
  intros H. unfold limit. rewrite <- (firstn_skipn n l) in H.
  now apply NoDup_app_remove_r in H.
Qed.

Lemma In_limit (A : Type) (n : nat) (x : A) (l : list A) :
  In x (limit n l) -> In x l.
Proof.
  intros H. unfold limit in H. rewrite <- (firstn_skipn n l).
  apply in_or_app. now left.
Qed.

(** [MAX] over a column: no value of the column lies above it, and it
    is one of the values. *)
Lemma max_int_spec (l : list (option Z)) :
  (forall k, In k l -> asc_int (fold_right max_int None l) k = false)
  /\ (l <> [] -> In (fold_right max_int None l) l).
Proof.
  induction l as [|a l [IHle IHin]]; simpl.
  - split; [tauto | congruence].
  - split.
    + intros k [<-|Hk].
      * destruct a as [x|], (fold_right max_int None l) as [y|]; simpl;
          try reflexivity. apply Z.ltb_ge. lia. apply Z.ltb_irrefl.
      * specialize (IHle k Hk).
        destruct a as [x|], (fold_right max_int None l) as [y|], k as [z|];
          simpl in *; try congruence.
        apply Z.ltb_ge in IHle. apply Z.ltb_ge. lia.
    + intros _. destruct l as [|b l].
      * left. now destruct a.
      * assert (Hin : In (fold_right max_int None (b :: l)) (b :: l))
          by (apply IHin; discriminate).
        destruct a as [x|], (fold_right max_int None (b :: l)) as [y|] eqn:E;
          cbn [max_int]; auto.
        destruct (Z.max_spec x y) as [[_ ->]|[_ ->]]; auto.
Qed.

Lemma group_max_kudos_spec (union : list (option string * option Z))
  (n : option string) (m : option Z) :
  In (n, m) (group_max_kudos union) ->
  In (n, m) union /\ forall k, In (n, k) union -> asc_int m k = false.
Proof.
  unfold group_max_kudos. rewrite in_map_iff. intros [n' [E Hn]].
  injection E as -> <-.
  apply (proj1 (In_distinct _ same_key same_key_eq n _)) in Hn.
  set (col := map snd (filter (fun row => same_key n (fst row)) union)).
  destruct (max_int_spec col) as [Hle Hin]. split.
  - assert (Hne : col <> []).
    { apply in_map_iff in Hn as [[n0 k0] [E0 H0]]. simpl in E0. subst n0.
      assert (Hc : In k0 col).
      { apply in_map_iff. exists (n, k0). split; [reflexivity|].
        apply filter_In. split; [exact H0|]. now apply same_key_eq. }
      intros Hnil. rewrite Hnil in Hc. destruct Hc. }
    specialize (Hin Hne). apply in_map_iff in Hin as [[n0 k0] [E0 H0]].
    apply filter_In in H0 as [H0 Hk]. apply same_key_eq in Hk.
    simpl in E0, Hk. now subst.
  - intros k Hk. apply Hle. apply in_map_iff. exists (n, k).
    split; [reflexivity|]. apply filter_In. split; [exact Hk|].
    now apply same_key_eq.
Qed.

Lemma group_max_kudos_names (union : list (option string * option Z)) :
  map fst (group_max_kudos union) = distinct same_key (map fst union).
Proof.
  unfold group_max_kudos. rewrite map_map. simpl. apply map_id.
Qed.

(** C3.  In every state of the store the top-ten query of the chart
    endpoint succeeds on the tables that passed the checks; its result
    has at most ten rows and no entity name twice, and the value
    selected for a name is one of the values recorded for that name
    under the sync asked for, with none of them above it: their
    maximum, not their sum.  The union holds the name and kudos of
    exactly the rows of the contributing tables with that sync id.  With
    50 in one table and 70 in another the value is 70. *)
Theorem top_ten_selection (db : Database) (param : string) :
  (exists union result,
     collect (top10_part_rows db param) (top10Parts (tableChecks db)) = Ok union
     /\ top10Query db (top10Parts (tableChecks db)) param = Ok result
     /\ (forall n k,
           In (n, k) union <->
           exists p t r,
             In p (top10Parts (tableChecks db))
             /\ assoc (p_table p) (tables db) = Some t
             /\ In r (rows t) /\ sync_id r = Some param
             /\ name r = n /\ kudos r = k)
     /\ length result <= 10
     /\ NoDup (map fst result)
     /\ forall n m, In (n, m) result ->
          In (n, m) union /\ forall k, In (n, k) union -> asc_int m k = false)
  /\ top10Query fifty_and_seventy (top10Parts (tableChecks fifty_and_seventy)) "S1"
     = Ok [(Some "A", Some 70%Z)].
Proof.
  split; [|reflexivity].
  pose proof (collect_ok _ _ (top10_part_rows db param) (top10_rows_of db param)
                (top10Parts (tableChecks db))
                (fun p Hp => top10_part_rows_ok db param p Hp)) as Hunion.
  exists (flat_map (top10_rows_of db param) (top10Parts (tableChecks db))).
  eexists. split; [exact Hunion|].
  split; [unfold top10Query; rewrite Hunion; reflexivity|].
  set (union := flat_map (top10_rows_of db param) (top10Parts (tableChecks db))).
  split; [|split; [|split]].
  - intros n k. unfold union. rewrite in_flat_map. split.
    + intros [p [Hp Hin]]. unfold top10_rows_of in Hin.
      destruct (assoc (p_table p) (tables db)) as [t|] eqn:Ht; [|destruct Hin].
      apply in_map_iff in Hin as [r [E Hr]]. apply filter_In in Hr as [Hr Hs].
      injection E as <- <-. exists p, t, r. repeat split; auto.
      unfold eq_col in Hs. destruct (sync_id r) as [s|]; [|discriminate].
      apply String.eqb_eq in Hs. now subst.
    + intros [p [t [r [Hp [Ht [Hr [Hs [<- <-]]]]]]]]. exists p. split; [exact Hp|].
      unfold top10_rows_of. rewrite Ht. apply in_map_iff. exists r.
      split; [reflexivity|]. apply filter_In. split; [exact Hr|].
      rewrite Hs. simpl. apply String.eqb_refl.
  - unfold limit. apply firstn_le_length.
  - unfold limit. rewrite <- firstn_map. apply NoDup_limit.
    apply (Permutation_NoDup
             (Permutation_sym
                (Permutation_map fst
                   (Permutation_order_by _ (fun a b => asc_int (snd b) (snd a))
                      (group_max_kudos union))))).
    rewrite group_max_kudos_names. apply NoDup_distinct. apply same_key_eq.
  - intros n m Hin. apply In_limit in Hin. apply In_order_by in Hin.
    now apply group_max_kudos_spec.
Qed.

(** C4, on the code.  An entity captured at 10:00 and, twice in the same
    batch, at 17:00 of one day comes out of the chart endpoint with two
    points for that day. *)
Theorem repeated_capture_two_points :
  get_chart timestamp_date repeated_capture
  = Json [("A", [{| date := Some "2024-11-26"; point_kudos := 100 |};
                 {| date := Some "2024-11-26"; point_kudos := 100 |}])].
Proof. reflexivity. Qed.

Local Open Scope list_scope.

(** * Deduplication *)

Lemma asc_int_trans (a b c : option Z) :
  asc_int a b = true -> asc_int b c = true -> asc_int a c = true.
Proof.
  destruct a, b, c; simpl; try congruence. intros H1 H2.
  apply Z.ltb_lt in H1, H2. apply Z.ltb_lt. lia.
Qed.

Lemma asc_int_le_lt (a b c : option Z) :
  asc_int b a = false -> asc_int b c = true -> asc_int a c = true.
Proof.
  destruct a, b, c; simpl; try congruence. intros H1 H2.
  apply Z.ltb_ge in H1. apply Z.ltb_lt in H2. apply Z.ltb_lt. lia.
Qed.

Lemma asc_int_irrefl (a : option Z) : asc_int a a = false.
Proof. destruct a; simpl; [apply Z.ltb_irrefl | reflexivity]. Qed.

Lemma truthy_name (v : option string) :
  truthy v = true <-> exists k, v = Some k /\ k <> "".
Proof.
  destruct v as [[|c s]|]; simpl; split; try discriminate.
  - intros [k [[= <-] H]]. congruence.
  - intros _. eexists. split; [reflexivity | discriminate].
  - reflexivity.
  - intros [k [E _]]. discriminate.
Qed.

Lemma assoc_In (V : Type) (k : string) (v : V) (m : list (string * V)) :
  assoc k m = Some v -> In (k, v) m.
Proof.
  induction m as [|[k' v'] m IH]; simpl; [discriminate|].
  destruct (String.eqb_spec k k') as [->|Hne].
  - intros [= ->]. now left.
  - intros H. right. now apply IH.
Qed.

Lemma assoc_NoDup (V : Type) (k : string) (v : V) (m : list (string * V)) :
  NoDup (map fst m) -> In (k, v) m -> assoc k m = Some v.
Proof.
  induction m as [|[k' v'] m IH]; simpl; [tauto|].
  intros Hnd Hin. inversion Hnd as [|? ? Hnotin Hnd']; subst.
  destruct (String.eqb_spec k k') as [->|Hne].
  - destruct Hin as [[= ->]|Hin]; [reflexivity|].
    exfalso. apply Hnotin. apply in_map_iff. now exists (k', v).
  - destruct Hin as [[= -> ->]|Hin]; [congruence | now apply IH].
Qed.

Lemma assoc_None (V : Type) (k : string) (m : list (string * V)) :
  assoc k m = None <-> ~ In k (map fst m).
Proof.
  rewrite assoc_In_fst. split.
  - intros H [v Hv]. congruence.
  - intros H. destruct (assoc k m) as [v|] eqn:E; [|reflexivity].
    exfalso. apply H. now exists v.
Qed.

Lemma map_set_new (k : string) (r : Row) (m : list (string * Row)) :
  assoc k m = None -> map_set k r m = m ++ [(k, r)].
Proof.
  induction m as [|[k' v'] m IH]; simpl; [reflexivity|].
  destruct (String.eqb k k'); [discriminate|].
  intros H. now rewrite IH.
Qed.

Lemma map_set_keys (k : string) (r e : Row) (m : list (string * Row)) :
  assoc k m = Some e -> map fst (map_set k r m) = map fst m.
Proof.
  induction m as [|[k' v'] m IH]; simpl; [discriminate|].
  destruct (String.eqb k k'); simpl; [reflexivity|].
  intros H. now rewrite IH.
Qed.

Lemma In_map_set (k k' : string) (r e v : Row) (m : list (string * Row)) :
  NoDup (map fst m) -> assoc k m = Some e ->
  In (k', v) (map_set k r m) ->
  (k' = k /\ v = r) \/ (k' <> k /\ In (k', v) m).
Proof.
  induction m as [|[k0 v0] m IH]; simpl; [discriminate|].
  intros Hnd He Hin. inversion Hnd as [|? ? Hnotin Hnd']; subst.
  destruct (String.eqb_spec k k0) as [->|Hne].
  - destruct Hin as [[= -> ->]|Hin]; [now left|].
    right. split; [|now right].
    intros ->. apply Hnotin. apply in_map_iff. now exists (k0, v).
  - destruct Hin as [[= -> ->]|Hin].
    + right. split; [congruence | now left].
    + destruct (IH Hnd' He Hin) as [H|[H1 H2]]; [now left | right; auto].
Qed.

Section Dedupe.
Variable Date_parse : string -> option Z.

Lemma replaces_later (row existing : Row) :
  replaces Date_parse row existing = true <-> later_than Date_parse row existing.
Proof.
  unfold replaces, later_than.
  destruct (row_date Date_parse row) as [[c|]|];
    destruct (row_date Date_parse existing) as [[e|]|];
    rewrite ?Z.ltb_lt; intuition congruence.
Qed.

Lemma later_than_trans (a b c : Row) :
  later_than Date_parse a b -> later_than Date_parse b c ->
  later_than Date_parse a c.
Proof.
  unfold later_than.
  destruct (row_date Date_parse a) as [[x|]|];
    destruct (row_date Date_parse b) as [[y|]|];
    destruct (row_date Date_parse c) as [[z|]|]; try tauto. lia.
Qed.

(** A row that replaces the entry is later than whatever did not
    surpass the entry, the rows with an unreadable instant apart. *)
Lemma later_than_after (r v x : Row) :
  later_than Date_parse r v -> ~ later_than Date_parse x v ->
  later_than Date_parse r x \/ row_date Date_parse x = Some None.
Proof.
  unfold later_than.
  destruct (row_date Date_parse r) as [[a|]|];
    destruct (row_date Date_parse v) as [[b|]|];
    destruct (row_date Date_parse x) as [[c|]|]; try tauto.
  intros H1 H2. left. lia.
Qed.

(** Between rows whose instants are absent or readable the order is
    the ascending order of the instants, an absent one first. *)
Lemma later_than_asc (a b : Row) :
  row_date Date_parse a <> Some None -> row_date Date_parse b <> Some None ->
  (later_than Date_parse a b
   <-> asc_int (instant Date_parse b) (instant Date_parse a) = true).
Proof.
  unfold later_than, instant. intros Ha Hb.
  destruct (row_date Date_parse a) as [[x|]|];
    destruct (row_date Date_parse b) as [[y|]|];
    cbn [asc_int]; rewrite ?Z.ltb_lt; intuition congruence.
Qed.

Lemma kept_in_skip (l : list Row) (k : string) (v r : Row) :
  kept_in Date_parse l k v ->
  (name r = Some k -> ~ later_than Date_parse r v) ->
  kept_in Date_parse (l ++ [r]) k v.
Proof.
  intros [Hn [Hk [earlier [later [-> [He Hl]]]]]] Hr.
  split; [exact Hn|]. split; [exact Hk|].
  exists earlier, (later ++ [r]). split; [|split].
  - now rewrite <- app_assoc.
  - exact He.
  - intros x Hx Hname. apply in_app_or in Hx as [Hx|[<-|[]]]; auto.
Qed.

Lemma dedupe_step_inv (l : list Row) (m : list (string * Row)) (r : Row) :
  dedupe_inv Date_parse l m ->
  dedupe_inv Date_parse (l ++ [r]) (dedupe_step Date_parse m r).
Proof.
  intros [Hnd [Hkept Hcover]]. unfold dedupe_step.
  destruct (truthy (name r)) eqn:Ht.
  - apply truthy_name in Ht as [k [Hname Hk]]. rewrite Hname. cbn [coalesce].
    destruct (assoc k m) as [existing|] eqn:Ha.
    + assert (Hex : kept_in Date_parse l k existing)
        by (apply Hkept; now apply assoc_In).
      assert (Hkeys : forall x k', In x (l ++ [r]) -> name x = Some k' ->
                k' <> "" -> In k' (map fst m)).
      { intros x k' Hx Hxn Hk'. apply in_app_or in Hx as [Hx|[<-|[]]].
        - destruct (Hcover x k' Hx Hxn Hk') as [v Hv].
          apply in_map_iff. now exists (k', v).
        - assert (k' = k) by congruence. subst k'.
          apply in_map_iff. exists (k, existing). split; [reflexivity|].
          now apply assoc_In. }
      destruct (replaces Date_parse r existing) eqn:Hrep.
      * apply replaces_later in Hrep. split; [|split].
        -- now rewrite (map_set_keys k r existing m Ha).
        -- intros k' v Hin.
           destruct (In_map_set k k' r existing v m Hnd Ha Hin)
             as [[-> ->]|[Hne Hin']].
           ++ split; [exact Hname|]. split; [exact Hk|].
              exists l, []. split; [reflexivity|]. split; [|intros x []].
              intros x Hx Hxn.
              destruct Hex as [_ [_ [earlier [later [-> [He Hl]]]]]].
              apply in_app_or in Hx as [Hx|[<-|Hx]].
              ** destruct (He x Hx Hxn) as [H|H]; [left | now right].
                 now apply later_than_trans with existing.
              ** now left.
              ** apply later_than_after with existing; auto.
           ++ apply kept_in_skip; [now apply Hkept|].
              intros E. congruence.
        -- intros x k' Hx Hxn Hk'.
           pose proof (Hkeys x k' Hx Hxn Hk') as Hkey.
           rewrite <- (map_set_keys k r existing m Ha) in Hkey.
           apply in_map_iff in Hkey as [[k0 v] [E Hv]]. simpl in E. subst k0.
           now exists v.
      * split; [exact Hnd|]. split.
        -- intros k' v Hin. apply kept_in_skip; [now apply Hkept|].
           intros E. assert (k' = k) by congruence. subst k'.
           rewrite (assoc_NoDup _ k v m Hnd Hin) in Ha. injection Ha as ->.
           intros Hl. apply replaces_later in Hl. congruence.
        -- intros x k' Hx Hxn Hk'.
           pose proof (Hkeys x k' Hx Hxn Hk') as Hkey.
           apply in_map_iff in Hkey as [[k0 v] [E Hv]]. simpl in E. subst k0.
           now exists v.
    + rewrite (map_set_new k r m Ha). split; [|split].
      * rewrite map_app. simpl.
        apply (Permutation_NoDup (Permutation_cons_append (map fst m) k)).
        constructor; [now apply assoc_None | exact Hnd].
      * intros k' v Hin. apply in_app_or in Hin as [Hin|[[= <- <-]|[]]].
        -- apply kept_in_skip; [now apply Hkept|].
           intros E. assert (k' = k) by congruence. subst k'.
           exfalso. apply (proj1 (assoc_None _ k m) Ha).
           apply in_map_iff. now exists (k, v).
        -- split; [exact Hname|]. split; [exact Hk|].
           exists l, []. split; [reflexivity|]. split; [|intros x []].
           intros x Hx Hxn. exfalso.
           destruct (Hcover x k Hx Hxn Hk) as [v Hv].
           apply (proj1 (assoc_None _ k m) Ha).
           apply in_map_iff. now exists (k, v).
      * intros x k' Hx Hxn Hk'.
        apply in_app_or in Hx as [Hx|[<-|[]]].
        -- destruct (Hcover x k' Hx Hxn Hk') as [v Hv]. exists v.
           apply in_or_app. now left.
        -- assert (k' = k) by congruence. subst k'. exists r.
           apply in_or_app. right. now left.
  - assert (Hno : forall k, name r = Some k -> k = "").
    { intros k E. destruct (String.string_dec k "") as [->|Hk]; [reflexivity|].
      assert (T : truthy (name r) = true) by (apply truthy_name; now exists k).
      congruence. }
    split; [exact Hnd|]. split.
    + intros k v Hin. apply kept_in_skip; [now apply Hkept|].
      intros E. destruct (Hkept k v Hin) as [_ [Hk _]].
      now apply Hno in E.
    + intros x k Hx Hxn Hk.
      apply in_app_or in Hx as [Hx|[<-|[]]]; [now apply (Hcover x)|].
      now apply Hno in Hxn.
Qed.

Lemma dedupe_fold_inv (rows l : list Row) (m : list (string * Row)) :
  dedupe_inv Date_parse l m ->
  dedupe_inv Date_parse (l ++ rows) (fold_left (dedupe_step Date_parse) rows m).
Proof.
  revert l m. induction rows as [|r rows IH]; intros l m Hinv; simpl.
  - now rewrite app_nil_r.
  - replace (l ++ r :: rows) with ((l ++ [r]) ++ rows)
      by (now rewrite <- app_assoc).
    apply IH. now apply dedupe_step_inv.
Qed.

Lemma dedupe_inv_rows (rows : list Row) :
  dedupe_inv Date_parse rows (fold_left (dedupe_step Date_parse) rows []).
Proof.
  apply (dedupe_fold_inv rows [] []).
  split; [constructor|]. split; [intros k v []|intros x k []].
Qed.
End Dedupe.

Lemma instant_row_date (Date_parse : string -> option Z) (r : Row) (ms : Z) :
  instant Date_parse r = Some ms -> row_date Date_parse r = Some (Some ms).
Proof.
  unfold instant. destruct (row_date Date_parse r) as [[x|]|]; congruence.
Qed.

(** C7, on the code.  An instant that [new Date] cannot read is no
    absent instant: a row that carries one and is met first stays,
    although a later row of the name has an instant, whereas a row
    with no [folder_date] at all gives way to it.  The rows of the
    first list both lie in the bucket of the hour 17. *)
Theorem unreadable_instant_stays :
  timestamp_ms "2024-11-26 17:xx" = None
  /\ timestamp_ms "2024-11-26 17:00:30" = Some 1732640430000%Z
  /\ like "2024-11-26 17%" "2024-11-26 17:xx" = true
  /\ like "2024-11-26 17%" "2024-11-26 17:00:30" = true
  /\ dedupeByIdentity timestamp_ms
       [snapshot "B" 5 "2024-11-26 17:xx" "S1";
        snapshot "B" 7 "2024-11-26 17:00:30" "S1"]
     = [snapshot "B" 5 "2024-11-26 17:xx" "S1"]
  /\ dedupeByIdentity timestamp_ms
       [undated "B" 5 "S1";
        snapshot "B" 7 "2024-11-26 17:00:30" "S1"]
     = [snapshot "B" 7 "2024-11-26 17:00:30" "S1"].
Proof. repeat split. Qed.

(** C7.  [dedupeByIdentity] returns rows of its input with a non-empty
    name, one for each such name of the input and none twice.  The row
    kept for a name is surpassed by no later row of the name, and is
    later than every earlier row of the name whose instant is absent
    or readable, in the order of the loop: an absent instant lies
    below every present one, readable instants compare as numbers, and
    an unreadable instant compares with nothing.  When the present
    instants of the rows of the name can all be read, the row kept is
    therefore the most recent and, among equals, the first met.  On
    two rows of one name with instants [t1 < t2] followed by a row of
    another name, the second and third rows come out, in this order. *)
Theorem dedupe_keeps_unsurpassed (Date_parse : string -> option Z)
  (rows : list Row) :
  NoDup (map name (dedupeByIdentity Date_parse rows))
  /\ (forall r, In r rows -> truthy (name r) = true ->
        exists kept, In kept (dedupeByIdentity Date_parse rows)
                     /\ name kept = name r)
  /\ (forall kept, In kept (dedupeByIdentity Date_parse rows) ->
        truthy (name kept) = true
        /\ exists earlier later,
             rows = earlier ++ kept :: later
             /\ (forall x, In x earlier -> name x = name kept ->
                   later_than Date_parse kept x
                   \/ row_date Date_parse x = Some None)
             /\ (forall x, In x later -> name x = name kept ->
                   ~ later_than Date_parse x kept)
             /\ ((forall x, In x rows -> name x = name kept ->
                     row_date Date_parse x <> Some None) ->
                 (forall x, In x earlier -> name x = name kept ->
                    asc_int (instant Date_parse x) (instant Date_parse kept)
                    = true)
                 /\ (forall x, In x later -> name x = name kept ->
                       asc_int (instant Date_parse kept) (instant Date_parse x)
                       = false)))
  /\ (forall a1 a2 b t1 t2 t3,
        name a1 = Some "A"%string -> name a2 = Some "A"%string ->
        name b = Some "B"%string ->
        instant Date_parse a1 = Some t1 -> instant Date_parse a2 = Some t2 ->
        instant Date_parse b = Some t3 -> (t1 < t2)%Z ->
        dedupeByIdentity Date_parse [a1; a2; b] = [a2; b]).
Proof.
  destruct (dedupe_inv_rows Date_parse rows) as [Hnd [Hkept Hcover]].
  unfold dedupeByIdentity.
  set (m := fold_left (dedupe_step Date_parse) rows []) in *.
  split; [|split; [|split]].
  - rewrite map_map.
    assert (E : map (fun x => name (snd x)) m = map (fun x => Some (fst x)) m).
    { apply map_ext_in. intros [k v] Hin. simpl. now destruct (Hkept k v Hin) as [-> _]. }
    rewrite E, <- (map_map fst Some).
    apply Injective_map_NoDup; [|exact Hnd].
    intros x y. congruence.
  - intros r Hr Ht. apply truthy_name in Ht as [k [Hname Hk]].
    destruct (Hcover r k Hr Hname Hk) as [v Hv].
    exists v. split.
    + apply in_map_iff. now exists (k, v).
    + destruct (Hkept k v Hv) as [-> _]. now rewrite Hname.
  - intros kept Hin. apply in_map_iff in Hin as [[k v] [E Hin]].
    simpl in E. subst v.
    destruct (Hkept k kept Hin) as [Hname [Hk [earlier [later [Hsplit [He Hl]]]]]].
    split; [apply truthy_name; now exists k|].
    exists earlier, later. rewrite Hname.
    split; [exact Hsplit|]. split; [exact He|]. split; [exact Hl|].
    intros Hread.
    assert (Rk : row_date Date_parse kept <> Some None).
    { apply Hread; [|exact Hname]. rewrite Hsplit. apply in_or_app.
      right. now left. }
    split.
    + intros x Hx Hxn.
      assert (Rx : row_date Date_parse x <> Some None).
      { apply Hread; [|exact Hxn]. rewrite Hsplit. apply in_or_app. now left. }
      apply (later_than_asc Date_parse kept x Rk Rx).
      destruct (He x Hx Hxn) as [H|H]; [exact H | contradiction].
    + intros x Hx Hxn.
      assert (Rx : row_date Date_parse x <> Some None).
      { apply Hread; [|exact Hxn]. rewrite Hsplit. apply in_or_app.
        right. now right. }
      destruct (asc_int (instant Date_parse kept) (instant Date_parse x)) eqn:E;
        [|reflexivity].
      apply (later_than_asc Date_parse x kept Rx Rk) in E.
      now apply Hl in E.
  - intros a1 a2 b t1 t2 t3 Na1 Na2 Nb I1 I2 I3 Hlt.
    apply instant_row_date in I1, I2.
    cbn [fold_left]. unfold dedupe_step at 3.
    rewrite Na1. cbn [truthy coalesce assoc map_set].
    unfold dedupe_step at 2.
    rewrite Na2. cbn [truthy coalesce assoc String.eqb Ascii.eqb Bool.eqb].
    unfold replaces. rewrite I1, I2.
    apply Z.ltb_lt in Hlt. rewrite Hlt. cbn [map_set String.eqb Ascii.eqb Bool.eqb].
    unfold dedupe_step. rewrite Nb.
    cbn [truthy coalesce assoc String.eqb Ascii.eqb Bool.eqb map_set map snd].
    reflexivity.
Qed.

Lemma dedupe_keeps_unsurpassed_witness :
  dedupeByIdentity timestamp_ms
    [snapshot "A" 100 "2024-11-26 17:00:10" "S1";
     snapshot "A" 110 "2024-11-26 17:00:20" "S1";
     snapshot "B" 90 "2024-11-26 17:00:05" "S1"]
  = [snapshot "A" 110 "2024-11-26 17:00:20" "S1";
     snapshot "B" 90 "2024-11-26 17:00:05" "S1"].
Proof.
  exact (proj2 (proj2 (proj2
           (dedupe_keeps_unsurpassed timestamp_ms
              [snapshot "A" 100 "2024-11-26 17:00:10" "S1";
               snapshot "A" 110 "2024-11-26 17:00:20" "S1";
               snapshot "B" 90 "2024-11-26 17:00:05" "S1"])))
           (snapshot "A" 100 "2024-11-26 17:00:10" "S1")
           (snapshot "A" 110 "2024-11-26 17:00:20" "S1")
           (snapshot "B" 90 "2024-11-26 17:00:05" "S1")
           1732640410000%Z 1732640420000%Z 1732640405000%Z
           eq_refl eq_refl eq_refl eq_refl eq_refl eq_refl eq_refl).
Defined.

(** * Further properties of the code *)

Local Open Scope string_scope.
Local Open Scope list_scope.

(** * The order of text *)

Lemma string_compare_refl (s : string) : String.compare s s = Eq.
Proof.
  induction s as [|c s IH]; simpl; [reflexivity|].
  unfold Ascii.compare. now rewrite N.compare_refl.
Qed.

Lemma string_leb_trans (a b c : string) :
  String.leb a b = true -> String.leb b c = true -> String.leb a c = true.
Proof.
  unfold String.leb. revert b c.
  induction a as [|x a IH]; intros [|y b] [|z c]; simpl; try congruence.
  unfold Ascii.compare.
  destruct (N.compare_spec (N_of_ascii x) (N_of_ascii y)) as [E1|L1|G1];
    destruct (N.compare_spec (N_of_ascii y) (N_of_ascii z)) as [E2|L2|G2];
    destruct (N.compare_spec (N_of_ascii x) (N_of_ascii z)) as [E3|L3|G3];
    try congruence; try lia.
  apply IH.
Qed.

Lemma string_ltb_leb (a b : string) : String.ltb a b = negb (String.leb b a).
Proof.
  unfold String.ltb, String.leb. rewrite (String.compare_antisym b a).
  destruct (String.compare a b); reflexivity.
Qed.

Lemma string_ltb_asym (a b : string) :
  String.ltb a b = true -> String.ltb b a = false.
Proof.
  unfold String.ltb. rewrite (String.compare_antisym b a).
  destruct (String.compare a b); simpl; congruence.
Qed.

Lemma string_ltb_ntrans (a b c : string) :
  String.ltb a b = false -> String.ltb b c = false -> String.ltb a c = false.
Proof.
  rewrite !string_ltb_leb, !negb_false_iff. intros H1 H2.
  now apply string_leb_trans with b.
Qed.

Lemma string_ltb_irrefl (a : string) : String.ltb a a = false.
Proof. unfold String.ltb. now rewrite string_compare_refl. Qed.

Lemma asc_text_asym (a b : option string) :
  asc_text a b = true -> asc_text b a = false.
Proof.
  destruct a, b; simpl; try congruence. apply string_ltb_asym.
Qed.

Lemma asc_text_ntrans (a b c : option string) :
  asc_text a b = false -> asc_text b c = false -> asc_text a c = false.
Proof.
  destruct a, b, c; simpl; try congruence. apply string_ltb_ntrans.
Qed.

(** * Sorted results *)

Section OrderBySorted.
Variable A : Type.
Variable before : A -> A -> bool.
Hypothesis before_asym : forall a b, before a b = true -> before b a = false.
Hypothesis before_ntrans :
  forall a b c, before a b = false -> before b c = false -> before a c = false.

Lemma insert_sorted_sorted (x : A) (l : list A) :
  StronglySorted (fun a b => before b a = false) l ->
  StronglySorted (fun a b => before b a = false) (insert_sorted before x l).
Proof.
  induction l as [|y l IH]; simpl; intros H.
  - constructor; constructor.
  - inversion H as [|? ? Hl Hy]; subst.
    destruct (before y x) eqn:E.
    + constructor; [now apply IH|].
      apply Forall_forall. intros z Hz. apply In_insert_sorted in Hz as [->|Hz].
      * now apply before_asym.
      * rewrite Forall_forall in Hy. now apply Hy.
    + constructor; [exact H|]. constructor; [exact E|].
      apply Forall_forall. intros z Hz. rewrite Forall_forall in Hy.
      apply before_ntrans with y; [now apply Hy | exact E].
Qed.

(** No row of a sorted result sorts strictly ahead of a row before
    it. *)
Lemma order_by_sorted (l : list A) :
  StronglySorted (fun a b => before b a = false) (order_by before l).
Proof.
  induction l as [|x l IH]; simpl; [constructor|].
  now apply insert_sorted_sorted.
Qed.
End OrderBySorted.

Local Open Scope string_scope.
Local Open Scope list_scope.

(** X1.  On a [Sync] table that holds a row, [getLatestSyncId] returns
    the sync id of a stored run whose [sync_date] no other run exceeds
    (a NULL date lying below every text). *)
Theorem latest_sync_is_most_recent (db : Database) (sync_rows : list SyncRow) :
  Sync db = Some sync_rows ->
  sync_rows <> [] ->
  exists r,
    In r sync_rows
    /\ getLatestSyncId db = Ok (sync_row_id r)
    /\ forall r', In r' sync_rows ->
         asc_text (sync_date r) (sync_date r') = false.
Proof.
  intros Hs Hne. unfold getLatestSyncId. rewrite Hs.
  set (before := fun a b : SyncRow => asc_text (sync_date b) (sync_date a)).
  destruct (order_by before sync_rows) as [|h tl] eqn:E.
  - pose proof (length_order_by _ before sync_rows) as L. rewrite E in L.
    destruct sync_rows; [congruence | discriminate].
  - exists h. split; [|split].
    + apply (In_order_by _ before). rewrite E. now left.
    + reflexivity.
    + intros r' Hr'.
      apply (head_order_by _ before) with (l := sync_rows) (tl := tl) (x := r');
        auto.
      * intros a b. apply asc_text_asym.
      * intros a b c H1 H2. unfold before in *.
        now apply asc_text_ntrans with (sync_date b).
Qed.

Lemma latest_sync_is_most_recent_witness :
  exists r,
    In r [run "S1" "2024-11-26T17:00:00.000Z"; run "S2" "2024-11-26T18:00:00.000Z"]
    /\ getLatestSyncId two_hours = Ok (sync_row_id r)
    /\ forall r',
         In r' [run "S1" "2024-11-26T17:00:00.000Z";
                run "S2" "2024-11-26T18:00:00.000Z"] ->
         asc_text (sync_date r) (sync_date r') = false.
Proof.
  apply (latest_sync_is_most_recent two_hours); [reflexivity | discriminate].
Defined.

(** X2.  [getClosestDate] returns null exactly when the column is
    NULL in every row; otherwise it returns a value stored in the
    column, and no stored value is strictly closer to the target in
    seconds (a distance SQLite cannot compute sorting first). *)
Theorem closest_date_is_nearest (strftime_s : string -> option Z)
  (db : Database) (table column target : string) (t : Table)
  (cell : Row -> option string) :
  assoc table (tables db) = Some t ->
  mem column (columns t) = true ->
  text_column column = Some cell ->
  ((forall r, In r (rows t) -> cell r = None) ->
   getClosestDate strftime_s db table column target = Ok None)
  /\ ((exists r, In r (rows t) /\ cell r <> None) ->
      exists r f,
        In r (rows t) /\ cell r = Some f
        /\ getClosestDate strftime_s db table column target = Ok (Some f)
        /\ forall r', In r' (rows t) -> cell r' <> None ->
             asc_int (time_diff strftime_s (cell r') target)
                     (time_diff strftime_s (cell r) target) = false).
Proof.
  intros Ht Hc Hcell. unfold getClosestDate, from, text_cells.
  rewrite Ht. cbn [bind]. rewrite Hc, Hcell. cbn [bind].
  set (before := fun a b : Row =>
                   asc_int (time_diff strftime_s (cell a) target)
                           (time_diff strftime_s (cell b) target)).
  set (pool := filter (fun r => is_not_null (cell r)) (rows t)).
  assert (Hpool : forall r, In r pool <-> In r (rows t) /\ cell r <> None).
  { intros r. unfold pool. rewrite filter_In. split; intros [H1 H2]; split; auto.
    - destruct (cell r); [discriminate | discriminate].
    - destruct (cell r); [reflexivity | congruence]. }
  destruct (order_by before pool) as [|h tl] eqn:E.
  - assert (Hnil : pool = []).
    { pose proof (length_order_by _ before pool) as L. rewrite E in L.
      destruct pool; [reflexivity | discriminate]. }
    split; [reflexivity|]. intros [r Hr]. apply Hpool in Hr.
    rewrite Hnil in Hr. destruct Hr.
  - assert (Hh : In h pool).
    { apply (In_order_by _ before). rewrite E. now left. }
    apply Hpool in Hh as [Hin Hsome]. split.
    + intros Hnull. now rewrite (Hnull h Hin) in Hsome.
    + intros _. destruct (cell h) as [f|] eqn:Ef; [|congruence].
      exists h, f. split; [exact Hin|]. split; [exact Ef|].
      split; [cbn [limit firstn]; now rewrite Ef|].
      intros r' Hr' Hsome'.
      apply (head_order_by _ before) with (l := pool) (tl := tl) (x := r').
      * intros a b. apply asc_int_asym.
      * intros a b c. apply asc_int_ntrans.
      * exact E.
      * apply Hpool. now split.
Qed.

Lemma closest_date_is_nearest_witness :
  exists r f,
    In r (rows {| columns := xbltotal_columns;
                  rows := [snapshot "A" 100 "2024-11-26 17:00:00" "S1";
                           snapshot "A" 120 "2024-11-26 18:00:00" "S2"] |})
    /\ data_date r = Some f
    /\ getClosestDate timestamp_epoch two_hours "XBLTotal" "data_date"
         "2024-11-26 17:40:00" = Ok (Some f)
    /\ forall r',
         In r' (rows {| columns := xbltotal_columns;
                        rows := [snapshot "A" 100 "2024-11-26 17:00:00" "S1";
                                 snapshot "A" 120 "2024-11-26 18:00:00" "S2"] |}) ->
         data_date r' <> None ->
         asc_int (time_diff timestamp_epoch (data_date r') "2024-11-26 17:40:00")
                 (time_diff timestamp_epoch (data_date r) "2024-11-26 17:40:00")
         = false.
Proof.
  refine (proj2 (closest_date_is_nearest timestamp_epoch two_hours "XBLTotal"
                   "data_date" "2024-11-26 17:40:00" _ data_date
                   eq_refl eq_refl eq_refl) _).
  exists (snapshot "A" 100 "2024-11-26 17:00:00" "S1").
  split; [left; reflexivity | discriminate].
Defined.

(** X3.  [GET /api2/xbltotal/dates] answers with the calendar days
    of the stored capture instants and nothing else: each day once, in
    descending order. *)
Theorem dates_distinct_descending (DATE : string -> option string)
  (db : Database) (t : Table) :
  assoc "XBLTotal" (tables db) = Some t ->
  mem "folder_date" (columns t) = true ->
  exists ds,
    get_dates DATE db = Json ds
    /\ NoDup ds
    /\ StronglySorted (fun a b => asc_text a b = false) ds
    /\ forall d, In d ds <->
         exists r f, In r (rows t) /\ folder_date r = Some f /\ d = DATE f.
Proof.
  intros Ht Hc. unfold get_dates, dates, from, text_cells.
  rewrite Ht. cbn [bind]. rewrite Hc. cbn [text_column String.eqb orb bind respond].
  eexists. split; [reflexivity|]. split; [|split].
  - apply (Permutation_NoDup (Permutation_sym (Permutation_order_by _ _ _))).
    apply NoDup_distinct. apply same_key_eq.
  - apply (order_by_sorted _ (fun a b => asc_text b a)).
    + intros a b. apply asc_text_asym.
    + intros a b c H1 H2. now apply asc_text_ntrans with b.
  - intros d. rewrite In_order_by.
    rewrite (In_distinct _ same_key same_key_eq). rewrite in_map_iff. split.
    + intros [v [Hd Hv]]. apply filter_In in Hv as [Hv Hnn].
      apply in_map_iff in Hv as [r [Hr Hin]].
      destruct v as [f|]; [|discriminate]. exists r, f. simpl in Hd. auto.
    + intros [r [f [Hin [Hf ->]]]]. exists (Some f). split; [reflexivity|].
      apply filter_In. split; [|reflexivity].
      apply in_map_iff. now exists r.
Qed.

Lemma dates_distinct_descending_witness :
  exists ds,
    get_dates timestamp_date no_sync_rows = Json ds
    /\ NoDup ds
    /\ StronglySorted (fun a b => asc_text a b = false) ds
    /\ forall d, In d ds <->
         exists r f,
           In r [snapshot "A" 100 "2024-11-26 17:00:00" "S1";
                 snapshot "A" 120 "2024-11-27 09:00:00" "S2"]
           /\ folder_date r = Some f /\ d = timestamp_date f.
Proof.
  apply (dates_distinct_descending timestamp_date no_sync_rows
           {| columns := xbltotal_columns;
              rows := [snapshot "A" 100 "2024-11-26 17:00:00" "S1";
                       snapshot "A" 120 "2024-11-27 09:00:00" "S2"] |});
    reflexivity.
Defined.

Local Open Scope list_scope.
Local Open Scope string_scope.

(** * [LIKE] with leading and trailing [%] *)

Lemma like_leading_percent (p s : string) :
  like ("%" ++ p) s = true <->
  exists pre post, s = pre ++ post /\ like p post = true.
Proof.
  induction s as [|c s IH].
  - simpl. rewrite orb_false_r. split.
    + intros H. exists "", "". now split.
    + intros [pre [post [E H]]]. destruct pre; [|discriminate].
      simpl in E. now subst.
  - change (like ("%" ++ p) (String c s))
      with (like p (String c s) || like ("%" ++ p) s).
    rewrite orb_true_iff, IH. split.
    + intros [H|[pre [post [E H]]]].
      * exists "", (String c s). now split.
      * exists (String c pre), post. split; [simpl; now rewrite E | exact H].
    + intros [pre [post [E H]]]. destruct pre as [|d pre]; simpl in E.
      * left. now subst.
      * injection E as -> ->. right. now exists pre, post.
Qed.

Lemma like_literal_prefix (n s : string) :
  wildcard_free n = true ->
  like (n ++ "%") s = true <->
  exists mid post, s = mid ++ post /\ fold_case mid = fold_case n.
Proof.
  revert s. induction n as [|c n IH]; intros s Hw.
  - rewrite like_percent. split; [|reflexivity]. intros _.
    exists "", s. now split.
  - unfold wildcard_free in Hw. cbn [forallb_string] in Hw.
    apply andb_true_iff in Hw as [Hc Hn]. apply negb_true_iff in Hc.
    apply orb_false_iff in Hc as [Hp Hu].
    cbn [append like]. rewrite Hp. destruct s as [|d s].
    + split; [discriminate|]. intros [mid [post [E F]]].
      destruct mid; discriminate.
    + rewrite Hu. cbn [orb]. rewrite andb_true_iff, (IH s Hn), Ascii.eqb_eq.
      split.
      * intros [E [mid [post [-> F]]]]. exists (String d mid), post.
        split; [reflexivity|]. simpl. now rewrite E, F.
      * intros [mid [post [E F]]]. destruct mid as [|m mid]; [discriminate|].
        simpl in E, F. injection E as -> ->. injection F as F1 F2.
        split; [now rewrite F1|]. now exists mid, post.
Qed.

(** [col LIKE '%n%'] is containment up to ASCII case when [n] holds no
    wildcard. *)
Lemma like_contains (n : string) (v : option string) :
  wildcard_free n = true ->
  like_col ("%" ++ n ++ "%") v = true <-> contains_nocase n v.
Proof.
  intros Hw. unfold like_col, contains_nocase. destruct v as [s|].
  - rewrite like_leading_percent. split.
    + intros [pre [post [-> H]]].
      apply (like_literal_prefix n post Hw) in H as [mid [post' [-> F]]].
      now exists pre, mid, post'.
    + intros [pre [mid [post [[= ->] F]]]]. exists pre, (mid ++ post).
      split; [reflexivity|]. apply (like_literal_prefix n _ Hw).
      now exists mid, post.
  - split; [discriminate|]. intros [pre [mid [post [E _]]]]. discriminate.
Qed.

Local Open Scope list_scope.
Local Open Scope string_scope.

(** * The listing, whatever the query *)

Lemma filter_twice (A : Type) (f g : A -> bool) (l : list A) :
  filter f (filter g l) = filter (fun x => g x && f x) l.
Proof.
  induction l as [|x l IH]; simpl; [reflexivity|].
  destruct (g x); simpl; [destruct (f x)|]; now rewrite IH.
Qed.

Lemma truthy_some (v : option string) :
  truthy v = true -> v = Some (coalesce v) /\ coalesce v <> "".
Proof.
  destruct v as [[|c s]|]; simpl; try discriminate.
  intros _. split; [reflexivity | discriminate].
Qed.

Lemma eq_col_eq (v : option string) (s : string) :
  eq_col v s = true <-> v = Some s.
Proof.
  destruct v as [x|]; simpl; [|split; discriminate].
  rewrite String.eqb_eq. split; congruence.
Qed.

Lemma eq_cols_eq (a b : option string) (s : string) :
  b = Some s -> eq_cols a b = true <-> a = Some s.
Proof.
  intros ->. destruct a as [x|]; simpl; [|split; discriminate].
  rewrite String.eqb_eq. split; congruence.
Qed.

Lemma getClosestDate_stored (strftime_s : string -> option Z) (db : Database)
  (t : Table) (column target : string) (cell : Row -> option string) :
  assoc "XBLTotal" (tables db) = Some t ->
  mem column (columns t) = true ->
  text_column column = Some cell ->
  exists c,
    getClosestDate strftime_s db "XBLTotal" column target = Ok c
    /\ (forall f, c = Some f -> exists r, In r (rows t) /\ cell r = Some f)
    /\ (c = None -> forall r, In r (rows t) -> cell r = None).
Proof.
  intros Ht Hc Hcell. unfold getClosestDate, from, text_cells.
  rewrite Ht. cbn [bind]. rewrite Hc, Hcell. cbn [bind].
  set (before := fun a b : Row =>
                   asc_int (time_diff strftime_s (cell a) target)
                           (time_diff strftime_s (cell b) target)).
  set (pool := filter (fun r => is_not_null (cell r)) (rows t)).
  eexists. split; [reflexivity|].
  destruct (order_by before pool) as [|h tl] eqn:E; cbn [limit firstn].
  - split; [discriminate|]. intros _ r Hr.
    destruct (cell r) as [f|] eqn:Ef; [|reflexivity]. exfalso.
    assert (Hp : In r pool) by (apply filter_In; split; [exact Hr | now rewrite Ef]).
    apply (In_order_by _ before) in Hp. rewrite E in Hp. destruct Hp.
  - assert (Hh : In h pool).
    { apply (In_order_by _ before). rewrite E. now left. }
    apply filter_In in Hh as [Hin Hnn]. split.
    + intros f Hf. now exists h.
    + intros Hnone. rewrite Hnone in Hnn. discriminate.
Qed.

Lemma columns_present (t : Table) (c : string) :
  forallb (fun c => mem c (columns t)) xbltotal_columns = true ->
  In c xbltotal_columns -> mem c (columns t) = true.
Proof.
  intros H Hc. rewrite forallb_forall in H. now apply H.
Qed.

Section Listing.
Variable strftime_s : string -> option Z.
Variable db : Database.
Variable t : Table.
Hypothesis has_table : assoc "XBLTotal" (tables db) = Some t.
Hypothesis has_columns :
  forallb (fun c => mem c (columns t)) xbltotal_columns = true.

(** The rows of a response are rows of [XBLTotal] that pass the
    conditions of the query, thinned by the two date filters. *)
Lemma listing_rows (q : ListingQuery) (rs : list Row) :
  get_xbltotal strftime_s db q = Json rs ->
  exists conditions fd dd,
    rs = filter dd (filter fd
           (filter (fun r => forallb (fun c => c r) conditions) (rows t)))
    /\ (truthy (q_name q) = true ->
        In (fun r : Row =>
              like_col ("%" ++ coalesce (q_name q) ++ "%") (name r)) conditions)
    /\ (truthy (q_sync_id q) = true ->
        In (fun r : Row => eq_col (sync_id r) (coalesce (q_sync_id q)))
           conditions)
    /\ (truthy (q_folder_date q) = true ->
        exists closest,
          getClosestDate strftime_s db "XBLTotal" "folder_date"
            (coalesce (q_folder_date q)) = Ok closest
          /\ fd = (fun r => if truthy closest
                            then eq_cols (folder_date r) closest else true)).
Proof.
  unfold get_xbltotal, listing.
  set (c1 := if truthy (q_name q) then _ else _).
  set (c2 := if truthy (q_sync_id q) then _ else _).
  match goal with
  | |- context [bind ?m _] => destruct m as [c3|msg] eqn:E3
  end; [|discriminate].
  cbn [bind]. unfold from. rewrite has_table. cbn [bind].
  rewrite (select_listing_all t has_columns). cbn [bind].
  destruct (getClosestDate_stored strftime_s db t "folder_date"
              (coalesce (q_folder_date q)) folder_date has_table
              (columns_present t "folder_date" has_columns
                 ltac:(simpl; tauto)) eq_refl) as [cf [Ef _]].
  destruct (getClosestDate_stored strftime_s db t "data_date"
              (coalesce (q_data_date q)) data_date has_table
              (columns_present t "data_date" has_columns
                 ltac:(simpl; tauto)) eq_refl) as [cd [Ed _]].
  rewrite Ef, Ed.
  set (base := filter _ (rows t)).
  cbn [bind]. intros H.
  exists (c1 ++ c2 ++ c3)%list,
    (fun r => if truthy (q_folder_date q)
              then (if truthy cf then eq_cols (folder_date r) cf else true)
              else true),
    (fun r => if truthy (q_data_date q)
              then (if truthy cd then eq_cols (data_date r) cd else true)
              else true).
  split; [|split; [|split]].
  - fold base. revert H.
    destruct (truthy (q_folder_date q)), (truthy (q_data_date q)),
      (truthy cf), (truthy cd); cbn [bind respond];
      intros [= <-]; rewrite ?filter_all; reflexivity.
  - intros Hn. subst c1. rewrite Hn. apply in_or_app. left. now left.
  - intros Hs. subst c2. rewrite Hs. apply in_or_app. right.
    apply in_or_app. left. now left.
  - intros Hf. exists cf. rewrite Hf. split; reflexivity.
Qed.
End Listing.

Local Open Scope list_scope.
Local Open Scope string_scope.

(** X4.  Whatever the query, a JSON answer of the listing holds
    rows of [XBLTotal] in stored order; with a [sync_id] parameter every
    row carries that sync id, and with a [name] parameter free of [%]
    and [_] every row's name contains the parameter up to ASCII case. *)
Theorem listing_returns_matching_rows (strftime_s : string -> option Z)
  (db : Database) (t : Table) (q : ListingQuery) (rs : list Row) :
  assoc "XBLTotal" (tables db) = Some t ->
  forallb (fun c => mem c (columns t)) xbltotal_columns = true ->
  get_xbltotal strftime_s db q = Json rs ->
  (exists keep, rs = filter keep (rows t))
  /\ (forall s, q_sync_id q = Some s -> s <> "" ->
        forall r, In r rs -> sync_id r = Some s)
  /\ (forall n, q_name q = Some n -> n <> "" -> wildcard_free n = true ->
        forall r, In r rs -> contains_nocase n (name r)).
Proof.
  intros Ht Hc H.
  destruct (listing_rows strftime_s db t Ht Hc q rs H)
    as [conds [fd [dd [-> [Hname [Hsync _]]]]]].
  split; [|split].
  - rewrite !filter_twice. now eexists.
  - intros s Hs Hne r Hr.
    apply filter_In in Hr as [Hr _]. apply filter_In in Hr as [Hr _].
    apply filter_In in Hr as [_ Hr]. rewrite forallb_forall in Hr.
    assert (T : truthy (q_sync_id q) = true)
      by (rewrite Hs; destruct s; [congruence | reflexivity]).
    specialize (Hr _ (Hsync T)). cbn beta in Hr. rewrite Hs in Hr.
    now apply eq_col_eq in Hr.
  - intros n Hn Hne Hw r Hr.
    apply filter_In in Hr as [Hr _]. apply filter_In in Hr as [Hr _].
    apply filter_In in Hr as [_ Hr]. rewrite forallb_forall in Hr.
    assert (T : truthy (q_name q) = true)
      by (rewrite Hn; destruct n; [congruence | reflexivity]).
    specialize (Hr _ (Hname T)). cbn beta in Hr. rewrite Hn in Hr.
    now apply (like_contains n (name r) Hw).
Qed.

Lemma listing_returns_matching_rows_witness :
  (exists keep,
     [snapshot "A" 120 "2024-11-26 18:00:00" "S2"]
     = filter keep [snapshot "A" 100 "2024-11-26 17:00:00" "S1";
                    snapshot "A" 120 "2024-11-26 18:00:00" "S2"])
  /\ (forall s, Some "S2" = Some s -> s <> "" ->
        forall r, In r [snapshot "A" 120 "2024-11-26 18:00:00" "S2"] ->
                  sync_id r = Some s)
  /\ (forall n, Some "a" = Some n -> n <> "" -> wildcard_free n = true ->
        forall r, In r [snapshot "A" 120 "2024-11-26 18:00:00" "S2"] ->
                  contains_nocase n (name r)).
Proof.
  apply (listing_returns_matching_rows timestamp_epoch two_hours
           {| columns := xbltotal_columns;
              rows := [snapshot "A" 100 "2024-11-26 17:00:00" "S1";
                       snapshot "A" 120 "2024-11-26 18:00:00" "S2"] |}
           {| q_name := Some "a"; q_folder_date := None; q_data_date := None;
              q_sync_id := Some "S2"; q_all := None |});
    reflexivity.
Defined.

(** X5.  Called without parameters while [getLatestSyncId] yields a
    non-empty id, the listing answers with exactly the rows of
    [XBLTotal] that carry this id. *)
Theorem listing_defaults_to_latest_sync (strftime_s : string -> option Z)
  (db : Database) (t : Table) (q : ListingQuery) (s : string) :
  assoc "XBLTotal" (tables db) = Some t ->
  forallb (fun c => mem c (columns t)) xbltotal_columns = true ->
  getLatestSyncId db = Ok (Some s) -> s <> "" ->
  q_name q = None -> q_folder_date q = None -> q_data_date q = None ->
  q_sync_id q = None -> q_all q <> Some "true" ->
  exists rs,
    get_xbltotal strftime_s db q = Json rs
    /\ forall r, In r rs <-> In r (rows t) /\ sync_id r = Some s.
Proof.
  intros Ht Hc Hl Hs Hn Hf Hd Hi Ha.
  unfold get_xbltotal, listing. rewrite Hn, Hf, Hd, Hi, Hl.
  assert (Hall : eq_col (q_all q) "true" = false).
  { destruct (eq_col (q_all q) "true") eqn:E; [|reflexivity].
    apply eq_col_eq in E. congruence. }
  rewrite Hall. destruct s as [|c s]; [congruence|].
  cbn [truthy negb andb bind app coalesce]. unfold from. rewrite Ht. cbn [bind].
  rewrite (select_listing_all t Hc). cbn [bind respond].
  eexists. split; [reflexivity|]. intros r. rewrite filter_In.
  cbn [forallb]. rewrite andb_true_r, eq_col_eq. reflexivity.
Qed.

Lemma listing_defaults_to_latest_sync_witness :
  exists rs,
    get_xbltotal timestamp_epoch two_hours no_parameters = Json rs
    /\ forall r, In r rs <->
         In r [snapshot "A" 100 "2024-11-26 17:00:00" "S1";
               snapshot "A" 120 "2024-11-26 18:00:00" "S2"]
         /\ sync_id r = Some "S2".
Proof.
  apply (listing_defaults_to_latest_sync timestamp_epoch two_hours
           {| columns := xbltotal_columns;
              rows := [snapshot "A" 100 "2024-11-26 17:00:00" "S1";
                       snapshot "A" 120 "2024-11-26 18:00:00" "S2"] |}
           no_parameters "S2");
    try reflexivity; discriminate.
Defined.

(** X6.  With a [sync_id], a [folder_date], a [data_date] or
    [all=true] the listing never reads the [Sync] table: two stores
    with the same tables get the same answer, whatever their [Sync]
    tables hold, and even when one has none. *)
Theorem listing_ignores_sync_table (strftime_s : string -> option Z)
  (db db' : Database) (q : ListingQuery) :
  tables db = tables db' ->
  truthy (q_sync_id q) = true \/ truthy (q_folder_date q) = true
  \/ truthy (q_data_date q) = true \/ q_all q = Some "true" ->
  get_xbltotal strftime_s db q = get_xbltotal strftime_s db' q.
Proof.
  intros Htab Hq.
  assert (Hu : negb (truthy (q_sync_id q)) && negb (truthy (q_folder_date q))
               && negb (truthy (q_data_date q))
               && negb (eq_col (q_all q) "true") = false).
  { destruct Hq as [H|[H|[H|H]]]; rewrite H;
      destruct (truthy (q_sync_id q)), (truthy (q_folder_date q)),
        (truthy (q_data_date q)); reflexivity. }
  unfold get_xbltotal, listing, getClosestDate, from.
  rewrite Hu, Htab. reflexivity.
Qed.

Lemma listing_ignores_sync_table_witness :
  get_xbltotal timestamp_epoch two_hours
    {| q_name := None; q_folder_date := None; q_data_date := None;
       q_sync_id := None; q_all := Some "true" |}
  = get_xbltotal timestamp_epoch
      {| tables := tables two_hours; Sync := None |}
      {| q_name := None; q_folder_date := None; q_data_date := None;
         q_sync_id := None; q_all := Some "true" |}.
Proof.
  apply (listing_ignores_sync_table timestamp_epoch two_hours
           {| tables := tables two_hours; Sync := None |}).
  - reflexivity.
  - right; right; right; reflexivity.
Defined.

(** X7.  With a [folder_date] parameter, the rows of a JSON answer
    all carry the one stored instant [getClosestDate] selects, when
    that instant is not empty; the lookup is null only when no row has
    an instant, and then the filter is skipped. *)
Theorem listing_by_folder_date (strftime_s : string -> option Z)
  (db : Database) (t : Table) (q : ListingQuery) (rs : list Row) :
  assoc "XBLTotal" (tables db) = Some t ->
  forallb (fun c => mem c (columns t)) xbltotal_columns = true ->
  truthy (q_folder_date q) = true ->
  get_xbltotal strftime_s db q = Json rs ->
  exists closest,
    getClosestDate strftime_s db "XBLTotal" "folder_date"
      (coalesce (q_folder_date q)) = Ok closest
    /\ (forall f, closest = Some f -> f <> "" ->
          (exists r, In r (rows t) /\ folder_date r = Some f)
          /\ forall r, In r rs -> folder_date r = Some f)
    /\ (closest = None -> forall r, In r (rows t) -> folder_date r = None).
Proof.
  intros Ht Hc Hf H.
  destruct (listing_rows strftime_s db t Ht Hc q rs H)
    as [conds [fd [dd [-> [_ [_ Hfd]]]]]].
  destruct (Hfd Hf) as [closest [Ecl ->]].
  destruct (getClosestDate_stored strftime_s db t "folder_date"
              (coalesce (q_folder_date q)) folder_date Ht
              (columns_present t "folder_date" Hc ltac:(simpl; tauto)) eq_refl)
    as [c [Ec [Hstored Hnone]]].
  rewrite Ecl in Ec. injection Ec as <-.
  exists closest. split; [exact Ecl|]. split; [|exact Hnone].
  intros f -> Hne. split; [now apply Hstored|].
  intros r Hr. apply filter_In in Hr as [Hr _]. apply filter_In in Hr as [_ Hr].
  assert (T : truthy (Some f) = true) by (destruct f; [congruence | reflexivity]).
  rewrite T in Hr. now apply (eq_cols_eq (folder_date r) (Some f) f eq_refl).
Qed.

Lemma listing_by_folder_date_witness :
  exists closest,
    getClosestDate timestamp_epoch two_hours "XBLTotal" "folder_date"
      "2024-11-26 17:10:00" = Ok closest
    /\ (forall f, closest = Some f -> f <> "" ->
          (exists r,
             In r [snapshot "A" 100 "2024-11-26 17:00:00" "S1";
                   snapshot "A" 120 "2024-11-26 18:00:00" "S2"]
             /\ folder_date r = Some f)
          /\ forall r, In r [snapshot "A" 100 "2024-11-26 17:00:00" "S1"] ->
                       folder_date r = Some f)
    /\ (closest = None ->
        forall r, In r [snapshot "A" 100 "2024-11-26 17:00:00" "S1";
                        snapshot "A" 120 "2024-11-26 18:00:00" "S2"] ->
                  folder_date r = None).
Proof.
  apply (listing_by_folder_date timestamp_epoch two_hours
           {| columns := xbltotal_columns;
              rows := [snapshot "A" 100 "2024-11-26 17:00:00" "S1";
                       snapshot "A" 120 "2024-11-26 18:00:00" "S2"] |}
           {| q_name := None; q_folder_date := Some "2024-11-26 17:10:00";
              q_data_date := None; q_sync_id := None; q_all := None |});
    reflexivity.
Defined.

Local Open Scope string_scope.
Local Open Scope list_scope.

(** * Organising rows by user *)

Lemma assoc_push_point (k u : string) (p : point)
  (m : list (string * list point)) :
  stored_series k (push_point u p m)
  = if String.eqb k u then stored_series u m ++ [p] else stored_series k m.
Proof.
  unfold stored_series. induction m as [|[k' ps] m IH]; cbn [push_point assoc].
  - now destruct (String.eqb k u).
  - destruct (String.eqb_spec u k') as [->|Hne]; cbn [assoc].
    + now destruct (String.eqb k k').
    + destruct (String.eqb_spec k k') as [->|Hne'].
      * destruct (String.eqb_spec k' u) as [->|]; [congruence | reflexivity].
      * exact IH.
Qed.

Lemma keys_push_point (u : string) (p : point) (m : list (string * list point)) :
  map fst (push_point u p m)
  = if mem u (map fst m) then map fst m else map fst m ++ [u].
Proof.
  unfold mem. induction m as [|[k' ps] m IH]; simpl; [reflexivity|].
  destruct (String.eqb u k'); simpl; [reflexivity|].
  rewrite IH. now destruct (existsb (String.eqb u) (map fst m)).
Qed.

Lemma mem_assoc (V : Type) (k : string) (m : list (string * V)) :
  mem k (map fst m) = is_not_null (assoc k m).
Proof.
  unfold mem. induction m as [|[k' v] m IH]; simpl; [reflexivity|].
  destruct (String.eqb k k'); simpl; [reflexivity | exact IH].
Qed.

Lemma NoDup_snoc (A : Type) (x : A) (l : list A) :
  NoDup l -> ~ In x l -> NoDup (l ++ [x]).
Proof.
  intros Hnd Hx. apply (Permutation_NoDup (Permutation_cons_append l x)).
  now constructor.
Qed.

(** One step of the loop: either the row is filed, or its key is an
    inherited property that is no key yet, and the step throws. *)
Lemma organize_row_spec (m : list (string * list point)) (row : chart_row) :
  let k := js_trim (r_name row) in
  if String.eqb k "" then organize_row m row = Ok m
  else if negb (mem k (map fst m)) && mem k object_prototype_keys
       then exists msg, organize_row m row = Err msg
       else organize_row m row = Ok (push_point k (point_of row) m).
Proof.
  cbv zeta. unfold organize_row.
  destruct (String.eqb (js_trim (r_name row)) ""); [reflexivity|].
  rewrite mem_assoc.
  destruct (assoc (js_trim (r_name row)) m); cbn [is_not_null negb andb].
  - reflexivity.
  - destruct (mem (js_trim (r_name row)) object_prototype_keys);
      [now eexists | reflexivity].
Qed.

(** What the loop has built when it ends without throwing. *)
Lemma organize_spec (rows : list chart_row) :
  forall m data,
    NoDup (map fst m) ->
    (forall k, In k (map fst m) -> k <> "" /\ stored_series k m <> []) ->
    organize m rows = Ok data ->
    NoDup (map fst data)
    /\ (forall k, In k (map fst data) ->
          k <> "" /\ stored_series k data <> []
          /\ (In k (map fst m)
              \/ (exists row, In row rows /\ js_trim (r_name row) = k)))
    /\ (forall k, k <> "" ->
          stored_series k data = stored_series k m ++ series k rows).
Proof.
  induction rows as [|row rows IH]; intros m data Hnd Hm; simpl.
  - intros [= <-]. split; [exact Hnd|]. split.
    + intros k Hk. destruct (Hm k Hk). auto.
    + intros k _. unfold series. simpl. now rewrite app_nil_r.
  - pose proof (organize_row_spec m row) as Hrow. cbv zeta in Hrow.
    destruct (String.eqb_spec (js_trim (r_name row)) "") as [Ek|Ek].
    + rewrite Hrow. cbn [bind]. intros H.
      destruct (IH m data Hnd Hm H) as [N [K S]]. split; [exact N|]. split.
      * intros k Hk. destruct (K k Hk) as [A [B [C|[r [Hr E]]]]]; auto.
        split; [exact A|]. split; [exact B|]. right. exists r. auto.
      * intros k Hk. rewrite (S k Hk). unfold series. cbn [filter].
        rewrite Ek. destruct (String.eqb_spec "" k) as [<-|]; [congruence|].
        reflexivity.
    + destruct (negb (mem (js_trim (r_name row)) (map fst m))
                && mem (js_trim (r_name row)) object_prototype_keys).
      * destruct Hrow as [msg ->]. discriminate.
      * rewrite Hrow. cbn [bind]. intros H.
        set (k0 := js_trim (r_name row)) in *.
        assert (Hnd' : NoDup (map fst (push_point k0 (point_of row) m))).
        { rewrite keys_push_point. destruct (mem k0 (map fst m)) eqn:E; [exact Hnd|].
          apply NoDup_snoc; [exact Hnd|]. intros Hin.
          apply mem_In in Hin. congruence. }
        assert (Hm' : forall k, In k (map fst (push_point k0 (point_of row) m)) ->
                        k <> "" /\ stored_series k (push_point k0 (point_of row) m) <> []).
        { intros k Hk. rewrite assoc_push_point. rewrite keys_push_point in Hk.
          destruct (String.eqb_spec k k0) as [->|Hne].
          - split; [exact Ek|]. now destruct (stored_series k0 m).
          - apply Hm. destruct (mem k0 (map fst m)); [exact Hk|].
            apply in_app_or in Hk as [Hk|[Hk|[]]]; [exact Hk | congruence]. }
        destruct (IH _ data Hnd' Hm' H) as [N [K S]]. split; [exact N|]. split.
        -- intros k Hk. destruct (K k Hk) as [A [B C]].
           split; [exact A|]. split; [exact B|].
           destruct C as [C|[r [Hr E]]].
           ++ rewrite keys_push_point in C.
              destruct (mem k0 (map fst m)); [now left|].
              apply in_app_or in C as [C|[C|[]]]; [now left|].
              right. exists row. split; [now left | exact C].
           ++ right. exists r. split; [now right | exact E].
        -- intros k Hk. rewrite (S k Hk), assoc_push_point. unfold series.
           cbn [filter]. fold k0.
           destruct (String.eqb_spec k k0) as [->|Hne].
           ++ rewrite String.eqb_refl. cbn [map]. now rewrite <- app_assoc.
           ++ destruct (String.eqb_spec k0 k) as [E|_]; [congruence | reflexivity].
Qed.

(** The loop throws exactly when it meets a row whose key is an
    inherited property, provided no such key was filed before. *)
Lemma organize_throws (rows : list chart_row) :
  forall m,
    (forall k, In k (map fst m) -> mem k object_prototype_keys = false) ->
    (exists msg, organize m rows = Err msg)
    <-> exists row, In row rows
          /\ mem (js_trim (r_name row)) object_prototype_keys = true.
Proof.
  induction rows as [|row rows IH]; intros m Hm; cbn [organize].
  - split; [intros [msg H]; discriminate | intros [row [[] _]]].
  - pose proof (organize_row_spec m row) as Hrow. cbv zeta in Hrow.
    destruct (String.eqb_spec (js_trim (r_name row)) "") as [Ek|Ek].
    + rewrite Hrow. cbn [bind]. rewrite (IH m Hm). split.
      * intros [r [Hr P]]. exists r. split; [now right | exact P].
      * intros [r [[<-|Hr] P]]; [|now exists r].
        rewrite Ek in P. discriminate.
    + destruct (mem (js_trim (r_name row)) object_prototype_keys) eqn:P.
      * assert (Hk : mem (js_trim (r_name row)) (map fst m) = false).
        { destruct (mem (js_trim (r_name row)) (map fst m)) eqn:E; [|reflexivity].
          apply mem_In in E. rewrite (Hm _ E) in P. discriminate. }
        rewrite Hk in Hrow. cbn [negb andb] in Hrow. destruct Hrow as [msg ->].
        split; [|intros _; now exists msg].
        intros _. exists row. split; [now left | exact P].
      * rewrite andb_false_r in Hrow. rewrite Hrow. cbn [bind].
        rewrite IH.
        -- split.
           ++ intros [r [Hr Q]]. exists r. split; [now right | exact Q].
           ++ intros [r [[E|Hr] Q]];
                [subst r; rewrite P in Q; discriminate | now exists r].
        -- intros k Hk. rewrite keys_push_point in Hk.
           destruct (mem (js_trim (r_name row)) (map fst m)).
           ++ now apply Hm.
           ++ apply in_app_or in Hk as [Hk|[<-|[]]]; [now apply Hm | exact P].
Qed.

(** X20.  The loop that files the history rows by user throws
    exactly when the trimmed name of some row is a property every
    object inherits ([constructor], [toString], [__proto__] and the
    like). *)
Theorem organize_throws_on_inherited_name (rows : list chart_row) :
  (exists msg, organize [] rows = Err msg)
  <-> exists row, In row rows
                  /\ mem (js_trim (r_name row)) object_prototype_keys = true.
Proof.
  apply organize_throws. intros k [].
Qed.

Local Open Scope string_scope.
Local Open Scope list_scope.

(** * The order of the history rows *)

Lemma chart_order_asym (a b : chart_row) :
  chart_order a b = true -> chart_order b a = false.
Proof.
  unfold chart_order. intros H.
  destruct (asc_text (r_date a) (r_date b)) eqn:E1.
  - rewrite (asc_text_asym _ _ E1). reflexivity.
  - cbn [orb negb andb] in *. apply andb_true_iff in H as [H1 H2].
    apply negb_true_iff in H1. rewrite H1, (string_ltb_asym _ _ H2).
    reflexivity.
Qed.

Lemma chart_order_ntrans (a b c : chart_row) :
  chart_order a b = false -> chart_order b c = false -> chart_order a c = false.
Proof.
  unfold chart_order. intros H1 H2.
  apply orb_false_iff in H1 as [A1 B1]. apply orb_false_iff in H2 as [A2 B2].
  pose proof (asc_text_ntrans _ _ _ A1 A2) as A3. rewrite A3. cbn [orb].
  destruct (asc_text (r_date c) (r_date a)) eqn:C; [reflexivity|].
  cbn [negb andb].
  destruct (asc_text (r_date b) (r_date a)) eqn:E1.
  - pose proof (asc_text_ntrans _ _ _ A2 C). congruence.
  - destruct (asc_text (r_date c) (r_date b)) eqn:E2.
    + pose proof (asc_text_ntrans _ _ _ C A1). congruence.
    + cbn [negb andb] in B1, B2. now apply string_ltb_ntrans with (r_name b).
Qed.



(** * The history query on the checked tables *)

Lemma historyQuery_checked (DATE : string -> option string) (db : Database)
  (users : list (option string)) :
  historyQuery DATE db (dataParts (tableChecks db)) users
  = Ok (history_rows DATE db users).
Proof.
  unfold historyQuery.
  rewrite (collect_ok _ _ (data_part_rows db users) (data_rows_of db users)
             (dataParts (tableChecks db))
             (fun p Hp => data_part_rows_ok db users p Hp)).
  reflexivity.
Qed.

Lemma top10Query_checked (db : Database) (param : string) :
  exists top10Rows,
    top10Query db (top10Parts (tableChecks db)) param = Ok top10Rows
    /\ map fst top10Rows = top10_users db param
    /\ length top10Rows <= 10.
Proof.
  unfold top10Query.
  rewrite (collect_ok _ _ (top10_part_rows db param) (top10_rows_of db param)
             (top10Parts (tableChecks db))
             (fun p Hp => top10_part_rows_ok db param p Hp)).
  eexists. split; [reflexivity|]. split; [reflexivity|].
  unfold limit. apply firstn_le_length.
Qed.

Lemma history_union_In (db : Database) (users : list (option string))
  (s : sample) :
  In s (history_union db users) ->
  exists T t r n,
    In T chart_tables /\ assoc T (tables db) = Some t /\ In r (rows t)
    /\ name r = Some n /\ In (Some n) users /\ s = sample_of r.
Proof.
  unfold history_union. rewrite in_flat_map. intros [p [Hp Hs]].
  destruct (dataParts_In db p Hp) as [HT [t [Ht _]]].
  unfold data_rows_of in Hs. rewrite Ht in Hs.
  apply in_map_iff in Hs as [r [<- Hr]]. apply filter_In in Hr as [Hr Hf].
  unfold in_history in Hf.
  apply andb_true_iff in Hf as [Hf Hu]. apply andb_true_iff in Hf as [Hf _].
  apply andb_true_iff in Hf as [_ Hn].
  destruct (name r) as [n|] eqn:En; [|discriminate].
  apply existsb_exists in Hu as [u [Hu E]].
  destruct u as [u|]; [|discriminate]. simpl in E. apply String.eqb_eq in E.
  subst u. exists (d_table p), t, r, n. rewrite En. auto 10.
Qed.

(** Every row of the history query is dated, carries the trimmed,
    non-empty name of a stored row of a selected user, and the rows
    come in the order of the [ORDER BY]. *)
Lemma history_rows_spec (DATE : string -> option string) (db : Database)
  (users : list (option string)) :
  StronglySorted (fun a b => chart_order b a = false) (history_rows DATE db users)
  /\ forall row, In row (history_rows DATE db users) ->
       r_date row <> None /\ r_name row <> ""
       /\ exists T t r n,
            In T chart_tables /\ assoc T (tables db) = Some t /\ In r (rows t)
            /\ name r = Some n /\ In (Some n) users
            /\ r_name row = sql_trim n.
Proof.
  split.
  - apply order_by_sorted; [apply chart_order_asym | apply chart_order_ntrans].
  - intros row Hrow. unfold history_rows in Hrow. apply In_order_by in Hrow.
    apply in_flat_map in Hrow as [t1 [H1 Hrow]].
    apply in_flat_map in Hrow as [t2 [_ Hrow]].
    destruct (joins DATE t1 t2) eqn:J; [|destruct Hrow].
    destruct Hrow as [<-|[]]. cbn [r_date r_name].
    unfold joins in J. apply andb_true_iff in J as [J Hn].
    apply andb_true_iff in J as [J _]. apply andb_true_iff in J as [_ Jd].
    unfold has_name in Hn. apply andb_true_iff in Hn as [_ Hn].
    apply negb_true_iff, String.eqb_neq in Hn.
    split; [|split; [exact Hn|]].
    + destruct (date_of DATE (s_folder_date t1)); [discriminate | discriminate].
    + destruct (history_union_In db users t1 H1)
        as [T [t [r [n [HT [Ht [Hr [En [Hu ->]]]]]]]]].
      exists T, t, r, n. unfold trimmed_name. cbn [s_name sample_of].
      rewrite En. auto 10.
Qed.

(** * The cases of the chart endpoint *)

Lemma chart_cases (DATE : string -> option string) (db : Database)
  (sync_rows : list SyncRow) :
  Sync db = Some sync_rows ->
  exists latest,
    getLatestSyncId db = Ok latest
    /\ (chart DATE db = Ok (Json [])
        \/ chart DATE db
           = (chartData <-
                organize [] (history_rows DATE db
                               (top10_users db (coalesce latest))) ;;
              Ok (Json chartData))).
Proof.
  intros Hs. unfold chart.
  assert (Hl : exists latest, getLatestSyncId db = Ok latest).
  { unfold getLatestSyncId. rewrite Hs. now eexists. }
  destruct Hl as [latest Hl]. exists latest. split; [exact Hl|].
  rewrite Hl. cbn [bind].
  destruct (is_empty (top10Parts (tableChecks db))); [now left|].
  destruct (top10Query_checked db (coalesce latest)) as [top [-> [Hu _]]].
  cbn [bind]. destruct (is_empty top); [now left|].
  destruct (is_empty (dataParts (tableChecks db))); [now left|].
  rewrite Hu, historyQuery_checked. cbn [bind]. now right.
Qed.

Lemma chart_json (DATE : string -> option string) (db : Database)
  (data : list (string * list point)) :
  get_chart DATE db = Json data ->
  data = []
  \/ exists param, organize [] (history_rows DATE db (top10_users db param))
                   = Ok data.
Proof.
  unfold get_chart. intros H.
  destruct (Sync db) as [sync_rows|] eqn:Hs.
  - destruct (chart_cases DATE db sync_rows Hs) as [latest [_ [E|E]]];
      rewrite E in H.
    + injection H as <-. now left.
    + right. exists (coalesce latest).
      destruct (organize [] _) as [d|msg]; [|discriminate].
      cbn [bind respond] in H. now injection H as ->.
  - unfold chart, getLatestSyncId in H. rewrite Hs in H. discriminate.
Qed.

Local Open Scope string_scope.
Local Open Scope list_scope.

Lemma stored_series_In (k : string) (ps : list point)
  (data : list (string * list point)) :
  NoDup (map fst data) -> In (k, ps) data -> stored_series k data = ps.
Proof.
  intros Hnd Hin. unfold stored_series.
  now rewrite (assoc_NoDup _ k ps data Hnd Hin).
Qed.

Lemma top10_users_length (db : Database) (param : string) :
  length (top10_users db param) <= 10.
Proof.
  unfold top10_users, limit. rewrite length_map. apply firstn_le_length.
Qed.

(** * A table without sync id in the chart *)

(** [MAX] over a text column: no value of the column lies above it, and
    it is one of the values. *)
Lemma max_text_spec (l : list (option string)) :
  (forall k, In k l -> asc_text (fold_right max_text None l) k = false)
  /\ (l <> [] -> In (fold_right max_text None l) l).
Proof.
  induction l as [|a l [IHle IHin]]; simpl.
  - split; [tauto | congruence].
  - split.
    + intros k [<-|Hk].
      * destruct a as [x|], (fold_right max_text None l) as [y|]; simpl;
          try reflexivity; [|apply string_ltb_irrefl].
        destruct (String.ltb x y) eqn:E;
          [now apply string_ltb_asym | apply string_ltb_irrefl].
      * specialize (IHle k Hk).
        destruct a as [x|], (fold_right max_text None l) as [y|], k as [z|];
          simpl in *; try congruence.
        destruct (String.ltb x y) eqn:E; [exact IHle|].
        now apply string_ltb_ntrans with y.
    + intros _. destruct l as [|b l].
      * left. now destruct a.
      * assert (Hin : In (fold_right max_text None (b :: l)) (b :: l))
          by (apply IHin; discriminate).
        destruct a as [x|], (fold_right max_text None (b :: l)) as [y|] eqn:E;
          cbn [max_text]; auto.
        destruct (String.ltb x y); auto.
Qed.

Lemma same_group_eq (a b : string * option string) :
  same_group a b = true <-> a = b.
Proof.
  destruct a as [n d], b as [n' d']. unfold same_group. cbn [fst snd].
  rewrite andb_true_iff, String.eqb_eq, same_key_eq. split.
  - intros [-> ->]. reflexivity.
  - intros [= -> ->]. auto.
Qed.

(** The day of a sample is a row of the history query: it carries the
    kudos of a sample of the same name and day that none of them is
    later than. *)
Lemma history_rows_cover (DATE : string -> option string) (db : Database)
  (users : list (option string)) (s : sample) (d : string) :
  In s (history_union db users) ->
  has_name s = true ->
  date_of DATE (s_folder_date s) = Some d ->
  exists s',
    In s' (history_union db users)
    /\ trimmed_name s' = trimmed_name s
    /\ date_of DATE (s_folder_date s') = Some d
    /\ asc_text (s_folder_date s') (s_folder_date s) = false
    /\ In {| r_date := Some d; r_name := trimmed_name s; r_kudos := s_kudos s' |}
          (history_rows DATE db users).
Proof.
  intros Hs Hn Hd. unfold history_rows.
  set (union := history_union db users) in *.
  set (named := filter has_name union).
  set (k := group_key DATE s).
  set (col := map s_folder_date
                (filter (fun x => same_group k (group_key DATE x)) named)).
  assert (Hnamed : In s named) by (apply filter_In; now split).
  assert (Hcol : In (s_folder_date s) col).
  { apply in_map. apply filter_In. split; [exact Hnamed|].
    now apply same_group_eq. }
  destruct (max_text_spec col) as [Hle Hin].
  assert (Hne : col <> []) by (intros E; rewrite E in Hcol; destruct Hcol).
  specialize (Hin Hne). specialize (Hle _ Hcol).
  apply in_map_iff in Hin as [s' [Es' Hs']].
  apply filter_In in Hs' as [Hs' Hk]. apply same_group_eq in Hk.
  apply filter_In in Hs' as [Hu' Hn'].
  assert (Ek : k = (trimmed_name s, Some d))
    by (unfold k, group_key; now rewrite Hd).
  rewrite Ek in Hk. unfold group_key in Hk. injection Hk as Hname Hdate.
  exists s'. split; [exact Hu'|]. split; [now symmetry|].
  split; [now symmetry|]. split; [now rewrite Es'|].
  apply In_order_by. apply in_flat_map. exists s'. split; [exact Hu'|].
  apply in_flat_map.
  exists {| g_name := fst k; g_date := snd k;
            g_max_folder_date := fold_right max_text None col |}.
  split.
  - unfold day_groups. fold union. fold named.
    apply (in_map (fun k0 =>
             {| g_name := fst k0; g_date := snd k0;
                g_max_folder_date :=
                  fold_right max_text None
                    (map s_folder_date
                       (filter (fun x => same_group k0 (group_key DATE x))
                               named)) |})).
    apply (proj2 (In_distinct _ same_group same_group_eq k _)).
    now apply in_map.
  - unfold joins. cbn [g_name g_date g_max_folder_date].
    rewrite Ek. cbn [fst snd]. rewrite <- Hname, <- Hdate, <- Es', Hn'.
    rewrite String.eqb_refl. cbn [eq_cols]. rewrite String.eqb_refl.
    destruct (s_folder_date s') as [fd|] eqn:Efd.
    + cbn [eq_cols]. rewrite String.eqb_refl. cbn [andb]. now left.
    + unfold date_of in Hdate. discriminate.
Qed.

Lemma flat_map_ext_In (A B : Type) (f g : A -> list B) (l : list A) :
  (forall x, In x l -> f x = g x) -> flat_map f l = flat_map g l.
Proof.
  induction l as [|x l IH]; intros H; simpl; [reflexivity|].
  rewrite (H x) by now left. rewrite IH; [reflexivity|].
  intros y Hy. apply H. now right.
Qed.

(** The top-ten query reads a table only when the table has its
    sync-id column: stores that agree on the other tables select the
    same rows. *)
Lemma top10Query_ignores (db db' : Database) (tableName param : string) :
  In tableName chart_tables ->
  (forall t, assoc tableName (tables db) = Some t ->
             mem (getColumnName tableName "sync_id") (columns t) = false) ->
  (forall t, assoc tableName (tables db') = Some t ->
             mem (getColumnName tableName "sync_id") (columns t) = false) ->
  (forall T, T <> tableName -> assoc T (tables db') = assoc T (tables db)) ->
  ~ In tableName (map p_table (top10Parts (tableChecks db)))
  /\ top10Query db' (top10Parts (tableChecks db')) param
     = top10Query db (top10Parts (tableChecks db)) param.
Proof.
  intros HT Hno Hno' Hsame.
  assert (Hout : forall d, 
            (forall t, assoc tableName (tables d) = Some t ->
               mem (getColumnName tableName "sync_id") (columns t) = false) ->
            ~ In tableName (map p_table (top10Parts (tableChecks d)))).
  { intros d Hd Hin. apply in_map_iff in Hin as [p [E Hp]].
    destruct (top10Parts_In d p Hp) as [_ [t [Ht [_ [_ [Es [_ [_ Ms]]]]]]]].
    rewrite E in Ht. rewrite Es, E, (Hd t Ht) in Ms. discriminate. }
  split; [now apply Hout|].
  assert (Hparts : top10Parts (tableChecks db') = top10Parts (tableChecks db)).
  { unfold top10Parts, tableChecks. rewrite !flat_map_concat_map, !map_map.
    f_equal. apply map_ext_in. intros T HTin.
    rewrite !(check_table_stored _ T HTin).
    destruct (String.eqb_spec T tableName) as [->|Hne].
    - destruct (assoc tableName (tables db)) as [t|] eqn:Et;
        destruct (assoc tableName (tables db')) as [t'|] eqn:Et';
        cbn [exists_ hasName hasSyncId hasKudos];
        rewrite ?(Hno t eq_refl), ?(Hno' t' eq_refl), ?andb_false_r;
        reflexivity.
    - now rewrite (Hsame T Hne). }
  rewrite Hparts. unfold top10Query.
  rewrite (collect_ok _ _ (top10_part_rows db param) (top10_rows_of db param)
             (top10Parts (tableChecks db))
             (fun p Hp => top10_part_rows_ok db param p Hp)).
  rewrite (collect_ok _ _ (top10_part_rows db' param) (top10_rows_of db' param)
             (top10Parts (tableChecks db))).
  - rewrite (flat_map_ext_In _ _ (top10_rows_of db' param)
               (top10_rows_of db param)); [reflexivity|].
    intros p Hp. unfold top10_rows_of. rewrite Hsame; [reflexivity|].
    intros E. apply (Hout db Hno). apply in_map_iff. now exists p.
  - intros p Hp. rewrite <- Hparts in Hp. now apply top10_part_rows_ok.
Qed.

(** Where the top-ten query selects somebody and a table can give
    history, the endpoint answers with what the history rows organise
    to. *)
Lemma chart_with_users (DATE : string -> option string) (db : Database)
  (latest : option string) (top10Rows : list (option string * option Z)) :
  getLatestSyncId db = Ok latest ->
  top10Query db (top10Parts (tableChecks db)) (coalesce latest) = Ok top10Rows ->
  top10Rows <> [] ->
  dataParts (tableChecks db) <> [] ->
  chart DATE db
  = (chartData <- organize [] (history_rows DATE db (map fst top10Rows)) ;;
     Ok (Json chartData)).
Proof.
  intros Hl Hq Hrows Hparts. unfold chart. rewrite Hl. cbn [bind].
  destruct (top10Parts (tableChecks db)) as [|p ps] eqn:Ep.
  - exfalso. apply Hrows. unfold top10Query in Hq. simpl in Hq. congruence.
  - cbn [is_empty length Nat.eqb]. rewrite Hq. cbn [bind].
    destruct top10Rows as [|u us]; [congruence|].
    cbn [is_empty length Nat.eqb].
    destruct (dataParts (tableChecks db)) as [|q qs] eqn:Eq; [congruence|].
    cbn [is_empty length Nat.eqb]. rewrite <- Eq, historyQuery_checked.
    reflexivity.
Qed.

(** C8, on the code.  A table with its name, capture-instant and kudos
    columns but no sync-id column, alone in the store: the claim's
    conditions hold of it and it would be a branch of the history
    query, but no table qualifies for the top-ten query, and the
    endpoint answers with the empty object before it builds the
    history query. *)
Theorem lone_table_is_not_charted :
  In "XBLTotal3" chart_tables
  /\ assoc "XBLTotal3" (tables lone_no_sync_column)
     = Some {| columns := ["field4"; "field10"; "field11"];
               rows := [snapshot "A" 100 "2024-11-26 17:00:00" "S1"] |}
  /\ fst (columnExists lone_no_sync_column "XBLTotal3"
            (getColumnName "XBLTotal3" "name")) = true
  /\ fst (columnExists lone_no_sync_column "XBLTotal3"
            (getColumnName "XBLTotal3" "folder_date")) = true
  /\ fst (columnExists lone_no_sync_column "XBLTotal3"
            (getColumnName "XBLTotal3" "kudos")) = true
  /\ fst (columnExists lone_no_sync_column "XBLTotal3"
            (getColumnName "XBLTotal3" "sync_id")) = false
  /\ In "XBLTotal3" (map d_table (dataParts (tableChecks lone_no_sync_column)))
  /\ top10Parts (tableChecks lone_no_sync_column) = []
  /\ get_chart timestamp_date lone_no_sync_column = Json [].
Proof.
  repeat split; try reflexivity.
  - right; right; right; left; reflexivity.
  - left. reflexivity.
Qed.

(** C8.  Take a table of the chart endpoint that is stored with its
    name, capture-instant and kudos columns but without its sync-id
    column, in a store whose latest sync can be read.  The top-ten
    query evaluates, the table is none of its branches, and its result
    is the same in every store that differs in this table only, as
    long as the table has no sync-id column.  The table is a branch of
    the history query, which the endpoint comes to when the top-ten
    query selects a user, answering with the empty object when it
    selects none: for each row of the table whose name is
    selected and not blank and whose capture instant has a calendar
    day, the history query evaluates and has a row of this name and
    day; the row carries the kudos of a capture of this name and day,
    in one of the tables, that is not earlier than the row of the
    table; and the endpoint answers with a point of this day and kudos
    under the name, unless it fails on a name that [Object.prototype]
    defines. *)
Theorem table_without_sync_id (DATE : string -> option string) (db : Database)
  (tableName : string) (t : Table) (latest : option string) :
  In tableName chart_tables ->
  assoc tableName (tables db) = Some t ->
  mem (getColumnName tableName "name") (columns t) = true ->
  mem (getColumnName tableName "folder_date") (columns t) = true ->
  mem (getColumnName tableName "kudos") (columns t) = true ->
  mem (getColumnName tableName "sync_id") (columns t) = false ->
  getLatestSyncId db = Ok latest ->
  exists top10Rows,
    top10Query db (top10Parts (tableChecks db)) (coalesce latest) = Ok top10Rows
    /\ ~ In tableName (map p_table (top10Parts (tableChecks db)))
    /\ (forall db',
          (forall T, T <> tableName ->
                     assoc T (tables db') = assoc T (tables db)) ->
          (forall t', assoc tableName (tables db') = Some t' ->
                      mem (getColumnName tableName "sync_id") (columns t')
                      = false) ->
          top10Query db' (top10Parts (tableChecks db')) (coalesce latest)
          = Ok top10Rows)
    /\ In tableName (map d_table (dataParts (tableChecks db)))
    /\ (top10Rows = [] -> get_chart DATE db = Json [])
    /\ forall r n d,
         In r (rows t) -> name r = Some n ->
         In (Some n) (map fst top10Rows) ->
         chart_key n <> "" ->
         date_of DATE (folder_date r) = Some d ->
         exists history k,
           historyQuery DATE db (dataParts (tableChecks db)) (map fst top10Rows)
           = Ok history
           /\ In {| r_date := Some d; r_name := sql_trim n; r_kudos := k |}
                 history
           /\ (exists T' t' r' n',
                 In T' chart_tables /\ assoc T' (tables db) = Some t'
                 /\ In r' (rows t') /\ name r' = Some n'
                 /\ sql_trim n' = sql_trim n
                 /\ date_of DATE (folder_date r') = Some d
                 /\ asc_text (folder_date r') (folder_date r) = false
                 /\ kudos r' = k)
           /\ ((exists data ps,
                  get_chart DATE db = Json data
                  /\ In (chart_key n, ps) data
                  /\ In {| date := Some d; point_kudos := kudos_or_zero k |} ps)
               \/ (exists msg row,
                     get_chart DATE db = Status 500 msg
                     /\ In row history
                     /\ mem (js_trim (r_name row)) object_prototype_keys
                        = true)).
Proof.
  intros HT Ht Mn Mf Mk Ms Hl.
  destruct (top10Query_checked db (coalesce latest)) as [top10Rows [Hq _]].
  exists top10Rows. split; [exact Hq|].
  assert (Hno : forall t0, assoc tableName (tables db) = Some t0 ->
            mem (getColumnName tableName "sync_id") (columns t0) = false)
    by (intros t0 E; rewrite Ht in E; now injection E as <-).
  set (part := {| d_table := tableName;
                  d_folderDateCol := getColumnName tableName "folder_date";
                  d_nameCol := getColumnName tableName "name";
                  d_kudosCol := getColumnName tableName "kudos" |}).
  assert (Hpart : In part (dataParts (tableChecks db))).
  { unfold dataParts, tableChecks. apply in_flat_map.
    exists (tableName, check_table db tableName). split.
    - apply in_map_iff. now exists tableName.
    - rewrite (check_table_stored db tableName HT), Ht.
      cbn [exists_ hasName hasFolderDate hasKudos]. rewrite Mn, Mf, Mk.
      now left. }
  split; [|split; [|split; [|split]]].
  - apply (top10Query_ignores db db tableName (coalesce latest)); auto.
  - intros db' Hsame Hno'. rewrite <- Hq.
    apply (top10Query_ignores db db' tableName (coalesce latest)); auto.
  - apply in_map_iff. now exists part.
  - intros ->. unfold get_chart, chart. rewrite Hl. cbn [bind].
    destruct (is_empty (top10Parts (tableChecks db))); [reflexivity|].
    rewrite Hq. reflexivity.
  - intros r n d Hr En Hu Hkey Hd.
    set (users := map fst top10Rows) in *.
    assert (Efd : exists fd, folder_date r = Some fd).
    { destruct (folder_date r) as [fd|]; [now exists fd | discriminate]. }
    destruct Efd as [fd Efd].
    assert (Hn0 : n <> "") by (intros ->; now apply Hkey).
    assert (Htrim : sql_trim n <> "").
    { intros E. apply Hkey. unfold chart_key. now rewrite E. }
    assert (Hin : In (sample_of r) (history_union db users)).
    { unfold history_union. apply in_flat_map. exists part.
      split; [exact Hpart|]. unfold data_rows_of. cbn [d_table part].
      rewrite Ht. apply in_map. apply filter_In. split; [exact Hr|].
      unfold in_history. rewrite Efd, En. cbn [is_not_null eq_col andb].
      apply andb_true_iff. split.
      - apply negb_true_iff. now apply String.eqb_neq.
      - apply existsb_exists. exists (Some n). split; [exact Hu|].
        cbn [eq_cols]. apply String.eqb_refl. }
    assert (Hname : has_name (sample_of r) = true).
    { unfold has_name, trimmed_name. cbn [s_name sample_of]. rewrite En.
      cbn [is_not_null coalesce andb]. apply negb_true_iff.
      now apply String.eqb_neq. }
    destruct (history_rows_cover DATE db users (sample_of r) d Hin Hname Hd)
      as [s' [Hs' [En' [Hd' [Hle Hrow]]]]].
    destruct (history_union_In db users s' Hs')
      as [T' [t' [r' [n' [HT' [Ht' [Hr' [En'' [_ ->]]]]]]]]].
    unfold trimmed_name in En', Hrow. cbn [s_name s_folder_date s_kudos sample_of] in *.
    rewrite En in En', Hrow. rewrite En'' in En'. cbn [coalesce] in En', Hrow.
    exists (history_rows DATE db users), (kudos r').
    split; [apply historyQuery_checked|]. split; [exact Hrow|]. split.
    { exists T', t', r', n'. auto 10. }
    assert (Hrows : top10Rows <> []).
    { intros E. unfold users in Hu. rewrite E in Hu. destruct Hu. }
    assert (Hparts : dataParts (tableChecks db) <> []).
    { intros E. rewrite E in Hpart. destruct Hpart. }
    unfold get_chart.
    rewrite (chart_with_users DATE db latest top10Rows Hl Hq Hrows Hparts).
    fold users. destruct (organize [] (history_rows DATE db users))
      as [data|msg] eqn:Ho; cbn [bind respond].
    + left.
      destruct (organize_spec _ [] data (NoDup_nil _)
                  (fun k H => match H with end) Ho) as [_ [_ Hser]].
      specialize (Hser (chart_key n) Hkey). cbn [app] in Hser.
      unfold stored_series at 2 in Hser. cbn [assoc app] in Hser.
      assert (Hp : In {| date := Some d; point_kudos := kudos_or_zero (kudos r') |}
                      (series (chart_key n) (history_rows DATE db users))).
      { unfold series.
        apply (in_map point_of _
                 {| r_date := Some d; r_name := sql_trim n; r_kudos := kudos r' |}).
        apply filter_In. split; [exact Hrow|]. cbn [r_name].
        apply String.eqb_refl. }
      rewrite <- Hser in Hp. unfold stored_series in Hp.
      destruct (assoc (chart_key n) data) as [ps|] eqn:Ea; [|destruct Hp].
      exists data, ps. split; [reflexivity|]. split; [|exact Hp].
      now apply assoc_In.
    + right.
      assert (Hthrow : exists msg, organize [] (history_rows DATE db users) = Err msg)
        by now exists msg.
      apply (organize_throws _ [] (fun k H => match H with end)) in Hthrow.
      destruct Hthrow as [row [Hin' P]]. exists msg, row. auto.
Qed.

Lemma table_without_sync_id_witness :
  (exists top10Rows,
    top10Query no_sync_column (top10Parts (tableChecks no_sync_column))
      (coalesce (Some "S2")) = Ok top10Rows
    /\ ~ In "XBLTotal3" (map p_table (top10Parts (tableChecks no_sync_column)))
    /\ (forall db',
          (forall T, T <> "XBLTotal3" ->
                     assoc T (tables db') = assoc T (tables no_sync_column)) ->
          (forall t', assoc "XBLTotal3" (tables db') = Some t' ->
                      mem (getColumnName "XBLTotal3" "sync_id") (columns t')
                      = false) ->
          top10Query db' (top10Parts (tableChecks db')) (coalesce (Some "S2"))
          = Ok top10Rows)
    /\ In "XBLTotal3" (map d_table (dataParts (tableChecks no_sync_column)))
    /\ (top10Rows = [] -> get_chart timestamp_date no_sync_column = Json [])
    /\ forall r n d,
         In r [snapshot "A" 100 "2024-11-26 17:00:00" "S1"] ->
         name r = Some n ->
         In (Some n) (map fst top10Rows) ->
         chart_key n <> "" ->
         date_of timestamp_date (folder_date r) = Some d ->
         exists history k,
           historyQuery timestamp_date no_sync_column
             (dataParts (tableChecks no_sync_column)) (map fst top10Rows)
           = Ok history
           /\ In {| r_date := Some d; r_name := sql_trim n; r_kudos := k |}
                 history
           /\ (exists T' t' r' n',
                 In T' chart_tables
                 /\ assoc T' (tables no_sync_column) = Some t'
                 /\ In r' (rows t') /\ name r' = Some n'
                 /\ sql_trim n' = sql_trim n
                 /\ date_of timestamp_date (folder_date r') = Some d
                 /\ asc_text (folder_date r') (folder_date r) = false
                 /\ kudos r' = k)
           /\ ((exists data ps,
                  get_chart timestamp_date no_sync_column = Json data
                  /\ In (chart_key n, ps) data
                  /\ In {| date := Some d; point_kudos := kudos_or_zero k |} ps)
               \/ (exists msg row,
                     get_chart timestamp_date no_sync_column = Status 500 msg
                     /\ In row history
                     /\ mem (js_trim (r_name row)) object_prototype_keys
                        = true)))
  /\ top10Query no_sync_column (top10Parts (tableChecks no_sync_column))
       (coalesce (Some "S2"))
     = Ok [(Some "A", Some 120%Z)]
  /\ get_chart timestamp_date no_sync_column
     = Json [("A", [{| date := Some "2024-11-26"; point_kudos := 100 |};
                    {| date := Some "2024-11-27"; point_kudos := 120 |}])].
Proof.
  split; [|split; reflexivity].
  apply (table_without_sync_id timestamp_date no_sync_column "XBLTotal3"
           {| columns := ["field4"; "field10"; "field11"];
              rows := [snapshot "A" 100 "2024-11-26 17:00:00" "S1"] |}
           (Some "S2")).
  - right; right; right; left; reflexivity.
  - reflexivity.
  - reflexivity.
  - reflexivity.
  - reflexivity.
  - reflexivity.
  - reflexivity.
Defined.

(** X16.  When none of the stored tables of the chart endpoint has
    its sync-id column, the endpoint answers with the empty object,
    whatever history those tables hold. *)
Theorem chart_empty_without_sync_columns (DATE : string -> option string)
  (db : Database) :
  Sync db <> None ->
  (forall T t, In T chart_tables -> assoc T (tables db) = Some t ->
               mem (getColumnName T "sync_id") (columns t) = false) ->
  get_chart DATE db = Json [].
Proof.
  intros Hs Hno.
  assert (Hparts : top10Parts (tableChecks db) = []).
  { destruct (top10Parts (tableChecks db)) as [|p l] eqn:E; [reflexivity|].
    assert (Hp : In p (top10Parts (tableChecks db))) by (rewrite E; now left).
    destruct (top10Parts_In db p Hp) as [HT [t [Ht [_ [_ [Es [_ [_ Ms]]]]]]]].
    rewrite Es, (Hno _ t HT Ht) in Ms. discriminate. }
  unfold get_chart, chart, getLatestSyncId.
  destruct (Sync db); [|congruence]. cbn [bind]. now rewrite Hparts.
Qed.

Lemma chart_empty_without_sync_columns_witness :
  get_chart timestamp_date
    {| tables :=
         [("XBLTotal3",
           {| columns := ["field4"; "field10"; "field11"];
              rows := [snapshot "A" 100 "2024-11-26 17:00:00" "S1"] |})];
       Sync := Some [run "S1" "2024-11-26T17:00:00.000Z"] |}
  = Json [].
Proof.
  apply chart_empty_without_sync_columns.
  - discriminate.
  - intros T t [<-|[<-|[<-|[<-|[]]]]]; simpl; intros [= <-]; reflexivity.
Defined.

(** X17.  A JSON answer of the chart endpoint has at most ten
    series and no key twice; every key is non-empty and is the trimmed
    name of a stored row, and no series is empty. *)
Theorem chart_series_are_named (DATE : string -> option string)
  (db : Database) (data : list (string * list point)) :
  get_chart DATE db = Json data ->
  NoDup (map fst data)
  /\ length data <= 10
  /\ forall k ps, In (k, ps) data ->
       k <> "" /\ ps <> []
       /\ exists T t r n,
            In T chart_tables /\ assoc T (tables db) = Some t
            /\ In r (rows t) /\ name r = Some n /\ k = chart_key n.
Proof.
  intros H. destruct (chart_json DATE db data H) as [->|[param Ho]].
  - split; [constructor|]. split; [simpl; lia | intros k ps []].
  - destruct (organize_spec _ [] data (NoDup_nil _) (fun k H => match H with end) Ho)
      as [Hnd [Hkeys _]].
    destruct (history_rows_spec DATE db (top10_users db param)) as [_ Hrows].
    assert (Hkey : forall k, In k (map fst data) ->
              exists T t r n,
                In T chart_tables /\ assoc T (tables db) = Some t
                /\ In r (rows t) /\ name r = Some n
                /\ In (Some n) (top10_users db param) /\ k = chart_key n).
    { intros k Hk. destruct (Hkeys k Hk) as [_ [_ [[]|[row [Hrow Ek]]]]].
      destruct (Hrows row Hrow) as [_ [_ [T [t [r [n [HT [Ht [Hr [En [Hu Er]]]]]]]]]]].
      exists T, t, r, n. unfold chart_key. rewrite <- Er, Ek. auto 10. }
    split; [exact Hnd|]. split.
    + rewrite <- (length_map fst data).
      apply Nat.le_trans
        with (length (map (fun u => chart_key (coalesce u))
                          (top10_users db param))).
      * apply NoDup_incl_length; [exact Hnd|]. intros k Hk.
        destruct (Hkey k Hk) as [_ [_ [_ [n [_ [_ [_ [_ [Hu ->]]]]]]]]].
        apply in_map_iff. now exists (Some n).
      * rewrite length_map. apply top10_users_length.
    + intros k ps Hin.
      assert (Hk : In k (map fst data)) by (apply in_map_iff; now exists (k, ps)).
      destruct (Hkeys k Hk) as [Hne [Hs _]].
      rewrite (stored_series_In k ps data Hnd Hin) in Hs.
      split; [exact Hne|]. split; [exact Hs|].
      destruct (Hkey k Hk) as [T [t [r [n [HT [Ht [Hr [En [_ Ek]]]]]]]]].
      now exists T, t, r, n.
Qed.

Lemma chart_series_are_named_witness :
  NoDup (map fst [("A", [{| date := Some "2024-11-26"; point_kudos := 100%Z |}])])
  /\ length [("A", [{| date := Some "2024-11-26"; point_kudos := 100%Z |}])] <= 10
  /\ forall k ps,
       In (k, ps) [("A", [{| date := Some "2024-11-26"; point_kudos := 100%Z |}])] ->
       k <> "" /\ ps <> []
       /\ exists T t r n,
            In T chart_tables /\ assoc T (tables one_capture) = Some t
            /\ In r (rows t) /\ name r = Some n /\ k = chart_key n.
Proof.
  apply (chart_series_are_named timestamp_date one_capture). reflexivity.
Defined.



(** X19.  On a store with a [Sync] table in which no stored name
    trims to a property inherited from [Object.prototype], the chart
    endpoint answers with JSON, whichever of its tables and columns
    exist: the checks keep every query it builds valid. *)
Theorem chart_answers_on_any_schema (DATE : string -> option string)
  (db : Database) :
  Sync db <> None ->
  (forall T t r n, In T chart_tables -> assoc T (tables db) = Some t ->
                   In r (rows t) -> name r = Some n ->
                   mem (chart_key n) object_prototype_keys = false) ->
  exists data, get_chart DATE db = Json data.
Proof.
  intros Hs Hnames. destruct (Sync db) as [sync_rows|] eqn:Es; [|congruence].
  destruct (chart_cases DATE db sync_rows Es) as [latest [_ [E|E]]];
    unfold get_chart; rewrite E.
  - now eexists.
  - destruct (organize [] _) as [data|msg] eqn:Ho.
    + now eexists.
    + exfalso.
      assert (Ht : exists msg, organize [] (history_rows DATE db
                     (top10_users db (coalesce latest))) = Err msg)
        by now exists msg.
      apply (organize_throws _ [] (fun k H => match H with end)) in Ht.
      destruct Ht as [row [Hrow P]].
      destruct (history_rows_spec DATE db (top10_users db (coalesce latest)))
        as [_ Hrows].
      destruct (Hrows row Hrow) as [_ [_ [T [t [r [n [HT [Ht [Hr [En [_ Er]]]]]]]]]]].
      rewrite Er in P. unfold chart_key in Hnames.
      rewrite (Hnames T t r n HT Ht Hr En) in P. discriminate.
Qed.

Lemma chart_answers_on_any_schema_witness :
  exists data, get_chart timestamp_date no_sync_column = Json data.
Proof.
  apply chart_answers_on_any_schema.
  - discriminate.
  - intros T t r n [<-|[<-|[<-|[<-|[]]]]]; simpl; intros [= <-];
      intros [<-|[]]; intros [= <-]; reflexivity.
Defined.

Local Open Scope string_scope.
Local Open Scope list_scope.

(** * Deduplication, whatever the instants *)

Lemma In_map_set_weak (k k' : string) (r v : Row) (m : list (string * Row)) :
  In (k', v) (map_set k r m) -> (k' = k /\ v = r) \/ In (k', v) m.
Proof.
  induction m as [|[k0 v0] m IH]; simpl.
  - intros [[= <- <-]|[]]. now left.
  - destruct (String.eqb_spec k k0) as [->|Hne].
    + intros [[= <- <-]|H]; [now left | right; now right].
    + intros [[= <- <-]|H]; [right; now left|].
      destruct (IH H) as [?|?]; [now left | right; now right].
Qed.

Lemma keys_map_set (k : string) (r : Row) (m : list (string * Row)) :
  map fst (map_set k r m) = add_key (map fst m) k.
Proof.
  unfold add_key. rewrite mem_assoc.
  destruct (assoc k m) as [e|] eqn:E; cbn [is_not_null].
  - apply (map_set_keys k r e m E).
  - rewrite (map_set_new k r m E), map_app. reflexivity.
Qed.

Lemma keys_dedupe_step (Date_parse : string -> option Z)
  (m : list (string * Row)) (r : Row) :
  map fst (dedupe_step Date_parse m r)
  = fold_left add_key (names_of [r]) (map fst m).
Proof.
  unfold dedupe_step, names_of. cbn [flat_map]. rewrite app_nil_r.
  destruct (truthy (name r)); [|reflexivity]. cbn [fold_left].
  destruct (assoc (coalesce (name r)) m) as [e|] eqn:E.
  - destruct (replaces Date_parse r e); [apply keys_map_set|].
    unfold add_key. rewrite mem_assoc, E. reflexivity.
  - apply keys_map_set.
Qed.

Lemma keys_dedupe_fold (Date_parse : string -> option Z) (rows : list Row) :
  forall m,
    map fst (fold_left (dedupe_step Date_parse) rows m)
    = fold_left add_key (names_of rows) (map fst m).
Proof.
  induction rows as [|r rows IH]; intros m; [reflexivity|].
  cbn [fold_left]. rewrite IH, keys_dedupe_step.
  change (r :: rows) with ([r] ++ rows). unfold names_of.
  rewrite flat_map_app, fold_left_app. reflexivity.
Qed.

Lemma mem_app (k : string) (l1 l2 : list string) :
  mem k (l1 ++ l2) = mem k l1 || mem k l2.
Proof. unfold mem. apply existsb_app. Qed.

(** Adding keys one by one keeps the first occurrence of each. *)
Lemma fold_add_key (ns : list string) :
  forall keys,
    fold_left add_key ns keys
    = keys ++ filter (fun k => negb (mem k keys)) (distinct String.eqb ns).
Proof.
  induction ns as [|n ns IH]; intros keys; cbn [fold_left distinct filter].
  - now rewrite app_nil_r.
  - rewrite IH. unfold add_key. destruct (mem n keys) eqn:E; cbn [negb].
    + f_equal. rewrite filter_twice. apply filter_ext. intros k.
      destruct (String.eqb_spec n k) as [<-|Hne]; cbn [negb andb].
      * now rewrite E.
      * reflexivity.
    + rewrite <- app_assoc. cbn [app]. f_equal. f_equal.
      rewrite filter_twice. apply filter_ext. intros k.
      rewrite mem_app. unfold mem at 2. cbn [existsb]. rewrite orb_false_r.
      rewrite (String.eqb_sym k n), negb_orb. apply andb_comm.
Qed.

Lemma dedupe_entries (Date_parse : string -> option Z) (rows : list Row) :
  forall l m,
    (forall k v, In (k, v) m -> name v = Some k /\ k <> "" /\ In v l) ->
    forall k v, In (k, v) (fold_left (dedupe_step Date_parse) rows m) ->
                name v = Some k /\ k <> "" /\ In v (l ++ rows).
Proof.
  induction rows as [|r rows IH]; intros l m Hm k v; cbn [fold_left].
  - rewrite app_nil_r. apply Hm.
  - replace (l ++ r :: rows) with ((l ++ [r]) ++ rows)
      by (now rewrite <- app_assoc).
    apply IH. clear k v. intros k v Hin.
    assert (Hold : In (k, v) m -> name v = Some k /\ k <> "" /\ In v (l ++ [r])).
    { intros H. destruct (Hm k v H) as [A [B C]]. repeat split; auto.
      apply in_or_app. now left. }
    unfold dedupe_step in Hin.
    destruct (truthy (name r)) eqn:T; [|now apply Hold].
    apply truthy_some in T as [En Hne].
    assert (Hnew : In (k, v) (map_set (coalesce (name r)) r m) ->
                   name v = Some k /\ k <> "" /\ In v (l ++ [r])).
    { intros H. apply In_map_set_weak in H as [[-> ->]|H]; [|now apply Hold].
      repeat split; auto. apply in_or_app. right. now left. }
    destruct (assoc (coalesce (name r)) m) as [e|]; [|now apply Hnew].
    destruct (replaces Date_parse r e); [now apply Hnew | now apply Hold].
Qed.

Lemma dedupe_names (Date_parse : string -> option Z) (rows : list Row) :
  map name (dedupeByIdentity Date_parse rows)
  = map Some (distinct String.eqb (names_of rows)).
Proof.
  unfold dedupeByIdentity.
  pose proof (dedupe_entries Date_parse rows [] []
                (fun k v H => match H with end)) as He.
  pose proof (keys_dedupe_fold Date_parse rows []) as Hk.
  rewrite fold_add_key in Hk. cbn [map app] in Hk.
  rewrite (filter_ext _ (fun _ => true)), filter_all in Hk by reflexivity.
  rewrite <- Hk, !map_map. apply map_ext_in. intros [k v] Hin.
  simpl. now destruct (He k v Hin) as [-> _].
Qed.

Lemma dedupe_subset (Date_parse : string -> option Z) (rows : list Row)
  (r : Row) :
  In r (dedupeByIdentity Date_parse rows) -> In r rows.
Proof.
  unfold dedupeByIdentity. intros Hr.
  apply in_map_iff in Hr as [[k v] [<- Hin]].
  now destruct (dedupe_entries Date_parse rows [] []
                  (fun k v H => match H with end) k v Hin) as [_ [_ H]].
Qed.

Lemma dedupe_NoDup (Date_parse : string -> option Z) (rows : list Row) :
  NoDup (map name (dedupeByIdentity Date_parse rows)).
Proof.
  rewrite dedupe_names.
  apply Injective_map_NoDup; [intros x y; congruence|].
  apply NoDup_distinct. intros a b. apply String.eqb_eq.
Qed.

(** X14.  Whatever the instants, [dedupeByIdentity] returns rows of
    its input, and their names are the distinct non-empty names of the
    input in the order of their first appearance. *)
Theorem dedupe_first_occurrence_order (Date_parse : string -> option Z)
  (rows : list Row) :
  map name (dedupeByIdentity Date_parse rows)
  = map Some (distinct String.eqb (names_of rows))
  /\ forall r, In r (dedupeByIdentity Date_parse rows) -> In r rows.
Proof.
  split; [apply dedupe_names | apply dedupe_subset].
Qed.

Lemma names_of_dedupe (Date_parse : string -> option Z) (rows : list Row) :
  Forall (fun r => truthy (name r) = true) (dedupeByIdentity Date_parse rows).
Proof.
  apply Forall_forall. intros r Hr. unfold dedupeByIdentity in Hr.
  apply in_map_iff in Hr as [[k v] [<- Hin]].
  destruct (dedupe_entries Date_parse rows [] [] (fun k v H => match H with end)
              k v Hin) as [En [Hne _]].
  simpl. rewrite En. destruct k; [congruence | reflexivity].
Qed.

(** Rows with distinct non-empty names pass through unchanged. *)
Lemma dedupe_fold_distinct (Date_parse : string -> option Z) (l : list Row) :
  forall m,
    Forall (fun r => truthy (name r) = true) l ->
    NoDup (map name l) ->
    (forall r, In r l -> assoc (coalesce (name r)) m = None) ->
    fold_left (dedupe_step Date_parse) l m
    = m ++ map (fun r => (coalesce (name r), r)) l.
Proof.
  induction l as [|r l IH]; intros m Ht Hnd Hm; cbn [fold_left map].
  - now rewrite app_nil_r.
  - inversion Ht as [|? ? Tr Tl]; subst. inversion Hnd as [|? ? Hnot Hnd']; subst.
    unfold dedupe_step at 2. rewrite Tr, (Hm r (or_introl eq_refl)).
    rewrite (map_set_new _ r m (Hm r (or_introl eq_refl))).
    rewrite IH; [now rewrite <- app_assoc | exact Tl | exact Hnd' |].
    intros r' Hr'. apply assoc_None. rewrite map_app. intros Hin.
    apply in_app_or in Hin as [Hin|[Hin|[]]].
    + apply (proj1 (assoc_None _ _ m) (Hm r' (or_intror Hr'))). exact Hin.
    + cbn [fst] in Hin. apply Hnot.
      rewrite Forall_forall in Tl.
      destruct (truthy_some _ Tr) as [E1 _].
      destruct (truthy_some _ (Tl r' Hr')) as [E2 _].
      rewrite E1, Hin, <- E2. now apply in_map.
Qed.

(** X15.  Deduplicating a deduplicated list changes nothing. *)
Theorem dedupe_idempotent (Date_parse : string -> option Z) (rows : list Row) :
  dedupeByIdentity Date_parse (dedupeByIdentity Date_parse rows)
  = dedupeByIdentity Date_parse rows.
Proof.
  set (out := dedupeByIdentity Date_parse rows).
  assert (Hnd : NoDup (map name out)) by apply dedupe_NoDup.
  unfold dedupeByIdentity at 1.
  rewrite (dedupe_fold_distinct Date_parse out [] (names_of_dedupe Date_parse rows)
             Hnd (fun r _ => eq_refl)).
  cbn [app]. rewrite map_map. apply map_id.
Qed.

Local Open Scope list_scope.
Local Open Scope string_scope.

(** * The hour lookup *)

(** A pattern cut from the head of a text matches the text, wildcards
    or not. *)
Lemma like_self_prefix (n : nat) (f : string) :
  like (substring 0 n f ++ "%") f = true.
Proof.
  revert n. induction f as [|c f IH]; intros [|n]; try reflexivity.
  - apply like_percent.
  - cbn [substring append]. specialize (IH n).
    destruct (Ascii.eqb c "%") eqn:E.
    + apply Ascii.eqb_eq in E. subst c.
      apply (like_leading_percent (substring 0 n f ++ "%") (String "%" f)).
      exists "%", f. now split.
    + cbn [like]. rewrite E, Ascii.eqb_refl, orb_true_r. exact IH.
Qed.

Lemma substring_nonempty (n : nat) (f : string) :
  f <> "" -> substring 0 (S n) f <> "".
Proof. destruct f; [congruence | discriminate]. Qed.

Section ByDate.
Variable strftime_s : string -> option Z.
Variable Date_parse : string -> option Z.
Variable db : Database.
Variable t : Table.
Hypothesis has_table : assoc "XBLTotal" (tables db) = Some t.
Hypothesis has_columns :
  forallb (fun c => mem c (columns t)) xbltotal_columns = true.

Lemma has_folder_date : mem "folder_date" (columns t) = true.
Proof. apply (columns_present t "folder_date" has_columns). simpl. tauto. Qed.

Lemma by_date_resolved (d : string) (closestHour : option string) :
  getClosestFolderDateHour strftime_s db d = Ok closestHour ->
  by_date strftime_s Date_parse db d
  = Ok (if negb (truthy closestHour)
        then Status 404 "No data found for the specified date"
        else
          let bucket :=
            dedupeByIdentity Date_parse
              (filter (fun r => like_col (coalesce closestHour ++ "%")
                                         (folder_date r)) (rows t)) in
          if is_empty bucket
          then Status 404 "No data found for the specified date"
          else Json bucket).
Proof.
  intros H. unfold by_date. rewrite H. cbn [bind].
  destruct (negb (truthy closestHour)); [reflexivity|].
  unfold from. rewrite has_table. cbn [bind].
  rewrite (select_listing_all t has_columns). cbn [bind].
  now destruct (is_empty _).
Qed.

Lemma instants_dec :
  (forall r, In r (rows t) -> folder_date r = None)
  \/ exists r, In r (rows t) /\ folder_date r <> None.
Proof.
  destruct (existsb (fun r => is_not_null (folder_date r)) (rows t)) eqn:E.
  - right. apply existsb_exists in E as [r [Hr Hn]]. exists r.
    split; [exact Hr|]. destruct (folder_date r); [discriminate | discriminate].
  - left. intros r Hr. destruct (folder_date r) as [f|] eqn:Ef; [|reflexivity].
    assert (X : existsb (fun r => is_not_null (folder_date r)) (rows t) = true).
    { apply existsb_exists. exists r. rewrite Ef. auto. }
    congruence.
Qed.

Lemma resolved_hour_is_stored (d h : string) :
  getClosestFolderDateHour strftime_s db d = Ok (Some h) ->
  exists f, In (Some f) (map folder_date (rows t)) /\ h = substring 0 13 f.
Proof.
  intros H. destruct (decode_units d) as [d'|] eqn:Hd.
  - destruct (resolver_total strftime_s db t has_table has_folder_date d d' Hd)
      as [Hnone Hsome].
    destruct instants_dec as [Hall|Hex].
    + rewrite (Hnone Hall) in H. discriminate.
    + destruct (Hsome Hex) as [f [Hf E]]. rewrite E in H.
      injection H as <-. now exists f.
  - unfold getClosestFolderDateHour, decodeURIComponent in H.
    rewrite Hd in H. discriminate.
Qed.
End ByDate.

(** X11.  When no row of [XBLTotal] has a capture instant,
    [GET /api2/xbltotal/:date] answers 404 with the message of the
    source for every target that decodes. *)
Theorem by_date_not_found_without_instants (strftime_s Date_parse : string -> option Z)
  (db : Database) (t : Table) (d d' : string) :
  assoc "XBLTotal" (tables db) = Some t ->
  forallb (fun c => mem c (columns t)) xbltotal_columns = true ->
  (forall r, In r (rows t) -> folder_date r = None) ->
  decode_units d = Some d' ->
  get_by_date strftime_s Date_parse db d
  = Status 404 "No data found for the specified date".
Proof.
  intros Ht Hc Hnone Hd. unfold get_by_date.
  rewrite (by_date_resolved strftime_s Date_parse db t Ht Hc d None).
  - reflexivity.
  - exact (proj1 (resolver_total strftime_s db t Ht (has_folder_date t Hc) d d' Hd)
             Hnone).
Qed.

Lemma by_date_not_found_without_instants_witness :
  get_by_date timestamp_epoch timestamp_ms capture_in_XBLTotal1 "2024-11-26"
  = Status 404 "No data found for the specified date".
Proof.
  apply (by_date_not_found_without_instants timestamp_epoch timestamp_ms
           capture_in_XBLTotal1 {| columns := xbltotal_columns; rows := [] |}
           "2024-11-26" "2024-11-26"); try reflexivity.
  intros r [].
Defined.

(** X12.  A JSON answer of [GET /api2/xbltotal/:date] is never
    empty; its rows are rows of [XBLTotal] with a non-empty name, no
    two with the same name, all matching the hour pattern cut from one
    stored capture instant. *)
Theorem by_date_body (strftime_s Date_parse : string -> option Z)
  (db : Database) (t : Table) (d : string) (body : list Row) :
  assoc "XBLTotal" (tables db) = Some t ->
  forallb (fun c => mem c (columns t)) xbltotal_columns = true ->
  get_by_date strftime_s Date_parse db d = Json body ->
  body <> []
  /\ NoDup (map name body)
  /\ exists f,
       In (Some f) (map folder_date (rows t))
       /\ forall r, In r body ->
            In r (rows t) /\ truthy (name r) = true
            /\ like_col (substring 0 13 f ++ "%") (folder_date r) = true.
Proof.
  intros Ht Hc H. unfold get_by_date in H.
  destruct (getClosestFolderDateHour strftime_s db d) as [[h|]|msg] eqn:E.
  - rewrite (by_date_resolved strftime_s Date_parse db t Ht Hc d (Some h) E) in H.
    cbn [respond] in H. destruct (negb (truthy (Some h))); [discriminate|].
    cbv zeta in H. cbn [coalesce] in H.
    destruct (is_empty _) eqn:Em; [discriminate|]. injection H as <-.
    split; [|split].
    + intros Hnil. rewrite Hnil in Em. discriminate.
    + apply dedupe_NoDup.
    + destruct (resolved_hour_is_stored strftime_s db t Ht Hc d h E) as [f [Hf ->]].
      exists f. split; [exact Hf|]. intros r Hr. split; [|split].
      * apply dedupe_subset in Hr. now apply filter_In in Hr as [Hr _].
      * pose proof (names_of_dedupe Date_parse
                      (filter (fun r => like_col (substring 0 13 f ++ "%")
                                                 (folder_date r)) (rows t))) as F.
        rewrite Forall_forall in F. now apply F.
      * apply dedupe_subset in Hr. now apply filter_In in Hr as [_ Hr].
  - rewrite (by_date_resolved strftime_s Date_parse db t Ht Hc d None E) in H.
    discriminate.
  - unfold by_date in H. rewrite E in H. discriminate.
Qed.

Lemma by_date_body_witness :
  [snapshot "A" 100 "2024-11-26 17:00:00" "S1"] <> []
  /\ NoDup (map name [snapshot "A" 100 "2024-11-26 17:00:00" "S1"])
  /\ exists f,
       In (Some f) (map folder_date
                      [snapshot "A" 100 "2024-11-26 17:00:00" "S1";
                       snapshot "A" 120 "2024-11-26 18:00:00" "S2"])
       /\ forall r, In r [snapshot "A" 100 "2024-11-26 17:00:00" "S1"] ->
            In r [snapshot "A" 100 "2024-11-26 17:00:00" "S1";
                  snapshot "A" 120 "2024-11-26 18:00:00" "S2"]
            /\ truthy (name r) = true
            /\ like_col (substring 0 13 f ++ "%") (folder_date r) = true.
Proof.
  apply (by_date_body timestamp_epoch timestamp_ms two_hours
           {| columns := xbltotal_columns;
              rows := [snapshot "A" 100 "2024-11-26 17:00:00" "S1";
                       snapshot "A" 120 "2024-11-26 18:00:00" "S2"] |}
           "2024-11-26 17"); reflexivity.
Defined.

(** X13.  When [XBLTotal] is not empty and each of its rows has a
    non-empty name and capture instant, [GET /api2/xbltotal/:date]
    answers with data for every target that decodes: the closest hour
    always selects at least one row. *)
Theorem by_date_finds_data (strftime_s Date_parse : string -> option Z)
  (db : Database) (t : Table) (d d' : string) :
  assoc "XBLTotal" (tables db) = Some t ->
  forallb (fun c => mem c (columns t)) xbltotal_columns = true ->
  rows t <> [] ->
  (forall r, In r (rows t) ->
             truthy (name r) = true /\ truthy (folder_date r) = true) ->
  decode_units d = Some d' ->
  exists body, get_by_date strftime_s Date_parse db d = Json body.
Proof.
  intros Ht Hc Hne Hrows Hd.
  assert (Hex : exists r, In r (rows t) /\ folder_date r <> None).
  { destruct (rows t) as [|r0 l] eqn:E; [congruence|]. exists r0.
    split; [now left|]. destruct (Hrows r0 (or_introl eq_refl)) as [_ T].
    destruct (folder_date r0); [discriminate | discriminate]. }
  destruct (proj2 (resolver_total strftime_s db t Ht (has_folder_date t Hc) d d' Hd)
              Hex) as [f [Hf E]].
  apply in_map_iff in Hf as [r1 [Ef Hr1]].
  destruct (Hrows r1 Hr1) as [Tn Tf]. rewrite Ef in Tf.
  apply truthy_some in Tf as [_ Hfne]. cbn [coalesce] in Hfne.
  unfold get_by_date.
  rewrite (by_date_resolved strftime_s Date_parse db t Ht Hc d _ E).
  assert (Th : truthy (Some (substring 0 13 f)) = true).
  { pose proof (substring_nonempty 12 f Hfne).
    destruct (substring 0 13 f); [congruence | reflexivity]. }
  rewrite Th. cbn [negb coalesce]. cbv zeta.
  set (bucket := filter _ (rows t)).
  assert (Hb : In r1 bucket).
  { apply filter_In. split; [exact Hr1|]. rewrite Ef. apply like_self_prefix. }
  destruct (is_empty (dedupeByIdentity Date_parse bucket)) eqn:Em;
    [|now eexists].
  exfalso.
  assert (Hn : In (coalesce (name r1)) (names_of bucket)).
  { unfold names_of. apply in_flat_map. exists r1. split; [exact Hb|].
    rewrite Tn. now left. }
  apply (In_distinct _ String.eqb String.eqb_eq) in Hn.
  apply (in_map Some) in Hn. rewrite <- dedupe_names with (Date_parse := Date_parse) in Hn.
  destruct (dedupeByIdentity Date_parse bucket); [destruct Hn | discriminate].
Qed.

Lemma by_date_finds_data_witness :
  exists body,
    get_by_date timestamp_epoch timestamp_ms two_hours "1999-01-01" = Json body.
Proof.
  apply (by_date_finds_data timestamp_epoch timestamp_ms two_hours
           {| columns := xbltotal_columns;
              rows := [snapshot "A" 100 "2024-11-26 17:00:00" "S1";
                       snapshot "A" 120 "2024-11-26 18:00:00" "S2"] |}
           "1999-01-01" "1999-01-01"); try reflexivity.
  - discriminate.
  - intros r [<-|[<-|[]]]; split; reflexivity.
Defined.

Local Open Scope list_scope.
Local Open Scope string_scope.

(** * Decoding the target *)

Lemma decode_units_app_plain (s1 s2 : string) :
  forallb_string plain s1 = true ->
  decode_units (s1 ++ s2) = option_map (append s1) (decode_units s2).
Proof.
  induction s1 as [|c s1 IH]; intros H.
  - cbn [append]. now destruct (decode_units s2).
  - cbn [forallb_string] in H. apply andb_true_iff in H as [Hc Hs].
    cbn [append decode_units]. rewrite (plain_not_percent c Hc), (IH Hs).
    now destruct (decode_units s2).
Qed.

(** X8.  The resolver also accepts a date with hour and minute:
    it pads it with [:00], searches the hour written in the input, and
    answers as on the padded text. *)
Theorem minute_padding (strftime_s : string -> option Z) (db : Database)
  (d : string) :
  re_match re_date_hour_minute d = true ->
  targetDateTime d = d ++ ":00"
  /\ substring 0 13 (targetDateTime d) = substring 0 13 d
  /\ getClosestFolderDateHour strftime_s db d
     = getClosestFolderDateHour strftime_s db (d ++ ":00").
Proof.
  intros H.
  assert (R : recognized d = true).
  { unfold recognized. rewrite H. now rewrite !orb_true_r. }
  pose proof (recognized_full d R) as F.
  rewrite (targetDateTime_date_hour_minute d H) in *. split; [reflexivity|].
  split.
  - pose proof (re_match_length _ _ H) as L.
    change (List.length re_date_hour_minute) with 16 in L.
    do 14 (destruct d as [|? d]; [discriminate|]). reflexivity.
  - apply resolver_padded; [now apply recognized_plain | | exact F].
    now apply targetDateTime_date_hour_minute.
Qed.

Lemma minute_padding_witness :
  targetDateTime "2024-11-26 17:55" = "2024-11-26 17:55:00"
  /\ substring 0 13 (targetDateTime "2024-11-26 17:55")
     = substring 0 13 "2024-11-26 17:55"
  /\ getClosestFolderDateHour timestamp_epoch two_hours "2024-11-26 17:55"
     = getClosestFolderDateHour timestamp_epoch two_hours "2024-11-26 17:55:00".
Proof.
  apply (minute_padding timestamp_epoch two_hours "2024-11-26 17:55").
  reflexivity.
Defined.

(** X9.  An escaped space ([%20]) or colon ([%3A]) in the target
    is read as the character itself: the resolver answers as on the
    unescaped text. *)
Theorem escaped_space_and_colon (strftime_s : string -> option Z)
  (db : Database) (a b : string) :
  forallb_string plain a = true ->
  forallb_string plain b = true ->
  getClosestFolderDateHour strftime_s db (a ++ "%20" ++ b)
  = getClosestFolderDateHour strftime_s db (a ++ " " ++ b)
  /\ getClosestFolderDateHour strftime_s db (a ++ "%3A" ++ b)
     = getClosestFolderDateHour strftime_s db (a ++ ":" ++ b).
Proof.
  intros Ha Hb.
  assert (D : forall (esc : string) (c : ascii),
             plain c = true ->
             decode_units (esc ++ b) = Some (String c b) ->
             getClosestFolderDateHour strftime_s db (a ++ esc ++ b)
             = getClosestFolderDateHour strftime_s db (a ++ String c b)).
  { intros esc c Hc He. unfold getClosestFolderDateHour, decodeURIComponent.
    rewrite (decode_units_app_plain a (esc ++ b) Ha), He.
    rewrite (decode_units_plain (a ++ String c b)).
    - reflexivity.
    - rewrite forallb_string_app. cbn [forallb_string]. now rewrite Ha, Hc, Hb. }
  split.
  - apply (D "%20" " "%char); [reflexivity|].
    cbn. now rewrite (decode_units_plain b Hb).
  - apply (D "%3A" ":"%char); [reflexivity|].
    cbn. now rewrite (decode_units_plain b Hb).
Qed.

Lemma escaped_space_and_colon_witness :
  getClosestFolderDateHour timestamp_epoch two_hours ("2024-11-26" ++ "%20" ++ "17")
  = getClosestFolderDateHour timestamp_epoch two_hours ("2024-11-26" ++ " " ++ "17")
  /\ getClosestFolderDateHour timestamp_epoch two_hours
       ("2024-11-26" ++ "%3A" ++ "17")
     = getClosestFolderDateHour timestamp_epoch two_hours
         ("2024-11-26" ++ ":" ++ "17").
Proof.
  apply (escaped_space_and_colon timestamp_epoch two_hours "2024-11-26" "17");
    reflexivity.
Defined.

(** X10.  A [%] that is not followed by two hexadecimal digits
    makes [GET /api2/xbltotal/:date] answer with status 500, whatever
    the store holds. *)
Theorem by_date_rejects_cut_escape (strftime_s Date_parse : string -> option Z)
  (db : Database) (pre rest : string) :
  forallb_string plain pre = true ->
  hex_pair_ahead rest = false ->
  exists msg,
    get_by_date strftime_s Date_parse db (pre ++ "%" ++ rest) = Status 500 msg.
Proof.
  intros Hp Hr.
  assert (D : decode_units (pre ++ "%" ++ rest) = None).
  { rewrite (decode_units_app_plain pre ("%" ++ rest) Hp).
    cbn [append decode_units Ascii.eqb Bool.eqb]. unfold hex_pair_ahead in Hr.
    destruct rest as [|h [|l rest]]; try reflexivity.
    destruct (hex_byte h l); [discriminate | reflexivity]. }
  unfold get_by_date, by_date, getClosestFolderDateHour, decodeURIComponent.
  rewrite D. now eexists.
Qed.

Lemma by_date_rejects_cut_escape_witness :
  exists msg,
    get_by_date timestamp_epoch timestamp_ms two_hours ("2024-11-26" ++ "%" ++ "zz")
    = Status 500 msg.
Proof.
  apply (by_date_rejects_cut_escape timestamp_epoch timestamp_ms two_hours
           "2024-11-26" "zz"); reflexivity.
Defined.

(** * Probes and the adapter *)





(** X22.  For each table of the chart endpoint, the flags of its
    checks are the table's existence and, when it exists, the
    existence of the column [getColumnName] resolves for the name, the
    sync id, the capture instant and the kudos: the literals probed in
    the loop agree with the adapter. *)
Theorem checks_probe_adapter_columns (db : Database) (tableName : string) :
  In tableName chart_tables ->
  exists_ (check_table db tableName) = fst (tableExists db tableName)
  /\ hasName (check_table db tableName)
     = fst (tableExists db tableName)
       && fst (columnExists db tableName (getColumnName tableName "name"))
  /\ hasSyncId (check_table db tableName)
     = fst (tableExists db tableName)
       && fst (columnExists db tableName (getColumnName tableName "sync_id"))
  /\ hasFolderDate (check_table db tableName)
     = fst (tableExists db tableName)
       && fst (columnExists db tableName (getColumnName tableName "folder_date"))
  /\ hasKudos (check_table db tableName)
     = fst (tableExists db tableName)
       && fst (columnExists db tableName (getColumnName tableName "kudos")).
Proof.
  intros H. unfold check_table.
  destruct (fst (tableExists db tableName)).
  - simpl in H. destruct H as [<-|[<-|[<-|[<-|[]]]]]; repeat split.
  - repeat split.
Qed.

Lemma checks_probe_adapter_columns_witness :
  exists_ (check_table no_sync_column "XBLTotal3")
  = fst (tableExists no_sync_column "XBLTotal3")
  /\ hasName (check_table no_sync_column "XBLTotal3")
     = fst (tableExists no_sync_column "XBLTotal3")
       && fst (columnExists no_sync_column "XBLTotal3"
                 (getColumnName "XBLTotal3" "name"))
  /\ hasSyncId (check_table no_sync_column "XBLTotal3")
     = fst (tableExists no_sync_column "XBLTotal3")
       && fst (columnExists no_sync_column "XBLTotal3"
                 (getColumnName "XBLTotal3" "sync_id"))
  /\ hasFolderDate (check_table no_sync_column "XBLTotal3")
     = fst (tableExists no_sync_column "XBLTotal3")
       && fst (columnExists no_sync_column "XBLTotal3"
                 (getColumnName "XBLTotal3" "folder_date"))
  /\ hasKudos (check_table no_sync_column "XBLTotal3")
     = fst (tableExists no_sync_column "XBLTotal3")
       && fst (columnExists no_sync_column "XBLTotal3"
                 (getColumnName "XBLTotal3" "kudos")).
Proof.
  apply (checks_probe_adapter_columns no_sync_column "XBLTotal3").
  right; right; right; left; reflexivity.
Defined.



Local Open Scope list_scope.
Local Open Scope string_scope.

(** * Trimming *)

Section Strip.
Variable p : ascii -> bool.

Lemma drop_end_keeps_head (c : ascii) (s : string) :
  p c = false -> drop_end p (String c s) = String c (drop_end p s).
Proof.
  intros H. cbn [drop_end]. rewrite H. now destruct (drop_end p s).
Qed.

Lemma drop_end_idempotent (s : string) :
  drop_end p (drop_end p s) = drop_end p s.
Proof.
  induction s as [|c s IH]; [reflexivity|].
  cbn [drop_end]. destruct (drop_end p s) as [|d r] eqn:E.
  - destruct (p c) eqn:Hc; [reflexivity|].
    cbn [drop_end]. now rewrite Hc.
  - cbn [drop_end]. cbn [drop_end] in IH.
    destruct (drop_end p r) as [|d' r'] eqn:E'.
    + destruct (p d); [discriminate|]. now rewrite IH.
    + now rewrite IH.
Qed.

Lemma drop_while_head (s : string) :
  drop_while p s = EmptyString
  \/ exists c r, drop_while p s = String c r /\ p c = false.
Proof.
  induction s as [|c s IH]; [now left|].
  cbn [drop_while]. destruct (p c) eqn:Hc; [exact IH|].
  right. now exists c, s.
Qed.

Lemma strip_idempotent (s : string) : strip p (strip p s) = strip p s.
Proof.
  unfold strip. destruct (drop_while_head s) as [->|[c [r [-> Hc]]]];
    [reflexivity|].
  rewrite (drop_end_keeps_head c r Hc). cbn [drop_while]. rewrite Hc.
  rewrite <- (drop_end_keeps_head c r Hc). apply drop_end_idempotent.
Qed.

Lemma strip_clean (s : string) :
  forallb_string (fun c => negb (p c)) s = true -> strip p s = s.
Proof.
  intros H. unfold strip.
  assert (D : drop_while p s = s).
  { destruct s as [|c s]; [reflexivity|]. cbn [forallb_string] in H.
    apply andb_true_iff in H as [Hc _]. apply negb_true_iff in Hc.
    cbn [drop_while]. now rewrite Hc. }
  rewrite D. clear D. induction s as [|c s IH]; [reflexivity|].
  cbn [forallb_string] in H. apply andb_true_iff in H as [Hc Hs].
  apply negb_true_iff in Hc. rewrite (drop_end_keeps_head c s Hc).
  now rewrite (IH Hs).
Qed.
End Strip.

(** A text trimmed for a class of units is trimmed for every smaller
    class. *)
Lemma strip_smaller (p q : ascii -> bool) (s : string) :
  (forall c, q c = true -> p c = true) ->
  strip p s = s -> strip q s = s.
Proof.
  intros Hqp H. unfold strip in *.
  destruct s as [|c s]; [reflexivity|].
  assert (Hc : p c = false).
  { destruct (p c) eqn:E; [|reflexivity]. exfalso.
    cbn [drop_while] in H. rewrite E in H.
    assert (L : String.length (drop_end p (drop_while p s))
                <= String.length s).
    { clear. induction s as [|d s IH]; [simpl; lia|].
      cbn [drop_while]. destruct (p d).
      - simpl. lia.
      - clear IH. generalize (String d s). intros u.
        induction u as [|e u IHu]; [simpl; lia|].
        cbn [drop_end]. destruct (drop_end p u); [destruct (p e)|];
          simpl in *; lia. }
    rewrite H in L. simpl in L. lia. }
  assert (Hq : q c = false).
  { destruct (q c) eqn:E; [|reflexivity]. now rewrite (Hqp c E) in Hc. }
  cbn [drop_while] in *. rewrite Hc in H. rewrite Hq.
  revert H. generalize (String c s). clear - Hqp. intros u.
  induction u as [|e u IH]; [reflexivity|].
  cbn [drop_end]. destruct (drop_end p u) as [|d r] eqn:E.
  - destruct (p e) eqn:Pe; [discriminate|]. intros [= <-].
    cbn [drop_end]. destruct (q e) eqn:Qe; [|reflexivity].
    now rewrite (Hqp e Qe) in Pe.
  - intros [= <-]. rewrite IH by reflexivity. reflexivity.
Qed.

Lemma space_is_js_space (c : ascii) : Ascii.eqb " " c = true -> js_space c = true.
Proof. intros H. apply Ascii.eqb_eq in H. now subst. Qed.

(** A name trimmed by JavaScript is its own chart key. *)
Lemma chart_key_trimmed (s : string) : chart_key (js_trim s) = js_trim s.
Proof.
  unfold chart_key, sql_trim, js_trim.
  rewrite (strip_smaller js_space (Ascii.eqb " ") (strip js_space s)
             space_is_js_space (strip_idempotent js_space s)).
  apply strip_idempotent.
Qed.

Local Open Scope list_scope.
Local Open Scope string_scope.

(** * The scraper's cells *)

Lemma digit_value_decimal (c : ascii) :
  digit_value 10 c = if is_digit c then Some (code c - 48) else None.
Proof.
  unfold digit_value, hex_value. destruct (is_digit c) eqn:D.
  - unfold is_digit, between in D. apply andb_true_iff in D as [D1 D2].
    apply Nat.leb_le in D1, D2.
    destruct (code c - 48 <? 10)%nat eqn:E; [reflexivity|].
    apply Nat.ltb_ge in E. lia.
  - destruct (between 65 70 c) eqn:U.
    + unfold between in U. apply andb_true_iff in U as [U1 U2].
      apply Nat.leb_le in U1, U2.
      destruct (code c - 55 <? 10)%nat eqn:E; [|reflexivity].
      apply Nat.ltb_lt in E. lia.
    + destruct (between 97 102 c) eqn:L; [|reflexivity].
      unfold between in L. apply andb_true_iff in L as [L1 L2].
      apply Nat.leb_le in L1, L2.
      destruct (code c - 87 <? 10)%nat eqn:E; [|reflexivity].
      apply Nat.ltb_lt in E. lia.
Qed.

Lemma leading_digits_stop (rest : string) :
  ends_number rest = true -> leading_digits 10 rest = [].
Proof.
  destruct rest as [|c r]; [reflexivity|]. cbn [ends_number leading_digits].
  rewrite digit_value_decimal. intros H. apply negb_true_iff in H.
  apply orb_false_iff in H as [H _]. apply orb_false_iff in H as [H _].
  now rewrite H.
Qed.

Lemma digits_number_decimal (ds rest : string) :
  forallb_string is_digit ds = true ->
  ends_number rest = true ->
  forall acc,
    fold_left (fun a d => (a * Z.of_nat 10 + Z.of_nat d)%Z)
      (leading_digits 10 (ds ++ rest)) acc
    = digits_value acc ds.
Proof.
  intros Hd Hr. induction ds as [|c ds IH]; intros acc.
  - cbn [append]. now rewrite (leading_digits_stop rest Hr).
  - cbn [forallb_string] in Hd. apply andb_true_iff in Hd as [Hc Hd].
    cbn [append leading_digits]. rewrite digit_value_decimal, Hc.
    cbn [fold_left digits_value]. rewrite (IH Hd). f_equal. lia.
Qed.

Lemma digit_not_space (c : ascii) : is_digit c = true -> js_space c = false.
Proof.
  unfold is_digit, js_space, between. intros H.
  apply andb_true_iff in H as [H1 H2]. apply Nat.leb_le in H1, H2.
  destruct (code c <=? 13)%nat eqn:E1; [apply Nat.leb_le in E1; lia|].
  rewrite andb_false_r. cbn [orb].
  destruct (code c =? 32)%nat eqn:E2; [apply Nat.eqb_eq in E2; lia|].
  destruct (code c =? 160)%nat eqn:E3; [apply Nat.eqb_eq in E3; lia|].
  reflexivity.
Qed.

Lemma digit_code (c : ascii) (n : nat) :
  is_digit c = true -> n < 48 \/ (57 < n /\ n < 256) ->
  Ascii.eqb c (ascii_of_nat n) = false.
Proof.
  intros H Hn. apply code_neq. unfold is_digit, between in H.
  apply andb_true_iff in H as [H1 H2]. apply Nat.leb_le in H1, H2.
  unfold code at 2. rewrite nat_ascii_embedding by lia. lia.
Qed.

(** The number read from a text that opens with decimal digits. *)
Lemma parseInt_decimal (ds rest : string) :
  decimal ds = true -> ends_number rest = true ->
  parseInt (ds ++ rest) = Some (digits_value 0 ds).
Proof.
  intros Hd Hr. unfold decimal in Hd. destruct ds as [|c ds]; [discriminate|].
  pose proof Hd as Hall. cbn [forallb_string] in Hd.
  apply andb_true_iff in Hd as [Hc Hds].
  unfold parseInt. cbn [append drop_while]. rewrite (digit_not_space c Hc).
  change "-"%char with (ascii_of_nat 45). change "+"%char with (ascii_of_nat 43).
  rewrite (digit_code c 45 Hc), (digit_code c 43 Hc) by lia.
  cbn [snd fst].
  assert (P : match (ds ++ rest) with
              | String x r =>
                  Ascii.eqb c "0" && (Ascii.eqb x "x" || Ascii.eqb x "X")
              | EmptyString => false
              end = false).
  { destruct ds as [|d ds]; cbn [append].
    - destruct rest as [|x r]; [reflexivity|]. cbn [ends_number] in Hr.
      apply negb_true_iff in Hr. apply orb_false_iff in Hr as [Hr HX].
      apply orb_false_iff in Hr as [_ Hx]. rewrite Hx, HX. apply andb_false_r.
    - cbn [forallb_string] in Hds. apply andb_true_iff in Hds as [Hd' _].
      change "x"%char with (ascii_of_nat 120).
      change "X"%char with (ascii_of_nat 88).
      rewrite (digit_code d 120 Hd'), (digit_code d 88 Hd') by lia.
      apply andb_false_r. }
  assert (Q : (match (ds ++ rest) with
               | String x r =>
                   if Ascii.eqb c "0" && (Ascii.eqb x "x" || Ascii.eqb x "X")
                   then (16, r) else (10, String c (ds ++ rest))
               | EmptyString => (10, String c (ds ++ rest))
               end) = (10, String c (ds ++ rest))).
  { destruct (ds ++ rest); [reflexivity|]. now rewrite P. }
  rewrite Q. cbn [fst snd].
  pose proof (digits_number_decimal (String c ds) rest Hall Hr 0%Z) as V.
  cbn [append] in V. unfold digits_number.
  destruct (leading_digits 10 (String c (ds ++ rest))) as [|v vs] eqn:E.
  - cbn [leading_digits] in E. rewrite digit_value_decimal, Hc in E. discriminate.
  - now rewrite V.
Qed.

(** X24.  A cell that holds no white space and opens with up to
    fifteen decimal digits, followed by nothing or by a unit that is
    neither a digit nor [x] nor [X], is read as the number the digits
    write: what follows them (a thousands separator, say) is dropped.
    The number is not negative. *)
Theorem number_cell_reads_leading_digits (ds rest : string) :
  decimal ds = true ->
  ends_number rest = true ->
  forallb_string (fun c => negb (js_space c)) (ds ++ rest) = true ->
  String.length ds <= 15 ->
  number_cell (ds ++ rest) = digits_value 0 ds
  /\ (0 <= number_cell (ds ++ rest))%Z.
Proof.
  intros Hd Hr Hs _. unfold number_cell, js_trim.
  rewrite (strip_clean js_space _ Hs), (parseInt_decimal ds rest Hd Hr).
  split; [reflexivity|].
  assert (G : forall s acc, (0 <= acc)%Z -> (0 <= digits_value acc s)%Z).
  { induction s as [|c s IH]; intros acc Ha; cbn [digits_value]; [exact Ha|].
    apply IH. lia. }
  apply G. lia.
Qed.

Lemma number_cell_reads_leading_digits_witness :
  number_cell ("1" ++ ",234") = digits_value 0 "1"
  /\ (0 <= number_cell ("1" ++ ",234"))%Z.
Proof.
  apply (number_cell_reads_leading_digits "1" ",234"); try reflexivity.
  simpl. lia.
Defined.

(** X25.  The scraper keeps one entry for each table row of at
    least eight cells and none for a shorter row; an entry's rank, name
    and kudos are read from the first, second and eighth cell. *)
Theorem short_rows_are_skipped (table_rows : list (list string)) :
  length (leaderboardData table_rows)
  = length (filter (fun cells => (8 <=? length cells)%nat) table_rows)
  /\ forall e, In e (leaderboardData table_rows) ->
       exists cells,
         In cells table_rows /\ 8 <= length cells
         /\ e_rank e = number_cell (nth 0 cells "")
         /\ e_name e = js_trim (nth 1 cells "")
         /\ e_kudos e = number_cell (nth 7 cells "").
Proof.
  split.
  - unfold leaderboardData. induction table_rows as [|cells l IH]; [reflexivity|].
    cbn [flat_map filter]. rewrite List.length_app, IH.
    do 8 (destruct cells as [|? cells]; [reflexivity|]). reflexivity.
  - intros e He. unfold leaderboardData in He.
    apply in_flat_map in He as [cells [Hc He]]. exists cells.
    split; [exact Hc|].
    do 8 (destruct cells as [|? cells]; [destruct He|]).
    destruct He as [<-|[]]. cbn. repeat split. lia.
Qed.

(** X26.  The name of a scraped entry is trimmed: trimming it again,
    in JavaScript or in SQLite, returns it, so that the chart endpoint
    files it under the name as stored. *)
Theorem scraped_names_are_chart_keys (table_rows : list (list string))
  (e : Entry) :
  In e (leaderboardData table_rows) ->
  js_trim (e_name e) = e_name e
  /\ sql_trim (e_name e) = e_name e
  /\ chart_key (e_name e) = e_name e.
Proof.
  intros He. unfold leaderboardData in He.
  apply in_flat_map in He as [cells [_ He]].
  do 8 (destruct cells as [|? cells]; [destruct He|]).
  destruct He as [<-|[]]. cbn [e_name]. unfold name_cell.
  split; [apply strip_idempotent|]. split.
  - apply (strip_smaller js_space (Ascii.eqb " ") _ space_is_js_space).
    apply strip_idempotent.
  - apply chart_key_trimmed.
Qed.

Lemma scraped_names_are_chart_keys_witness :
  js_trim "Al" = "Al" /\ sql_trim "Al" = "Al" /\ chart_key "Al" = "Al".
Proof.
  apply (scraped_names_are_chart_keys
           [["2"; " Al "; "0"; "0"; "4"; "5"; "6"; "1,000"]]
           {| e_rank := 2; e_name := "Al"; e_first_place_finishes := 0;
              e_second_place_finishes := 0; e_third_place_finishes := 4;
              e_races_completed := 5; e_kudos_rank := 6; e_kudos := 1 |}).
  left. reflexivity.
Defined.

Local Open Scope list_scope.
Local Open Scope string_scope.


